(** * trading_bot.py: the Binance futures wrapper and its interactive shell

    A shallow embedding of [src/trading_bot.py].  The wrapper class
    [BinanceFuturesBot] forwards each operation to the exchange client; the
    shell reads a menu choice, collects the parameters and calls one wrapper
    operation.

    Conventions of the model:
    - text is ASCII ([string]); [upper] and [strip] are Python's [str.upper]
      and [str.strip] on that range;
    - Python floats are binary64 ([PrimFloat.float]), with the comparisons of
      IEEE 754 (so [nan <= 0] is false);
    - exceptions are values of [exn]; a computation returns [Ok v] or
      [Raise e] together with the state it leaves behind;
    - the exchange is a parameter: a state type with a function answering
      each request;
    - the console is a list of input events still to come and the list of
      lines printed so far; the end of the list is the end of input. *)

From Stdlib Require Import List String Ascii ZArith NArith Bool Lia.
From Stdlib Require Import Floats DecimalString.
Import ListNotations.

Local Open Scope string_scope.
Local Open Scope Z_scope.

(* ------------------------------------------------------------------ *)
(** ** Text *)

Module Text.

(** [str.upper] on one ASCII character. *)
Definition upper_char (c : ascii) : ascii :=
  let n := N_of_ascii c in
  if (97 <=? n)%N && (n <=? 122)%N then ascii_of_N (n - 32) else c.

(** [s.upper()]. *)
Fixpoint upper (s : string) : string :=
  match s with
  | EmptyString => EmptyString
  | String c rest => String (upper_char c) (upper rest)
  end.

(** The ASCII characters [str.strip()] removes: tab, line feed, vertical tab,
    form feed, carriage return, the four separators 0x1c-0x1f and space. *)
Definition is_space (c : ascii) : bool :=
  let n := N_of_ascii c in
  ((9 <=? n)%N && (n <=? 13)%N) || ((28 <=? n)%N && (n <=? 32)%N).

Fixpoint lstrip (s : string) : string :=
  match s with
  | EmptyString => EmptyString
  | String c rest => if is_space c then lstrip rest else s
  end.

Fixpoint rstrip (s : string) : string :=
  match s with
  | EmptyString => EmptyString
  | String c rest =>
      match rstrip rest with
      | EmptyString => if is_space c then EmptyString else String c EmptyString
      | kept => String c kept
      end
  end.

(** [s.strip()]. *)
Definition strip (s : string) : string := rstrip (lstrip s).

(** [x in xs] for a list of strings. *)
Definition mem (x : string) (xs : list string) : bool :=
  existsb (String.eqb x) xs.

(** Truth value of a string: empty is false. *)
Definition truthy (s : string) : bool :=
  match s with EmptyString => false | _ => true end.

(** [repr(s)] for text without quotes or escapes to protect. *)
Definition repr (s : string) : string := "'" ++ s ++ "'".

(** A line break, and [s * n]. *)
Definition nl : string := String (ascii_of_nat 10) EmptyString.

Fixpoint times (s : string) (n : nat) : string :=
  match n with
  | O => EmptyString
  | S k => s ++ times s k
  end.

Definition of_Z (z : Z) : string := NilZero.string_of_int (Z.to_int z).
Definition of_nat (n : nat) : string := of_Z (Z.of_nat n).

Definition is_digit (c : ascii) : bool :=
  let n := N_of_ascii c in (48 <=? n)%N && (n <=? 57)%N.

Definition digit (c : ascii) : Z := Z.of_N (N_of_ascii c) - 48.

(** The digits of an integer literal: decimal digits, single underscores
    allowed between two digits. *)
Fixpoint digits (s : string) (acc : Z) (after_digit : bool) : option Z :=
  match s with
  | EmptyString => if after_digit then Some acc else None
  | String c rest =>
      if is_digit c then digits rest (10 * acc + digit c) true
      else if Ascii.eqb c "_" && after_digit then digits rest acc false
      else None
  end.

(** [int(s)] in base 10: surrounding whitespace, an optional sign, digits. *)
Definition to_int (s : string) : option Z :=
  match strip s with
  | String "-" rest => option_map Z.opp (digits rest 0 false)
  | String "+" rest => digits rest 0 false
  | body => digits body 0 false
  end.

End Text.

(* ------------------------------------------------------------------ *)
(** ** Numbers *)

Module Num.

(** [x <= 0], [x > 0] and [x != 0] on floats, as Python compares a float
    with the integer literal 0. *)
Definition le0 (x : float) : bool := PrimFloat.leb x 0%float.
Definition gt0 (x : float) : bool := PrimFloat.ltb 0%float x.
Definition ne0 (x : float) : bool := negb (PrimFloat.eqb x 0%float).
Definition ge0 (x : float) : bool := PrimFloat.leb 0%float x.

(** Truth value of a float: zero (of either sign) is false. *)
Definition truthy (x : float) : bool := ne0 x.

End Num.

(* ------------------------------------------------------------------ *)
(** ** Exceptions and results *)

(** The exception classes that occur.  [Error] stands for any other
    subclass of [Exception] (a transport failure or a malformed response in
    the client library, a timestamp out of range). *)
Inductive exn : Type :=
| ValueError (msg : string)
| TypeError (msg : string)
| KeyError (key : string)
| AttributeError (msg : string)
| OverflowError (msg : string)
| BinanceAPIException (code : Z) (msg : string)
| Error (msg : string)
| EOFError
| KeyboardInterrupt.

(** [isinstance(e, Exception)]: [KeyboardInterrupt] derives from
    [BaseException] only. *)
Definition is_Exception (e : exn) : bool :=
  match e with KeyboardInterrupt => false | _ => true end.

(** [str(e)], what an f-string prints for the exception. *)
Definition str_exn (e : exn) : string :=
  match e with
  | ValueError msg | TypeError msg | AttributeError msg
  | OverflowError msg | Error msg => msg
  | KeyError key => Text.repr key
  | BinanceAPIException code msg =>
      "APIError(code=" ++ Text.of_Z code ++ "): " ++ msg
  | EOFError => "EOF when reading a line"
  | KeyboardInterrupt => ""
  end.

Inductive result (A : Type) : Type :=
| Ok (v : A)
| Raise (e : exn).
Arguments Ok {A} v.
Arguments Raise {A} e.

(* ------------------------------------------------------------------ *)
(** ** JSON-like values *)

(** What the client hands back: the decoded JSON of a response. *)
#[warnings="-register-all"]
Inductive value : Type :=
| VNone
| VBool (b : bool)
| VInt (z : Z)
| VFloat (x : float)
| VStr (s : string)
| VList (items : list value)
| VDict (entries : list (string * value)).

Module Py.

(** [type(v).__name__], as error messages quote it. *)
Definition type_name (v : value) : string :=
  match v with
  | VNone => "NoneType"
  | VBool _ => "bool"
  | VInt _ => "int"
  | VFloat _ => "float"
  | VStr _ => "str"
  | VList _ => "list"
  | VDict _ => "dict"
  end.

Fixpoint assoc (key : string) (entries : list (string * value)) : option value :=
  match entries with
  | [] => None
  | (k, v) :: rest => if String.eqb k key then Some v else assoc key rest
  end.

(** [d.get(key, default)]. *)
Definition get (d : value) (key : string) (default : value) : result value :=
  match d with
  | VDict entries =>
      Ok (match assoc key entries with Some v => v | None => default end)
  | _ =>
      Raise (AttributeError
               ("'" ++ type_name d ++ "' object has no attribute 'get'"))
  end.

(** [d[key]] with a string key. *)
Definition item (d : value) (key : string) : result value :=
  match d with
  | VDict entries =>
      match assoc key entries with
      | Some v => Ok v
      | None => Raise (KeyError key)
      end
  | VList _ => Raise (TypeError "list indices must be integers or slices, not str")
  | VStr _ => Raise (TypeError "string indices must be integers, not 'str'")
  | _ => Raise (TypeError ("'" ++ type_name d ++ "' object is not subscriptable"))
  end.

(** [for x in v]: the items a loop over [v] visits. *)
Definition iter (v : value) : result (list value) :=
  match v with
  | VList items => Ok items
  | VDict entries => Ok (map (fun kv => VStr (fst kv)) entries)
  | VStr s => Ok (map (fun c => VStr (String c EmptyString)) (list_ascii_of_string s))
  | _ => Raise (TypeError ("'" ++ type_name v ++ "' object is not iterable"))
  end.

(** [len(v)]. *)
Definition len (v : value) : result nat :=
  match v with
  | VList items => Ok (List.length items)
  | VDict entries => Ok (List.length entries)
  | VStr s => Ok (String.length s)
  | _ => Raise (TypeError ("object of type '" ++ type_name v ++ "' has no len()"))
  end.

(** [bool(v)]. *)
Definition truthy (v : value) : bool :=
  match v with
  | VNone => false
  | VBool b => b
  | VInt z => negb (z =? 0)
  | VFloat x => Num.truthy x
  | VStr s => Text.truthy s
  | VList items => match items with [] => false | _ => true end
  | VDict entries => match entries with [] => false | _ => true end
  end.

End Py.

(** The conversions and renderings of the Python runtime the program calls
    on numbers: they are taken as given. *)
Record runtime : Type := {
  (** [float(s)] for text; [None] is [ValueError]. *)
  float_of_text : string -> option float;
  (** [float(n)] for an integer beyond 63 bits; [None] is [OverflowError]. *)
  float_of_bigint : Z -> option float;
  (** [str(x)] for a float. *)
  str_float : float -> string;
  (** [format(x, ',.2f')]. *)
  money : float -> string;
  (** [str(v)] for a decoded JSON value. *)
  str_value : value -> string;
  (** [datetime.fromtimestamp(v / 1000).strftime('%Y-%m-%d %H:%M:%S')]: the
      text, or the message of the exception. *)
  strftime_ms : value -> string + string
}.

Section Conversions.
Variable rt : runtime.

(** [float(n)] for an integer. *)
Definition float_of_int (n : Z) : result float :=
  if Z.abs n <? 2 ^ 63 then
    let m := PrimFloat.of_uint63 (Uint63.of_Z (Z.abs n)) in
    Ok (if n <? 0 then PrimFloat.opp m else m)
  else
    match float_of_bigint rt n with
    | Some x => Ok x
    | None => Raise (OverflowError "int too large to convert to float")
    end.

(** The time of an order, shown. *)
Definition order_time (v : value) : result string :=
  match strftime_ms rt v with
  | inl shown => Ok shown
  | inr msg => Raise (Error msg)
  end.

(** [float(v)]. *)
Definition py_float (v : value) : result float :=
  match v with
  | VFloat x => Ok x
  | VInt n => float_of_int n
  | VBool b => Ok (if b then 1%float else 0%float)
  | VStr s =>
      match float_of_text rt s with
      | Some x => Ok x
      | None =>
          Raise (ValueError ("could not convert string to float: " ++ Text.repr s))
      end
  | _ =>
      Raise (TypeError
               ("float() argument must be a string or a real number, not '"
                ++ Py.type_name v ++ "'"))
  end.

End Conversions.

(* ------------------------------------------------------------------ *)
(** ** Computations: state passing with exceptions *)

Definition M (S A : Type) : Type := S -> result A * S.

Definition ret {S A} (a : A) : M S A := fun s => (Ok a, s).

Definition raise {S A} (e : exn) : M S A := fun s => (Raise e, s).

Definition bind {S A B} (m : M S A) (k : A -> M S B) : M S B :=
  fun s =>
    match m s with
    | (Ok a, s') => k a s'
    | (Raise e, s') => (Raise e, s')
    end.

(** [try: m  except ... as e: h e].  A handler that does not match the class
    of [e] re-raises it. *)
Definition try_except {S A} (m : M S A) (h : exn -> M S A) : M S A :=
  fun s =>
    match m s with
    | (Ok a, s') => (Ok a, s')
    | (Raise e, s') => h e s'
    end.

(** A pure step that may raise. *)
Definition lift {S A} (r : result A) : M S A := fun s => (r, s).

(** [if cond: raise e]. *)
Definition raise_if {S} (cond : bool) (e : exn) : M S unit :=
  if cond then raise e else ret tt.

Declare Scope py_scope.
Delimit Scope py_scope with py.
Notation "x <- m ;; k" := (bind m (fun x => k))
  (at level 61, m at next level, right associativity) : py_scope.
Notation "m ;; k" := (bind m (fun _ => k))
  (at level 61, right associativity) : py_scope.
Local Open Scope py_scope.

(** The same sequencing for pure steps. *)
Definition and_then {A B} (r : result A) (k : A -> result B) : result B :=
  match r with
  | Ok a => k a
  | Raise e => Raise e
  end.

(* ------------------------------------------------------------------ *)
(** ** The exchange, the log and the console *)

(** The calls the wrapper makes on the client, with their arguments.
    [futures_create_order] takes keyword arguments. *)
Inductive request : Type :=
| futures_account
| futures_symbol_ticker (symbol : string)
| futures_create_order (kwargs : list (string * value))
| futures_get_order (symbol : string) (orderId : Z)
| futures_cancel_order (symbol : string) (orderId : Z)
| futures_get_open_orders (symbol : option string).

(** What a call comes back with: the decoded response, an error reported by
    the exchange, or any other failure of the client. *)
Inductive reply : Type :=
| Answer (v : value)
| Refused (code : Z) (msg : string)
| Broken (msg : string).

(** The client object the bot holds. *)
Record Client : Type := {
  client_key : string;
  client_secret : string;
  client_testnet : bool;
  API_URL : option string
}.

Record BinanceFuturesBot : Type := {
  api_key : string;
  api_secret : string;
  testnet : bool;
  client : Client
}.

Inductive level : Type := INFO | ERROR.

(** What the user does at a prompt: types a line, or interrupts. *)
Inductive event : Type :=
| Typed (raw : string)
| CtrlC.

Record console : Type := {
  stdin : list event;
  stdout : list string
}.

(** [print(line)]. *)
Definition print (line : string) : M console unit :=
  fun c => (Ok tt, {| stdin := stdin c; stdout := (stdout c ++ [line])%list |}).

(** [input(prompt)]: the prompt is written, then a line is read. *)
Definition input (prompt : string) : M console string :=
  fun c =>
    let shown := (stdout c ++ [prompt])%list in
    match stdin c with
    | [] => (Raise EOFError, {| stdin := []; stdout := shown |})
    | Typed raw :: rest => (Ok raw, {| stdin := rest; stdout := shown |})
    | CtrlC :: rest => (Raise KeyboardInterrupt, {| stdin := rest; stdout := shown |})
    end.

(** The world outside the bot object: the exchange (with state [X]), the
    requests made so far, the log and the console. *)
Record world (X : Type) : Type := {
  exch : X;
  calls : list request;
  log : list (level * string);
  tty : console
}.
Arguments exch {X} w.
Arguments calls {X} w.
Arguments log {X} w.
Arguments tty {X} w.

(** A bot at work: the object and the world. *)
Record session (X : Type) : Type := {
  self : BinanceFuturesBot;
  env : world X
}.
Arguments self {X} s.
Arguments env {X} s.

(* ------------------------------------------------------------------ *)
(** ** A sample runtime and exchange

    A small runtime and a small exchange to run the program on: the exchange
    keeps the resting orders, numbers new ones, honours the symbol filter
    and refuses what it does not know. *)

Module Sample.

Definition float_table : list (string * float) :=
  [("0", 0%float); ("0.000", 0%float); ("0.500", 0.5%float);
   ("-2.000", (-2)%float); ("1", 1%float); ("2", 2%float);
   ("49000", 49000%float); ("50000", 50000%float);
   ("50000.00", 50000%float); ("-1", (-1)%float)].

Fixpoint lookup {A} (key : string) (table : list (string * A)) : option A :=
  match table with
  | [] => None
  | (k, v) :: rest => if String.eqb k key then Some v else lookup key rest
  end.

Definition show (v : value) : string :=
  match v with
  | VStr s => s
  | VInt n => Text.of_Z n
  | VNone => "None"
  | VBool b => if b then "True" else "False"
  | _ => "..."
  end.

(** A runtime for the samples: the few texts the samples convert, and no
    integer beyond 63 bits (the samples have none). *)
Definition rt : runtime := {|
  float_of_text := fun s => lookup (Text.strip s) float_table;
  float_of_bigint := fun _ => None;
  str_float := fun _ => "<float>";
  money := fun _ => "<amount>";
  str_value := show;
  strftime_ms := fun _ => inl "2025-07-01 00:00:00"
|}.

(** The exchange: the next order id and the resting orders with their
    symbols. *)
Record book : Type := {
  next_id : Z;
  resting : list (Z * string)
}.

Definition position (symbol amount : string) : value :=
  VDict [("symbol", VStr symbol); ("positionAmt", VStr amount);
         ("entryPrice", VStr "50000.00"); ("unrealizedPnL", VStr "1");
         ("percentage", VStr "2")].

Definition account : value :=
  VDict [("totalWalletBalance", VStr "50000.00");
         ("totalUnrealizedPnL", VStr "1");
         ("totalMarginBalance", VStr "49000");
         ("availableBalance", VStr "2");
         ("maxWithdrawAmount", VStr "0.500");
         ("positions", VList [position "BTCUSDT" "0.500";
                              position "ETHUSDT" "0.000";
                              position "SOLUSDT" "-2.000"])].

Definition order (entry : Z * string) : value :=
  VDict [("orderId", VInt (fst entry)); ("symbol", VStr (snd entry));
         ("status", VStr "NEW"); ("type", VStr "LIMIT"); ("side", VStr "BUY");
         ("origQty", VStr "1"); ("executedQty", VStr "0");
         ("price", VStr "50000.00"); ("avgPrice", VStr "0");
         ("time", VInt 1751328000000)].

Definition known (symbol : string) (id : Z) (b : book) : bool :=
  existsb (fun e => (fst e =? id) && String.eqb (snd e) symbol) (resting b).

Definition serve (c : Client) (req : request) (b : book) : reply * book :=
  match req with
  | futures_account => (Answer account, b)
  | futures_symbol_ticker symbol =>
      if String.eqb symbol "BTCUSDT"
      then (Answer (VDict [("symbol", VStr symbol); ("price", VStr "50000.00")]), b)
      else (Refused (-1121) "Invalid symbol.", b)
  | futures_create_order kwargs =>
      let symbol := match lookup "symbol" kwargs with
                    | Some (VStr s) => s
                    | _ => ""
                    end in
      (Answer (VDict (("orderId", VInt (next_id b)) :: ("status", VStr "NEW")
                      :: kwargs)),
       {| next_id := next_id b + 1;
          resting := (resting b ++ [(next_id b, symbol)])%list |})
  | futures_get_order symbol id =>
      if known symbol id b then (Answer (order (id, symbol)), b)
      else (Refused (-2013) "Order does not exist.", b)
  | futures_cancel_order symbol id =>
      if known symbol id b then
        (Answer (VDict [("orderId", VInt id); ("symbol", VStr symbol);
                        ("status", VStr "CANCELED")]),
         {| next_id := next_id b;
            resting := filter (fun e => negb (fst e =? id)) (resting b) |})
      else (Refused (-2011) "Unknown order sent.", b)
  | futures_get_open_orders None => (Answer (VList (map order (resting b))), b)
  | futures_get_open_orders (Some symbol) =>
      (Answer (VList (map order
                        (filter (fun e => String.eqb (snd e) symbol) (resting b)))),
       b)
  end.

Definition dial (c : Client) (b : book) : reply * book := (Answer VNone, b).

Definition bot : BinanceFuturesBot := {|
  api_key := "key"; api_secret := "secret"; testnet := true;
  client := {| client_key := "key"; client_secret := "secret";
               client_testnet := true;
               API_URL := Some "https://testnet.binancefuture.com" |}
|}.

(** A session at the menu with the given input to come: two orders rest on
    the exchange. *)
Definition at_menu (events : list event) : session book := {|
  self := bot;
  env := {| exch := {| next_id := 1001;
                       resting := [(1000, "BTCUSDT"); (999, "ETHUSDT")] |};
            calls := []; log := [];
            tty := {| stdin := events; stdout := [] |} |}
|}.

Definition start : session book := at_menu [].

(** An exchange that answers every request with [v], and one that refuses
    every client. *)
Definition answering (v : value) (c : Client) (req : request) (b : book)
    : reply * book :=
  (Answer v, b).

Definition refusing (c : Client) (b : book) : reply * book :=
  (Refused (-2015) "Invalid API-key, IP, or permissions for action.", b).

(** An account whose second position has no amount to read. *)
Definition broken_account : value :=
  VDict [("totalWalletBalance", VStr "50000.00");
         ("positions", VList [position "BTCUSDT" "0.500";
                              VDict [("symbol", VStr "ETHUSDT");
                                     ("positionAmt", VStr "n/a")];
                              position "SOLUSDT" "-2.000"])].

End Sample.

(* ------------------------------------------------------------------ *)
(** ** The wrapper: class [BinanceFuturesBot] *)

(** One entry of [account_data['positions']]. *)
Record position_data : Type := {
  pos_symbol : value;
  pos_size : value;
  pos_entry_price : value;
  pos_unrealized_pnl : value;
  pos_percentage : value
}.

(** The dictionary [get_account_info] returns. *)
Record account_data : Type := {
  total_wallet_balance : value;
  total_unrealized_pnl : value;
  total_margin_balance : value;
  available_balance : value;
  max_withdraw_amount : value;
  positions : list position_data
}.

(** The dictionary [get_order_status] returns. *)
Record status_info : Type := {
  st_orderId : value;
  st_symbol : value;
  st_status : value;
  st_type : value;
  st_side : value;
  st_origQty : value;
  st_executedQty : value;
  st_price : value;
  st_avgPrice : value;
  st_time : string
}.

Section Bot.

(** The Python runtime's conversions. *)
Variable rt : runtime.

(** The exchange: its state, how it answers a request made through a
    client, and how it answers the construction of a client. *)
Context {X : Type}.
Variable serve : Client -> request -> X -> reply * X.
Variable dial : Client -> X -> reply * X.

Local Abbreviation world := (world X).
Local Abbreviation session := (session X).

Definition logger (lvl : level) (msg : string) : M world unit :=
  fun w =>
    (Ok tt, {| exch := exch w; calls := calls w;
               log := (log w ++ [(lvl, msg)])%list; tty := tty w |}).

(** Run a step on the world of a session, on the console of a world. *)
Definition in_env {A} (m : M world A) : M session A :=
  fun s =>
    let (r, w) := m (env s) in (r, {| self := self s; env := w |}).

Definition in_tty {A} (m : M console A) : M world A :=
  fun w =>
    let (r, c) := m (tty w) in
    (r, {| exch := exch w; calls := calls w; log := log w; tty := c |}).

Definition logger_info (msg : string) : M session unit := in_env (logger INFO msg).
Definition logger_error (msg : string) : M session unit := in_env (logger ERROR msg).

(** The outcome of a call, as the client library reports it. *)
Definition outcome (r : reply) : result value :=
  match r with
  | Answer v => Ok v
  | Refused code msg => Raise (BinanceAPIException code msg)
  | Broken msg => Raise (Error msg)
  end.

(** [self.client.<method>(...)]: one round trip to the exchange. *)
Definition call (req : request) : M session value :=
  fun s =>
    let w := env s in
    let (r, x) := serve (client (self s)) req (exch w) in
    (outcome r,
     {| self := self s;
        env := {| exch := x; calls := (calls w ++ [req])%list;
                  log := log w; tty := tty w |} |}).

(** The [except] clauses every method ends with: the error is logged under
    its kind and raised again.  [invalid] is the text of the [ValueError]
    clause where the method has one. *)
Definition logged {A} (doing : string) (invalid : option string)
    (body : M session A) : M session A :=
  try_except body (fun e =>
    match e, invalid with
    | BinanceAPIException _ _, _ =>
        logger_error ("API error " ++ doing ++ ": " ++ str_exn e);; raise e
    | ValueError _, Some what =>
        logger_error ("Invalid input for " ++ what ++ ": " ++ str_exn e);; raise e
    | KeyboardInterrupt, _ => raise e
    | _, _ =>
        logger_error ("Unexpected error " ++ doing ++ ": " ++ str_exn e);; raise e
    end).

(** [Client(api_key=..., api_secret=..., testnet=...)]: the client is
    built, which the exchange may refuse. *)
Definition new_client (key secret : string) (on_testnet : bool) : M world Client :=
  fun w =>
    let c := {| client_key := key; client_secret := secret;
                client_testnet := on_testnet; API_URL := None |} in
    let (r, x) := dial c (exch w) in
    (and_then (outcome r) (fun _ => Ok c),
     {| exch := x; calls := calls w; log := log w; tty := tty w |}).

(** [__init__] (lines 65-95). *)
Definition init (key secret : string) (use_testnet : bool)
    : M world BinanceFuturesBot :=
  try_except
    (c <- (if use_testnet then
             c <- new_client key secret true;;
             logger INFO "Connected to Binance Futures Testnet";;
             ret {| client_key := client_key c;
                    client_secret := client_secret c;
                    client_testnet := client_testnet c;
                    API_URL := Some "https://testnet.binancefuture.com" |}
           else
             c <- new_client key secret false;;
             logger INFO "Connected to Binance Futures Live";;
             ret c);;
     ret {| api_key := key; api_secret := secret; testnet := use_testnet;
            client := c |})
    (fun e =>
       if is_Exception e then
         logger ERROR ("Failed to initialize Binance client: " ++ str_exn e);;
         raise e
       else raise e).

(** The loop of lines 118-126: the positions whose amount is not zero, in
    the order of the response, appended to [acc]. *)
Fixpoint nonzero_positions (items : list value) (acc : list position_data)
    : result (list position_data) :=
  match items with
  | [] => Ok acc
  | position :: rest =>
      and_then (Py.get position "positionAmt" (VInt 0)) (fun amt =>
      and_then (py_float rt amt) (fun size =>
      if Num.ne0 size then
        and_then (Py.get position "symbol" VNone) (fun v_symbol =>
        and_then (Py.get position "positionAmt" VNone) (fun v_size =>
        and_then (Py.get position "entryPrice" VNone) (fun v_entry =>
        and_then (Py.get position "unrealizedPnL" VNone) (fun v_pnl =>
        and_then (Py.get position "percentage" VNone) (fun v_pct =>
        nonzero_positions rest
          (acc ++ [{| pos_symbol := v_symbol; pos_size := v_size;
                      pos_entry_price := v_entry;
                      pos_unrealized_pnl := v_pnl;
                      pos_percentage := v_pct |}])%list)))))
      else nonzero_positions rest acc))
  end.

(** [get_account_info] (lines 97-136). *)
Definition get_account_info : M session account_data :=
  logged "getting account info" None
    (account_info <- call futures_account;;
     wallet <- lift (Py.get account_info "totalWalletBalance" (VStr "0"));;
     pnl <- lift (Py.get account_info "totalUnrealizedPnL" (VStr "0"));;
     margin <- lift (Py.get account_info "totalMarginBalance" (VStr "0"));;
     available <- lift (Py.get account_info "availableBalance" (VStr "0"));;
     withdraw <- lift (Py.get account_info "maxWithdrawAmount" (VStr "0"));;
     listed <- lift (Py.get account_info "positions" (VList []));;
     items <- lift (Py.iter listed);;
     kept <- lift (nonzero_positions items []);;
     logger_info "Account information retrieved successfully";;
     ret {| total_wallet_balance := wallet;
            total_unrealized_pnl := pnl;
            total_margin_balance := margin;
            available_balance := available;
            max_withdraw_amount := withdraw;
            positions := kept |}).

(** [get_current_price] (lines 138-159). *)
Definition get_current_price (symbol : string) : M session float :=
  logged ("getting price for " ++ symbol) None
    (ticker <- call (futures_symbol_ticker (Text.upper symbol));;
     quoted <- lift (Py.item ticker "price");;
     price <- lift (py_float rt quoted);;
     logger_info ("Current price for " ++ symbol ++ ": $" ++ money rt price);;
     ret price).

(** [side.upper() not in ['BUY', 'SELL']]. *)
Definition bad_side (side : string) : bool :=
  negb (Text.mem (Text.upper side) ["BUY"; "SELL"]).

(** [place_market_order] (lines 161-202). *)
Definition place_market_order (symbol side : string) (quantity : float)
    : M session value :=
  logged "placing market order" (Some "market order")
    (raise_if (bad_side side) (ValueError "Side must be 'BUY' or 'SELL'");;
     raise_if (Num.le0 quantity) (ValueError "Quantity must be positive");;
     order <- call (futures_create_order
                      [("symbol", VStr (Text.upper symbol));
                       ("side", VStr (Text.upper side));
                       ("type", VStr "MARKET");
                       ("quantity", VFloat quantity)]);;
     logger_info ("Market order placed: " ++ side ++ " "
                  ++ str_float rt quantity ++ " " ++ symbol);;
     order_id <- lift (Py.item order "orderId");;
     logger_info ("Order ID: " ++ str_value rt order_id);;
     ret order).

(** [place_limit_order] (lines 204-251). *)
Definition place_limit_order (symbol side : string) (quantity price : float)
    : M session value :=
  logged "placing limit order" (Some "limit order")
    (raise_if (bad_side side) (ValueError "Side must be 'BUY' or 'SELL'");;
     raise_if (Num.le0 quantity) (ValueError "Quantity must be positive");;
     raise_if (Num.le0 price) (ValueError "Price must be positive");;
     order <- call (futures_create_order
                      [("symbol", VStr (Text.upper symbol));
                       ("side", VStr (Text.upper side));
                       ("type", VStr "LIMIT");
                       ("timeInForce", VStr "GTC");
                       ("quantity", VFloat quantity);
                       ("price", VFloat price)]);;
     logger_info ("Limit order placed: " ++ side ++ " "
                  ++ str_float rt quantity ++ " " ++ symbol
                  ++ " at $" ++ str_float rt price);;
     order_id <- lift (Py.item order "orderId");;
     logger_info ("Order ID: " ++ str_value rt order_id);;
     ret order).

(** [place_stop_limit_order] (lines 253-304). *)
Definition place_stop_limit_order (symbol side : string)
    (quantity stop_price limit_price : float) : M session value :=
  logged "placing stop-limit order" (Some "stop-limit order")
    (raise_if (bad_side side) (ValueError "Side must be 'BUY' or 'SELL'");;
     raise_if (Num.le0 quantity) (ValueError "Quantity must be positive");;
     raise_if (Num.le0 stop_price || Num.le0 limit_price)
       (ValueError "Stop price and limit price must be positive");;
     order <- call (futures_create_order
                      [("symbol", VStr (Text.upper symbol));
                       ("side", VStr (Text.upper side));
                       ("type", VStr "STOP");
                       ("timeInForce", VStr "GTC");
                       ("quantity", VFloat quantity);
                       ("price", VFloat limit_price);
                       ("stopPrice", VFloat stop_price)]);;
     logger_info ("Stop-limit order placed: " ++ side ++ " "
                  ++ str_float rt quantity ++ " " ++ symbol);;
     logger_info ("Stop: $" ++ str_float rt stop_price
                  ++ ", Limit: $" ++ str_float rt limit_price);;
     order_id <- lift (Py.item order "orderId");;
     logger_info ("Order ID: " ++ str_value rt order_id);;
     ret order).

(** [get_order_status] (lines 306-341). *)
Definition get_order_status (symbol : string) (order_id : Z)
    : M session status_info :=
  logged "getting order status" None
    (order <- call (futures_get_order (Text.upper symbol) order_id);;
     v_id <- lift (Py.item order "orderId");;
     v_symbol <- lift (Py.item order "symbol");;
     v_status <- lift (Py.item order "status");;
     v_type <- lift (Py.item order "type");;
     v_side <- lift (Py.item order "side");;
     v_orig <- lift (Py.item order "origQty");;
     v_executed <- lift (Py.item order "executedQty");;
     v_price <- lift (Py.item order "price");;
     v_avg <- lift (Py.item order "avgPrice");;
     v_time <- lift (Py.item order "time");;
     shown <- lift (order_time rt v_time);;
     logger_info ("Order status retrieved: " ++ Text.of_Z order_id
                  ++ " - " ++ str_value rt v_status);;
     ret {| st_orderId := v_id; st_symbol := v_symbol; st_status := v_status;
            st_type := v_type; st_side := v_side; st_origQty := v_orig;
            st_executedQty := v_executed; st_price := v_price;
            st_avgPrice := v_avg; st_time := shown |}).

(** [cancel_order] (lines 343-364). *)
Definition cancel_order (symbol : string) (order_id : Z) : M session value :=
  logged "cancelling order" None
    (cancelled <- call (futures_cancel_order (Text.upper symbol) order_id);;
     logger_info ("Order cancelled successfully: " ++ Text.of_Z order_id);;
     ret cancelled).

(** [get_open_orders] (lines 366-390). *)
Definition get_open_orders (symbol : option string) : M session value :=
  logged "getting open orders" None
    (orders <- match symbol with
               | Some s =>
                   if Text.truthy s
                   then call (futures_get_open_orders (Some (Text.upper s)))
                   else call (futures_get_open_orders None)
               | None => call (futures_get_open_orders None)
               end;;
     count <- lift (Py.len orders);;
     logger_info ("Retrieved " ++ Text.of_nat count ++ " open orders");;
     ret orders).

(* ------------------------------------------------------------------ *)
(** ** The shell *)

(** [display_menu] (lines 392-406). *)
Definition display_menu : M console unit :=
  print (Text.nl ++ Text.times "=" 50);;
  print "    BINANCE FUTURES TRADING BOT";;
  print (Text.times "=" 50);;
  print "1. View Account Information";;
  print "2. Get Current Price";;
  print "3. Place Market Order";;
  print "4. Place Limit Order";;
  print "5. Place Stop-Limit Order";;
  print "6. Check Order Status";;
  print "7. Cancel Order";;
  print "8. View Open Orders";;
  print "9. Exit";;
  print (Text.times "=" 50).

(** The [input_type] argument of [get_user_input]: [str], [int], [float],
    or any other type object. *)
Inductive input_type : Type :=
| T_str
| T_int
| T_float
| T_other (name : string).

(** The values of each type.  No value is ever produced for a type the
    function does not support. *)
Definition py (t : input_type) : Type :=
  match t with
  | T_str => string
  | T_int => Z
  | T_float => float
  | T_other _ => Empty_set
  end.

(** Lines 424-431: the conversion of the stripped text. *)
Definition convert (t : input_type) (user_input : string) : result (py t) :=
  match t with
  | T_str => Ok user_input
  | T_int =>
      match Text.to_int user_input with
      | Some n => Ok n
      | None =>
          Raise (ValueError ("invalid literal for int() with base 10: "
                             ++ Text.repr user_input))
      end
  | T_float => py_float rt (VStr user_input)
  | T_other name => Raise (ValueError ("Unsupported input type: " ++ name))
  end.

(** [validation_func and not validation_func(result)]. *)
Definition rejected {A} (validation_func : option (A -> bool)) (v : A) : bool :=
  match validation_func with
  | Some f => negb (f v)
  | None => false
  end.

(** One turn of the loop of [get_user_input] (lines 421-443): [Some r] when
    the function returns [r], [None] when it goes round again. *)
Definition prompt_once (prompt : string) (t : input_type)
    (validation_func : option (py t -> bool))
    : M console (option (option (py t))) :=
  try_except
    (raw <- input prompt;;
     let user_input := Text.strip raw in
     converted <- lift (convert t user_input);;
     if rejected validation_func converted
     then print "Invalid input. Please try again.";; ret None
     else ret (Some (Some converted)))
    (fun e =>
       match e with
       | ValueError _ =>
           print ("Invalid input: " ++ str_exn e ++ ". Please try again.");;
           ret None
       | KeyboardInterrupt =>
           print (Text.nl ++ "Operation cancelled by user.");;
           ret (Some None)
       | _ => raise e
       end).

(** [while True] run for at most [turns] turns. *)
Fixpoint prompt_loop (turns : nat) (prompt : string) (t : input_type)
    (validation_func : option (py t -> bool)) : M console (option (py t)) :=
  match turns with
  | O => raise EOFError
  | S k =>
      r <- prompt_once prompt t validation_func;;
      match r with
      | Some returned => ret returned
      | None => prompt_loop k prompt t validation_func
      end
  end.

(** [get_user_input] (lines 408-443).  Every turn that goes round again has
    read a line, so one turn more than there are events to come is as many
    as the loop can make. *)
Definition get_user_input (prompt : string) (t : input_type)
    (validation_func : option (py t -> bool)) : M console (option (py t)) :=
  fun c => prompt_loop (S (List.length (stdin c))) prompt t validation_func c.

(** The marks the shell prints in front of some messages (the bytes of the
    source file, as they are). *)
Definition mark_done : string := "‚úÖ".
Definition mark_failed : string := "‚ùå".
Definition mark_price : string := "üí∞".
Definition mark_orders : string := "üìã".

(** One position of [format_account_info] (lines 459-467). *)
Definition format_position (pos : position_data) : M console unit :=
  pnl <- lift (py_float rt (pos_unrealized_pnl pos));;
  let pnl_color := if Num.ge0 pnl then "+" else "" in
  print ("Symbol: " ++ str_value rt (pos_symbol pos));;
  print ("  Size: " ++ str_value rt (pos_size pos));;
  entry <- lift (py_float rt (pos_entry_price pos));;
  print ("  Entry Price: $" ++ money rt entry);;
  print ("  Unrealized PnL: " ++ pnl_color ++ money rt pnl);;
  print ("  Percentage: " ++ str_value rt (pos_percentage pos) ++ "%");;
  print (Text.times "-" 30).

Fixpoint format_positions (ps : list position_data) : M console unit :=
  match ps with
  | [] => ret tt
  | pos :: rest => format_position pos;; format_positions rest
  end.

(** [format_account_info] (lines 445-469). *)
Definition format_account_info (account_info : account_data) : M console unit :=
  print (Text.nl ++ Text.times "=" 50);;
  print "           ACCOUNT INFORMATION";;
  print (Text.times "=" 50);;
  wallet <- lift (py_float rt (total_wallet_balance account_info));;
  print ("Total Wallet Balance:    $" ++ money rt wallet);;
  margin <- lift (py_float rt (total_margin_balance account_info));;
  print ("Total Margin Balance:    $" ++ money rt margin);;
  available <- lift (py_float rt (available_balance account_info));;
  print ("Available Balance:       $" ++ money rt available);;
  pnl <- lift (py_float rt (total_unrealized_pnl account_info));;
  print ("Total Unrealized PnL:    $" ++ money rt pnl);;
  withdraw <- lift (py_float rt (max_withdraw_amount account_info));;
  print ("Max Withdraw Amount:     $" ++ money rt withdraw);;
  match positions account_info with
  | [] => print (Text.nl ++ "No open positions.")
  | ps =>
      print (Text.nl ++ "Current Positions:");;
      print (Text.times "-" 50);;
      format_positions ps
  end.

(** [format_order_info] (lines 471-486). *)
Definition format_order_info (order : status_info) : M console unit :=
  print (Text.nl ++ Text.times "=" 40);;
  print "         ORDER DETAILS";;
  print (Text.times "=" 40);;
  print ("Order ID:        " ++ str_value rt (st_orderId order));;
  print ("Symbol:          " ++ str_value rt (st_symbol order));;
  print ("Side:            " ++ str_value rt (st_side order));;
  print ("Type:            " ++ str_value rt (st_type order));;
  print ("Status:          " ++ str_value rt (st_status order));;
  print ("Quantity:        " ++ str_value rt (st_origQty order));;
  print ("Executed Qty:    " ++ str_value rt (st_executedQty order));;
  price <- lift (py_float rt (st_price order));;
  print ("Price:           $" ++ money rt price);;
  avg <- lift (py_float rt (st_avgPrice order));;
  (if Num.gt0 avg
   then print ("Average Price:   $" ++ money rt avg)
   else ret tt);;
  print ("Time:            " ++ st_time order).

(** One line of the open-orders listing (lines 671-673). *)
Definition format_open_order (order : value) : M console unit :=
  v_id <- lift (Py.item order "orderId");;
  v_symbol <- lift (Py.item order "symbol");;
  v_side <- lift (Py.item order "side");;
  v_type <- lift (Py.item order "type");;
  v_qty <- lift (Py.item order "origQty");;
  v_price <- lift (Py.item order "price");;
  price <- lift (py_float rt v_price);;
  v_status <- lift (Py.item order "status");;
  print ("ID: " ++ str_value rt v_id ++ " | " ++ str_value rt v_symbol
         ++ " | " ++ str_value rt v_side ++ " | " ++ str_value rt v_type
         ++ " | Qty: " ++ str_value rt v_qty ++ " | Price: $" ++ money rt price
         ++ " | Status: " ++ str_value rt v_status).

Fixpoint format_open_orders (orders : list value) : M console unit :=
  match orders with
  | [] => ret tt
  | order :: rest => format_open_order order;; format_open_orders rest
  end.

(** Console steps inside a session. *)
Definition shell {A} (m : M console A) : M session A := in_env (in_tty m).

(** [try: body  except Exception as e: print(f"<label>{e}")]: the block
    around every operation of the menu. *)
Definition guarded (label : string) (body : M session unit) : M session unit :=
  try_except body (fun e =>
    if is_Exception e then shell (print (label ++ str_exn e)) else raise e).

(** Lines 531-535. *)
Definition do_account_info : M session unit :=
  guarded "Error getting account info: "
    (account_info <- get_account_info;;
     shell (format_account_info account_info)).

(** Lines 541-545. *)
Definition do_current_price (symbol : string) : M session unit :=
  guarded "Error getting price: "
    (price <- get_current_price symbol;;
     shell (print (Text.nl ++ mark_price ++ " Current price for "
                   ++ Text.upper symbol ++ ": $" ++ money rt price))).

(** What follows a placement (lines 565-566, 592-593, 623-624). *)
Definition placed (kind : string) (order : value) : M session unit :=
  shell (print (mark_done ++ " " ++ kind ++ " order placed successfully!"));;
  order_id <- lift (Py.item order "orderId");;
  shell (print ("Order ID: " ++ str_value rt order_id)).

(** Lines 563-568. *)
Definition do_market_order (symbol side : string) (quantity : float)
    : M session unit :=
  guarded (mark_failed ++ " Error placing market order: ")
    (order <- place_market_order symbol side quantity;;
     placed "Market" order).

(** Lines 590-595. *)
Definition do_limit_order (symbol side : string) (quantity price : float)
    : M session unit :=
  guarded (mark_failed ++ " Error placing limit order: ")
    (order <- place_limit_order symbol side quantity price;;
     placed "Limit" order).

(** Lines 621-626. *)
Definition do_stop_limit_order (symbol side : string)
    (quantity stop_price limit_price : float) : M session unit :=
  guarded (mark_failed ++ " Error placing stop-limit order: ")
    (order <- place_stop_limit_order symbol side quantity stop_price limit_price;;
     placed "Stop-limit" order).

(** Lines 638-642. *)
Definition do_order_status (symbol : string) (order_id : Z) : M session unit :=
  guarded "Error getting order status: "
    (order_status <- get_order_status symbol order_id;;
     shell (format_order_info order_status)).

(** Lines 654-658. *)
Definition do_cancel_order (symbol : string) (order_id : Z) : M session unit :=
  guarded (mark_failed ++ " Error cancelling order: ")
    (cancelled <- cancel_order symbol order_id;;
     shell (print (mark_done ++ " Order " ++ Text.of_Z order_id
                   ++ " cancelled successfully!"))).

(** Lines 665-677. *)
Definition do_open_orders (symbol : option string) : M session unit :=
  guarded "Error getting open orders: "
    (orders <- get_open_orders symbol;;
     if Py.truthy orders then
       count <- lift (Py.len orders);;
       shell (print (Text.nl ++ mark_orders ++ " Open Orders ("
                     ++ Text.of_nat count ++ " total):"));;
       shell (print (Text.times "=" 60));;
       items <- lift (Py.iter orders);;
       shell (format_open_orders items)
     else shell (print "No open orders found.")).

(** How an iteration of the menu loop ends: around again, or out. *)
Inductive control : Type := Continue | Break.

(** Truth value of what [get_user_input] returned, by type. *)
Definition truth (t : input_type) : py t -> bool :=
  match t with
  | T_str => Text.truthy
  | T_int => fun n => negb (n =? 0)
  | T_float => Num.truthy
  | T_other _ => fun _ => false
  end.

(** [v = get_user_input(...)] followed by [if not v: continue]: the rest of
    the branch runs only on a true value. *)
Definition required (prompt : string) (t : input_type)
    (validation_func : option (py t -> bool))
    (rest : py t -> M session control) : M session control :=
  v <- shell (get_user_input prompt t validation_func);;
  match v with
  | Some x => if truth t x then rest x else ret Continue
  | None => ret Continue
  end.

(** The two validation functions the shell passes. *)
Definition is_side : option (py T_str -> bool) :=
  Some (fun x => Text.mem (Text.upper x) ["BUY"; "SELL"]).
Definition is_positive : option (py T_float -> bool) :=
  Some (fun x => Num.gt0 x).

(** The menu shown and the choice read (lines 523-524). *)
Definition choice_prompt : M session (option Z) :=
  shell display_menu;;
  shell (get_user_input "Enter your choice (1-9): " T_int None).

(** The chain of [if choice == ...] (lines 526-685). *)
Definition dispatch (choice : option Z) : M session control :=
  match choice with
  | None => ret Break
  | Some 1 => do_account_info;; ret Continue
  | Some 2 =>
      symbol <- shell (get_user_input "Enter symbol (e.g., BTCUSDT): " T_str None);;
      match symbol with
      | Some s => if Text.truthy s then do_current_price s;; ret Continue
                  else ret Continue
      | None => ret Continue
      end
  | Some 3 =>
      shell (print (Text.nl ++ "--- Place Market Order ---"));;
      required "Enter symbol (e.g., BTCUSDT): " T_str None (fun symbol =>
      required "Enter side (BUY/SELL): " T_str is_side (fun side =>
      required "Enter quantity: " T_float is_positive (fun quantity =>
      do_market_order symbol side quantity;; ret Continue)))
  | Some 4 =>
      shell (print (Text.nl ++ "--- Place Limit Order ---"));;
      required "Enter symbol (e.g., BTCUSDT): " T_str None (fun symbol =>
      required "Enter side (BUY/SELL): " T_str is_side (fun side =>
      required "Enter quantity: " T_float is_positive (fun quantity =>
      required "Enter limit price: " T_float is_positive (fun price =>
      do_limit_order symbol side quantity price;; ret Continue))))
  | Some 5 =>
      shell (print (Text.nl ++ "--- Place Stop-Limit Order ---"));;
      required "Enter symbol (e.g., BTCUSDT): " T_str None (fun symbol =>
      required "Enter side (BUY/SELL): " T_str is_side (fun side =>
      required "Enter quantity: " T_float is_positive (fun quantity =>
      required "Enter stop price: " T_float is_positive (fun stop_price =>
      required "Enter limit price: " T_float is_positive (fun limit_price =>
      do_stop_limit_order symbol side quantity stop_price limit_price;;
      ret Continue)))))
  | Some 6 =>
      required "Enter symbol (e.g., BTCUSDT): " T_str None (fun symbol =>
      required "Enter order ID: " T_int None (fun order_id =>
      do_order_status symbol order_id;; ret Continue))
  | Some 7 =>
      required "Enter symbol (e.g., BTCUSDT): " T_str None (fun symbol =>
      required "Enter order ID to cancel: " T_int None (fun order_id =>
      do_cancel_order symbol order_id;; ret Continue))
  | Some 8 =>
      symbol <- shell (get_user_input
                         "Enter symbol (optional, press Enter for all): "
                         T_str None);;
      let symbol := match symbol with
                    | Some s => if Text.truthy s then Some s else None
                    | None => None
                    end in
      do_open_orders symbol;; ret Continue
  | Some 9 =>
      shell (print "Thank you for using Binance Futures Trading Bot!");;
      ret Break
  | Some _ =>
      shell (print "Invalid choice. Please select a number between 1 and 9.");;
      ret Continue
  end.

(** The body of the [try] of the menu loop (lines 523-685). *)
Definition menu_body : M session control :=
  choice <- choice_prompt;;
  dispatch choice.

(** One iteration of the menu loop with its two [except] clauses
    (lines 522-692). *)
Definition menu_iteration (s : session) : control * session :=
  match menu_body s with
  | (Ok c, s') => (c, s')
  | (Raise e, s') =>
      if is_Exception e then
        (Continue,
         snd ((shell (print ("Unexpected error: " ++ str_exn e));;
               logger_error ("Unexpected error in main loop: " ++ str_exn e)) s'))
      else
        (Break,
         snd (shell (print (Text.nl ++ Text.nl ++ "Exiting application...")) s'))
  end.

(** [while True] of the menu, run for at most [turns] iterations. *)
Fixpoint main_loop (turns : nat) (s : session) : session :=
  match turns with
  | O => s
  | S k =>
      match menu_iteration s with
      | (Continue, s') => main_loop k s'
      | (Break, s') => s'
      end
  end.

(** [not v] for an optional string. *)
Definition absent (v : option string) : bool :=
  match v with
  | Some s => negb (Text.truthy s)
  | None => true
  end.

(** [main] (lines 488-692), from the two environment variables, with the
    menu loop run for at most [turns] iterations. *)
Definition main (turns : nat) (env_key env_secret : option string)
    : M world unit :=
  in_tty (print "Welcome to Binance Futures Trading Bot!");;
  in_tty (print "This bot connects to Binance Futures Testnet for safe trading practice.");;
  credentials <-
    (if absent env_key || absent env_secret then
       in_tty (print (Text.nl ++ "API credentials not found in environment variables."));;
       in_tty (print "Please create a .env file with the following content:");;
       in_tty (print "BINANCE_API_KEY=your_api_key_here");;
       in_tty (print "BINANCE_API_SECRET=your_api_secret_here");;
       in_tty (print (Text.nl ++ "Alternatively, enter them now:"));;
       key <- in_tty (get_user_input "Enter your Binance API Key: " T_str None);;
       if absent key then ret None else
       secret <- in_tty (get_user_input "Enter your Binance API Secret: " T_str None);;
       if absent secret then ret None else
       ret (match key, secret with
            | Some k, Some sec => Some (k, sec)
            | _, _ => None
            end)
     else
       ret (match env_key, env_secret with
            | Some k, Some sec => Some (k, sec)
            | _, _ => None
            end));;
  match credentials with
  | None => ret tt
  | Some (key, secret) =>
      connected <-
        try_except
          (bot <- init key secret true;;
           in_tty (print (mark_done ++ " Successfully connected to Binance Futures Testnet!"));;
           ret (Some bot))
          (fun e =>
             if is_Exception e then
               in_tty (print (mark_failed ++ " Failed to connect to Binance: "
                              ++ str_exn e));;
               ret None
             else raise e);;
      match connected with
      | None => ret tt
      | Some bot =>
          fun w => (Ok tt, env (main_loop turns {| self := bot; env := w |}))
      end
  end.

(* ------------------------------------------------------------------ *)
(** ** Vocabulary of the properties *)

(** [m] fails on validation alone: it raises a [ValueError] and nothing has
    gone to the exchange. *)
Definition refused_locally {A} (m : M session A) (s : session) : Prop :=
  exists msg s',
    m s = (Raise (ValueError msg), s')
    /\ calls (env s') = calls (env s)
    /\ exch (env s') = exch (env s).

(** The fields the validation of a placement looks at. *)
Inductive field : Type := Quantity | Price | StopPrice | LimitPrice.

(** [position.get(key)] on a position of the response. *)
Definition entry (position : value) (key : string) : value :=
  match position with
  | VDict entries =>
      match Py.assoc key entries with
      | Some v => v
      | None => VNone
      end
  | _ => VNone
  end.

(** The five fields of a position, as the response has them. *)
Definition snapshot (position : value) : position_data :=
  {| pos_symbol := entry position "symbol";
     pos_size := entry position "positionAmt";
     pos_entry_price := entry position "entryPrice";
     pos_unrealized_pnl := entry position "unrealizedPnL";
     pos_percentage := entry position "percentage" |}.

(** [float(position.get('positionAmt', 0))]. *)
Definition amount (position : value) : result float :=
  and_then (Py.get position "positionAmt" (VInt 0)) (py_float rt).

Definition amount_nonzero (position : value) : bool :=
  match amount position with
  | Ok x => Num.ne0 x
  | Raise _ => false
  end.

(** A position of a response: a dictionary whose amount reads as a number. *)
Definition is_position (position : value) : Prop :=
  (exists entries, position = VDict entries)
  /\ (exists x, amount position = Ok x).

(** A balance of the response, ['0'] when the response has none. *)
Definition balance (entries : list (string * value)) (key : string) : value :=
  match Py.assoc key entries with
  | Some v => v
  | None => VStr "0"
  end.

(** The request a limit order makes. *)
Definition limit_request (symbol side : string) (q p : float) : request :=
  futures_create_order
    [("symbol", VStr (Text.upper symbol));
     ("side", VStr (Text.upper side));
     ("type", VStr "LIMIT");
     ("timeInForce", VStr "GTC");
     ("quantity", VFloat q);
     ("price", VFloat p)].

(** Two runs that look the same from the exchange and to the caller: the
    same result, the same requests made, the same exchange state. *)
Definition same_outside {A} (r1 r2 : result A * session) : Prop :=
  fst r1 = fst r2
  /\ calls (env (snd r1)) = calls (env (snd r2))
  /\ exch (env (snd r1)) = exch (env (snd r2)).

(** The operations of the wrapper with their arguments. *)
Inductive operation : Type :=
| op_account_info
| op_current_price (symbol : string)
| op_market_order (symbol side : string) (quantity : float)
| op_limit_order (symbol side : string) (quantity price : float)
| op_stop_limit_order (symbol side : string) (quantity stop_price limit_price : float)
| op_order_status (symbol : string) (order_id : Z)
| op_cancel_order (symbol : string) (order_id : Z)
| op_open_orders (symbol : option string).

(** The session an operation leaves, however it ends. *)
Definition perform (o : operation) (s : session) : session :=
  match o with
  | op_account_info => snd (get_account_info s)
  | op_current_price symbol => snd (get_current_price symbol s)
  | op_market_order symbol side q => snd (place_market_order symbol side q s)
  | op_limit_order symbol side q p => snd (place_limit_order symbol side q p s)
  | op_stop_limit_order symbol side q sp lp =>
      snd (place_stop_limit_order symbol side q sp lp s)
  | op_order_status symbol id => snd (get_order_status symbol id s)
  | op_cancel_order symbol id => snd (cancel_order symbol id s)
  | op_open_orders symbol => snd (get_open_orders symbol s)
  end.

Definition perform_all (ops : list operation) (s : session) : session :=
  fold_left (fun acc o => perform o acc) ops s.

(** The typed line [raw] is turned down by [get_user_input]: it does not
    convert, or the validation function says no. *)
Definition accepts (t : input_type) (validation_func : option (py t -> bool))
    (raw : string) : bool :=
  match convert t (Text.strip raw) with
  | Ok v => negb (rejected validation_func v)
  | Raise _ => false
  end.

Definition turned_down (t : input_type) (validation_func : option (py t -> bool))
    (ev : event) : Prop :=
  exists raw, ev = Typed raw /\ accepts t validation_func raw = false.

(** What [get_user_input] did with the input [events]: it returned a value
    that a typed line converts to and the validation function accepts, every
    line before that one turned down; or it returned [None] at an interrupt,
    every line before it turned down; or the input ended, every line turned
    down, and [EOFError] goes to the caller. *)
Definition explains (t : input_type) (validation_func : option (py t -> bool))
    (events : list event) (r : result (option (py t)) * console) : Prop :=
  match r with
  | (Ok (Some v), c') =>
      exists before raw,
        events = (before ++ Typed raw :: stdin c')%list
        /\ Forall (turned_down t validation_func) before
        /\ convert t (Text.strip raw) = Ok v
        /\ rejected validation_func v = false
  | (Ok None, c') =>
      exists before,
        events = (before ++ CtrlC :: stdin c')%list
        /\ Forall (turned_down t validation_func) before
  | (Raise e, c') =>
      e = EOFError
      /\ Forall (turned_down t validation_func) events
      /\ stdin c' = []
  end.

(** [m] raises nothing but subclasses of [Exception]. *)
Definition raises_Exceptions {S A} (m : M S A) : Prop :=
  forall s e s', m s = (Raise e, s') -> is_Exception e = true.

(** [m] raises nothing at all. *)
Definition never_raises {S A} (m : M S A) : Prop :=
  forall s, exists a s', m s = (Ok a, s').

(** A pure step raises nothing but subclasses of [Exception]. *)
Definition fails_with_Exception {A} (r : result A) : Prop :=
  forall e, r = Raise e -> is_Exception e = true.

(** The session [s] with another console. *)
Definition with_console (s : session) (c : console) : session :=
  {| self := self s;
     env := {| exch := exch (env s); calls := calls (env s);
               log := log (env s); tty := c |} |}.

(** [m] leaves the bot object as it is. *)
Definition keeps_self {A} (m : M session A) : Prop :=
  forall s, self (snd (m s)) = self s.

(** The session after [line] was printed. *)
Definition printed (line : string) (s : session) : session :=
  snd (shell (print line) s).

(** The request a market order makes, and a stop-limit order. *)
Definition market_request (symbol side : string) (q : float) : request :=
  futures_create_order
    [("symbol", VStr (Text.upper symbol));
     ("side", VStr (Text.upper side));
     ("type", VStr "MARKET");
     ("quantity", VFloat q)].

Definition stop_limit_request (symbol side : string) (q sp lp : float)
    : request :=
  futures_create_order
    [("symbol", VStr (Text.upper symbol));
     ("side", VStr (Text.upper side));
     ("type", VStr "STOP");
     ("timeInForce", VStr "GTC");
     ("quantity", VFloat q);
     ("price", VFloat lp);
     ("stopPrice", VFloat sp)].

(** The request each operation without checks of its own makes. *)
Definition query_request (o : operation) : option request :=
  match o with
  | op_account_info => Some futures_account
  | op_current_price symbol => Some (futures_symbol_ticker (Text.upper symbol))
  | op_order_status symbol id => Some (futures_get_order (Text.upper symbol) id)
  | op_cancel_order symbol id =>
      Some (futures_cancel_order (Text.upper symbol) id)
  | op_open_orders (Some symbol) =>
      Some (futures_get_open_orders
              (if Text.truthy symbol then Some (Text.upper symbol) else None))
  | op_open_orders None => Some (futures_get_open_orders None)
  | _ => None
  end.

(** How an operation ends: [None] when it returns, the exception when it
    raises; and the session it leaves. *)
Definition ending {A} (r : result A * session) : option exn :=
  match fst r with
  | Ok _ => None
  | Raise e => Some e
  end.

Definition attempt (o : operation) (s : session) : option exn :=
  match o with
  | op_account_info => ending (get_account_info s)
  | op_current_price symbol => ending (get_current_price symbol s)
  | op_market_order symbol side q => ending (place_market_order symbol side q s)
  | op_limit_order symbol side q p =>
      ending (place_limit_order symbol side q p s)
  | op_stop_limit_order symbol side q sp lp =>
      ending (place_stop_limit_order symbol side q sp lp s)
  | op_order_status symbol id => ending (get_order_status symbol id s)
  | op_cancel_order symbol id => ending (cancel_order symbol id s)
  | op_open_orders symbol => ending (get_open_orders symbol s)
  end.

(** The keys [get_order_status] reads, in the order it reads them. *)
Definition status_keys : list string :=
  ["orderId"; "symbol"; "status"; "type"; "side"; "origQty"; "executedQty";
   "price"; "avgPrice"; "time"].

(** The first of [keys] that [entries] lacks. *)
Definition first_missing (keys : list string)
    (entries : list (string * value)) : option string :=
  find (fun k => match Py.assoc k entries with
                 | Some _ => false
                 | None => true
                 end) keys.

(** [l'] is [l] with more at the end; [l'] is what is left of [l] once its
    front is gone. *)
Definition extends {A} (l l' : list A) : Prop :=
  exists more, l' = (l ++ more)%list.

Definition remains {A} (l l' : list A) : Prop :=
  exists gone, l = (gone ++ l')%list.

(** From one console to a later one: input is read from the front, output
    is added at the end. *)
Definition console_later (c c' : console) : Prop :=
  remains (stdin c) (stdin c') /\ extends (stdout c) (stdout c').

(** From one world to a later one: the requests made and the log only
    grow. *)
Definition world_later (w w' : world) : Prop :=
  extends (calls w) (calls w')
  /\ extends (log w) (log w')
  /\ console_later (tty w) (tty w').

(** From one session to a later one: the same bot object besides. *)
Definition session_later (s s' : session) : Prop :=
  self s' = self s /\ world_later (env s) (env s').

(** A computation that only moves its state forward. *)
Definition forward {S A} (later : S -> S -> Prop) (m : M S A) : Prop :=
  forall s, later s (snd (m s)).

(** A computation that leaves the exchange side alone: no request, the
    exchange and the log as they were. *)
Definition offline {A} (m : M session A) : Prop :=
  forall s,
    calls (env (snd (m s))) = calls (env s)
    /\ exch (env (snd (m s))) = exch (env s)
    /\ log (env (snd (m s))) = log (env s).

(** A computation that logs nothing but [INFO] lines. *)
Definition logs_info {A} (m : M session A) : Prop :=
  forall s,
    exists lines,
      log (env (snd (m s))) = (log (env s) ++ map (pair INFO) lines)%list.

(** The request an operation makes, by its arguments alone: none when a
    placement fails its checks. *)
Definition request_of (o : operation) : option request :=
  match o with
  | op_market_order symbol side q =>
      if bad_side side || Num.le0 q then None
      else Some (market_request symbol side q)
  | op_limit_order symbol side q p =>
      if bad_side side || Num.le0 q || Num.le0 p then None
      else Some (limit_request symbol side q p)
  | op_stop_limit_order symbol side q sp lp =>
      if bad_side side || Num.le0 q || (Num.le0 sp || Num.le0 lp) then None
      else Some (stop_limit_request symbol side q sp lp)
  | _ => query_request o
  end.

(** A value asked for at a prompt and not given: the prompt is interrupted,
    or the line typed is empty once stripped. *)
Definition not_given (ev : event) : Prop :=
  ev = CtrlC \/ (exists raw, ev = Typed raw /\ Text.strip raw = "").

(** The bot [main] builds from a key and a secret: always on the testnet. *)
Definition testnet_bot (key secret : string) : BinanceFuturesBot :=
  {| api_key := key; api_secret := secret; testnet := true;
     client := {| client_key := key; client_secret := secret;
                  client_testnet := true;
                  API_URL := Some "https://testnet.binancefuture.com" |} |}.

(** The two lines [main] starts with. *)
Definition welcome : list string :=
  ["Welcome to Binance Futures Trading Bot!";
   "This bot connects to Binance Futures Testnet for safe trading practice."].

(** The two halves of [main] after its first two lines: the credentials
    (lines 494-510), and the connection with the menu loop
    (lines 512-692). *)
Definition ask_credentials (env_key env_secret : option string)
    : M world (option (string * string)) :=
  if absent env_key || absent env_secret then
    in_tty (print (Text.nl ++ "API credentials not found in environment variables."));;
    in_tty (print "Please create a .env file with the following content:");;
    in_tty (print "BINANCE_API_KEY=your_api_key_here");;
    in_tty (print "BINANCE_API_SECRET=your_api_secret_here");;
    in_tty (print (Text.nl ++ "Alternatively, enter them now:"));;
    key <- in_tty (get_user_input "Enter your Binance API Key: " T_str None);;
    if absent key then ret None else
    secret <- in_tty (get_user_input "Enter your Binance API Secret: " T_str None);;
    if absent secret then ret None else
    ret (match key, secret with
         | Some k, Some sec => Some (k, sec)
         | _, _ => None
         end)
  else
    ret (match env_key, env_secret with
         | Some k, Some sec => Some (k, sec)
         | _, _ => None
         end).

Definition connect_and_run (turns : nat) (credentials : option (string * string))
    : M world unit :=
  match credentials with
  | None => ret tt
  | Some (key, secret) =>
      connected <-
        try_except
          (bot <- init key secret true;;
           in_tty (print (mark_done ++ " Successfully connected to Binance Futures Testnet!"));;
           ret (Some bot))
          (fun e =>
             if is_Exception e then
               in_tty (print (mark_failed ++ " Failed to connect to Binance: "
                              ++ str_exn e));;
               ret None
             else raise e);;
      match connected with
      | None => ret tt
      | Some bot =>
          fun w => (Ok tt, env (main_loop turns {| self := bot; env := w |}))
      end
  end.

(** The world [w] with another console. *)
Definition with_tty (w : world) (c : console) : world :=
  {| exch := exch w; calls := calls w; log := log w; tty := c |}.

(** The block of the menu around each operation (lines 531-677), and the
    text its [except] clause prints in front of the error. *)
Definition block (o : operation) : M session unit :=
  match o with
  | op_account_info => do_account_info
  | op_current_price symbol => do_current_price symbol
  | op_market_order symbol side q => do_market_order symbol side q
  | op_limit_order symbol side q p => do_limit_order symbol side q p
  | op_stop_limit_order symbol side q sp lp =>
      do_stop_limit_order symbol side q sp lp
  | op_order_status symbol id => do_order_status symbol id
  | op_cancel_order symbol id => do_cancel_order symbol id
  | op_open_orders symbol => do_open_orders symbol
  end.

Definition label (o : operation) : string :=
  match o with
  | op_account_info => "Error getting account info: "
  | op_current_price _ => "Error getting price: "
  | op_market_order _ _ _ => mark_failed ++ " Error placing market order: "
  | op_limit_order _ _ _ _ => mark_failed ++ " Error placing limit order: "
  | op_stop_limit_order _ _ _ _ _ =>
      mark_failed ++ " Error placing stop-limit order: "
  | op_order_status _ _ => "Error getting order status: "
  | op_cancel_order _ _ => mark_failed ++ " Error cancelling order: "
  | op_open_orders _ => "Error getting open orders: "
  end.





(* ------------------------------------------------------------------ *)
(** ** Text and numbers *)

Lemma upper_char_idempotent (c : ascii) :
  Text.upper_char (Text.upper_char c) = Text.upper_char c.
Proof.
  destruct c as [[] [] [] [] [] [] [] []]; reflexivity.
Qed.

Lemma upper_idempotent (s : string) :
  Text.upper (Text.upper s) = Text.upper s.
Proof.
  induction s as [|c rest IH]; simpl.
  - reflexivity.
  - now rewrite upper_char_idempotent, IH.
Qed.

Lemma truthy_upper (s : string) :
  Text.truthy (Text.upper s) = Text.truthy s.
Proof. destruct s; reflexivity. Qed.

Lemma truthy_nonempty (s : string) :
  Text.truthy s = true <-> s <> EmptyString.
Proof.
  destruct s; simpl; split; intro H; congruence.
Qed.

Lemma bad_side_upper (side : string) :
  bad_side (Text.upper side) = bad_side side.
Proof. unfold bad_side. now rewrite upper_idempotent. Qed.

(** A side is accepted exactly when its upper-case form is BUY or SELL. *)
Lemma bad_side_false (side : string) :
  bad_side side = false <->
  Text.upper side = "BUY" \/ Text.upper side = "SELL".
Proof.
  unfold bad_side, Text.mem. simpl.
  rewrite Bool.negb_false_iff, Bool.orb_false_r, Bool.orb_true_iff.
  now rewrite !String.eqb_eq.
Qed.

(** Comparing with zero, on the specification of binary64. *)
Lemma zero_is_zero : Prim2SF 0%float = S754_zero false.
Proof. reflexivity. Qed.

Lemma gt0_not_le0 (x : float) : Num.gt0 x = true -> Num.le0 x = false.
Proof.
  unfold Num.gt0, Num.le0.
  rewrite ltb_spec, leb_spec, zero_is_zero.
  unfold SFltb, SFleb.
  destruct (Prim2SF x) as [sx|sx| |sx mx ex]; simpl;
    try destruct sx; simpl; congruence.
Qed.

Lemma le0_not_gt0 (x : float) : Num.le0 x = true -> Num.gt0 x = false.
Proof.
  intro H. destruct (Num.gt0 x) eqn:G; [|reflexivity].
  apply gt0_not_le0 in G. congruence.
Qed.

(** A number that is not zero is a true value. *)
Lemma gt0_truthy (x : float) : Num.gt0 x = true -> Num.truthy x = true.
Proof.
  unfold Num.gt0, Num.truthy, Num.ne0.
  rewrite ltb_spec, eqb_spec, zero_is_zero.
  unfold SFltb, SFeqb.
  destruct (Prim2SF x) as [sx|sx| |sx mx ex]; simpl;
    try destruct sx; simpl; congruence.
Qed.

(* ------------------------------------------------------------------ *)
(** ** Running computations *)

Lemma bind_ok {S A B} (m : M S A) (k : A -> M S B) s a s' :
  m s = (Ok a, s') -> bind m k s = k a s'.
Proof. unfold bind. now intros ->. Qed.

Lemma bind_raise {S A B} (m : M S A) (k : A -> M S B) s e s' :
  m s = (Raise e, s') -> bind m k s = (Raise e, s').
Proof. unfold bind. now intros ->. Qed.

Lemma bind_inv_ok {S A B} (m : M S A) (k : A -> M S B) s b s' :
  bind m k s = (Ok b, s') ->
  exists a s1, m s = (Ok a, s1) /\ k a s1 = (Ok b, s').
Proof.
  unfold bind. destruct (m s) as [[a|e] s1]; intro H.
  - now exists a, s1.
  - discriminate.
Qed.

Lemma bind_inv_raise {S A B} (m : M S A) (k : A -> M S B) s e s' :
  bind m k s = (Raise e, s') ->
  m s = (Raise e, s') \/ exists a s1, m s = (Ok a, s1) /\ k a s1 = (Raise e, s').
Proof.
  unfold bind. destruct (m s) as [[a|e0] s1]; intro H.
  - right. now exists a, s1.
  - left. now inversion H.
Qed.

Lemma try_except_ok {S A} (m : M S A) h s a s' :
  m s = (Ok a, s') -> try_except m h s = (Ok a, s').
Proof. unfold try_except. now intros ->. Qed.

Lemma try_except_raise {S A} (m : M S A) h s e s' :
  m s = (Raise e, s') -> try_except m h s = h e s'.
Proof. unfold try_except. now intros ->. Qed.

(* ------------------------------------------------------------------ *)
(** ** Placement: validation and the request *)

(** Unfolding a placement down to its checks. *)
Ltac run_placement :=
  unfold place_market_order, place_limit_order, place_stop_limit_order,
    logged, try_except, bind, raise_if, raise, ret, logger_error,
    logger_info, in_env, logger, lift; simpl.

Lemma market_bad_side symbol side q s :
  bad_side side = true ->
  place_market_order symbol side q s
  = (Raise (ValueError "Side must be 'BUY' or 'SELL'"),
     snd (logger_error
            "Invalid input for market order: Side must be 'BUY' or 'SELL'" s)).
Proof. intro H. run_placement. now rewrite H. Qed.

Lemma market_bad_quantity symbol side q s :
  bad_side side = false -> Num.le0 q = true ->
  place_market_order symbol side q s
  = (Raise (ValueError "Quantity must be positive"),
     snd (logger_error
            "Invalid input for market order: Quantity must be positive" s)).
Proof. intros H1 H2. run_placement. now rewrite H1, H2. Qed.

Lemma limit_bad_side symbol side q p s :
  bad_side side = true ->
  place_limit_order symbol side q p s
  = (Raise (ValueError "Side must be 'BUY' or 'SELL'"),
     snd (logger_error
            "Invalid input for limit order: Side must be 'BUY' or 'SELL'" s)).
Proof. intro H. run_placement. now rewrite H. Qed.

Lemma limit_bad_quantity symbol side q p s :
  bad_side side = false -> Num.le0 q = true ->
  place_limit_order symbol side q p s
  = (Raise (ValueError "Quantity must be positive"),
     snd (logger_error
            "Invalid input for limit order: Quantity must be positive" s)).
Proof. intros H1 H2. run_placement. now rewrite H1, H2. Qed.

Lemma limit_bad_price symbol side q p s :
  bad_side side = false -> Num.le0 q = false -> Num.le0 p = true ->
  place_limit_order symbol side q p s
  = (Raise (ValueError "Price must be positive"),
     snd (logger_error
            "Invalid input for limit order: Price must be positive" s)).
Proof. intros H1 H2 H3. run_placement. now rewrite H1, H2, H3. Qed.

Lemma stop_limit_bad_side symbol side q sp lp s :
  bad_side side = true ->
  place_stop_limit_order symbol side q sp lp s
  = (Raise (ValueError "Side must be 'BUY' or 'SELL'"),
     snd (logger_error
            "Invalid input for stop-limit order: Side must be 'BUY' or 'SELL'" s)).
Proof. intro H. run_placement. now rewrite H. Qed.

Lemma stop_limit_bad_quantity symbol side q sp lp s :
  bad_side side = false -> Num.le0 q = true ->
  place_stop_limit_order symbol side q sp lp s
  = (Raise (ValueError "Quantity must be positive"),
     snd (logger_error
            "Invalid input for stop-limit order: Quantity must be positive" s)).
Proof. intros H1 H2. run_placement. now rewrite H1, H2. Qed.

Lemma stop_limit_bad_prices symbol side q sp lp s :
  bad_side side = false -> Num.le0 q = false ->
  Num.le0 sp || Num.le0 lp = true ->
  place_stop_limit_order symbol side q sp lp s
  = (Raise (ValueError "Stop price and limit price must be positive"),
     snd (logger_error
            "Invalid input for stop-limit order: Stop price and limit price must be positive"
            s)).
Proof. intros H1 H2 H3. run_placement. now rewrite H1, H2, H3. Qed.

Lemma logger_error_network msg s :
  calls (env (snd (logger_error msg s))) = calls (env s)
  /\ exch (env (snd (logger_error msg s))) = exch (env s).
Proof. split; reflexivity. Qed.

(** A logged validation error leaves the exchange alone. *)
Lemma refused_by (A : Type) (m : M session A) s msg text :
  m s = (Raise (ValueError msg), snd (logger_error text s)) ->
  refused_locally m s.
Proof.
  intro H. exists msg, (snd (logger_error text s)).
  split; [exact H|apply logger_error_network].
Qed.

(** C1 (as amended).  With a side that passes, a quantity that is not
    positive makes each of the three placements raise the [ValueError]
    "Quantity must be positive"; once the quantity passes, a price that is
    not positive makes [place_limit_order] raise "Price must be positive";
    and a stop price or a limit price that is not positive makes
    [place_stop_limit_order] raise the one message it has for both,
    "Stop price and limit price must be positive". *)
Theorem nonpositive_argument_message (symbol side : string) (s : session) :
  bad_side side = false ->
  (forall q, Num.le0 q = true ->
     fst (place_market_order symbol side q s)
     = Raise (ValueError "Quantity must be positive")
     /\ (forall p, fst (place_limit_order symbol side q p s)
                   = Raise (ValueError "Quantity must be positive"))
     /\ (forall sp lp, fst (place_stop_limit_order symbol side q sp lp s)
                       = Raise (ValueError "Quantity must be positive")))
  /\ (forall q p, Num.le0 q = false -> Num.le0 p = true ->
        fst (place_limit_order symbol side q p s)
        = Raise (ValueError "Price must be positive"))
  /\ (forall q sp lp, Num.le0 q = false ->
        Num.le0 sp = true \/ Num.le0 lp = true ->
        fst (place_stop_limit_order symbol side q sp lp s)
        = Raise (ValueError "Stop price and limit price must be positive")).
Proof.
  intro Hside. repeat split.
  - now rewrite market_bad_quantity.
  - intro p. now rewrite limit_bad_quantity.
  - intros sp lp. now rewrite stop_limit_bad_quantity.
  - intros q p Hq Hp. now rewrite limit_bad_price.
  - intros q sp lp Hq Hprices.
    rewrite stop_limit_bad_prices; trivial.
    apply Bool.orb_true_iff. exact Hprices.
Qed.

(** C2.  A side whose upper-case form is neither BUY nor SELL, a quantity
    that is not positive, a price that is not positive: each placement
    raises a [ValueError], and neither the list of requests made nor the
    exchange has changed. *)
Theorem validation_precedes_the_network (symbol side : string)
    (q p sp lp : float) (s : session) :
  (bad_side side = true \/ Num.le0 q = true ->
     refused_locally (place_market_order symbol side q) s)
  /\ (bad_side side = true \/ Num.le0 q = true \/ Num.le0 p = true ->
        refused_locally (place_limit_order symbol side q p) s)
  /\ (bad_side side = true \/ Num.le0 q = true
      \/ Num.le0 sp = true \/ Num.le0 lp = true ->
        refused_locally (place_stop_limit_order symbol side q sp lp) s).
Proof.
  repeat split; intro H.
  - destruct (bad_side side) eqn:Hside.
    + eapply refused_by. now apply market_bad_side.
    + destruct H as [H|H]; [discriminate|].
      eapply refused_by. now apply market_bad_quantity.
  - destruct (bad_side side) eqn:Hside.
    + eapply refused_by. now apply limit_bad_side.
    + destruct (Num.le0 q) eqn:Hq.
      * eapply refused_by. now apply limit_bad_quantity.
      * destruct H as [H|[H|H]]; try discriminate.
        eapply refused_by. now apply limit_bad_price.
  - destruct (bad_side side) eqn:Hside.
    + eapply refused_by. now apply stop_limit_bad_side.
    + destruct (Num.le0 q) eqn:Hq.
      * eapply refused_by. now apply stop_limit_bad_quantity.
      * eapply refused_by. apply stop_limit_bad_prices; trivial.
        apply Bool.orb_true_iff.
        destruct H as [H|[H|[H|H]]]; try discriminate; auto.
Qed.

(** C7.  With a side that upper-cases to BUY or SELL, a positive quantity
    and a positive price, [place_limit_order] makes exactly one request,
    whatever the exchange answers: an order creation of type LIMIT, time in
    force GTC, the symbol and the side in upper case, the quantity and the
    price as given. *)
Theorem limit_order_request (symbol side : string) (q p : float) (s : session) :
  Text.upper side = "BUY" \/ Text.upper side = "SELL" ->
  Num.gt0 q = true -> Num.gt0 p = true ->
  calls (env (snd (place_limit_order symbol side q p s)))
  = (calls (env s) ++ [limit_request symbol side q p])%list.
Proof.
  intros Hside Hq Hp.
  apply bad_side_false in Hside.
  apply gt0_not_le0 in Hq. apply gt0_not_le0 in Hp.
  run_placement. rewrite Hside, Hq, Hp. unfold call. simpl.
  destruct (serve (client (self s)) _ (exch (env s))) as [[v|code msg|msg] x];
    simpl; try reflexivity.
  destruct (Py.item v "orderId") as [id|e]; [reflexivity|].
  destruct e; reflexivity.
Qed.

(* ------------------------------------------------------------------ *)
(** ** The account snapshot *)

Lemma get_of_position entries key :
  Py.get (VDict entries) key VNone = Ok (entry (VDict entries) key).
Proof. reflexivity. Qed.

(** The loop keeps the positions whose amount is not zero, each with its
    five fields, in the order of the response. *)
Lemma nonzero_positions_filter (items : list value) :
  Forall is_position items ->
  forall acc,
    nonzero_positions items acc
    = Ok (acc ++ map snapshot (filter amount_nonzero items))%list.
Proof.
  induction 1 as [|position rest [[entries ->] [x Hx]] _ IH]; intro acc; simpl.
  - now rewrite app_nil_r.
  - unfold amount_nonzero. rewrite Hx.
    unfold amount in Hx. simpl in Hx.
    rewrite Hx. simpl.
    destruct (Num.ne0 x).
    + rewrite IH. simpl. now rewrite <- app_assoc.
    + apply IH.
Qed.

(** C3.  When the exchange answers the account request with a dictionary
    whose positions are dictionaries with an amount that reads as a number,
    [get_account_info] returns a snapshot whose positions are exactly the
    positions of the response with an amount other than zero, in the same
    order, each with its symbol, amount, entry price, unrealized PnL and
    percentage as the response has them, and whose five balances are the
    values of the response. *)
Theorem account_snapshot (s : session) (entries : list (string * value))
    (items : list value) (x' : X) :
  serve (client (self s)) futures_account (exch (env s))
  = (Answer (VDict entries), x') ->
  Py.assoc "positions" entries = Some (VList items) ->
  Forall is_position items ->
  exists data s',
    get_account_info s = (Ok data, s')
    /\ positions data = map snapshot (filter amount_nonzero items)
    /\ (forall p, In p (positions data) <->
                  exists item, In item items
                               /\ amount_nonzero item = true
                               /\ p = snapshot item)
    /\ total_wallet_balance data = balance entries "totalWalletBalance"
    /\ total_unrealized_pnl data = balance entries "totalUnrealizedPnL"
    /\ total_margin_balance data = balance entries "totalMarginBalance"
    /\ available_balance data = balance entries "availableBalance"
    /\ max_withdraw_amount data = balance entries "maxWithdrawAmount".
Proof.
  intros Hserve Hlisted Hitems.
  unfold get_account_info, logged, try_except, bind, call.
  rewrite Hserve. simpl. rewrite Hlisted. simpl.
  rewrite (nonzero_positions_filter items Hitems []). simpl.
  eexists. eexists. split; [reflexivity|]. simpl.
  split; [reflexivity|]. split; [|repeat split; reflexivity].
  intro p. rewrite in_map_iff. split.
  - intros [item [Heq Hin]]. apply filter_In in Hin.
    exists item. intuition.
  - intros [item [Hin [Hnz Heq]]]. exists item. split; [now symmetry|].
    apply filter_In. now split.
Qed.

(* ------------------------------------------------------------------ *)
(** ** Requests and the symbol *)

(** Case analysis on everything a run branches on. *)
Ltac branches :=
  repeat (simpl;
          match goal with
          | |- context [serve ?c ?r ?x] =>
              destruct (serve c r x) as [[?|? ?|?] ?]
          | |- context [Py.item ?v ?k] => destruct (Py.item v k)
          | |- context [Py.get ?v ?k ?d] => destruct (Py.get v k d)
          | |- context [Py.len ?v] => destruct (Py.len v)
          | |- context [Py.iter ?v] => destruct (Py.iter v)
          | |- context [py_float ?r ?v] => destruct (py_float r v)
          | |- context [order_time ?r ?v] => destruct (order_time r v)
          | |- context [nonzero_positions ?l ?a] =>
              destruct (nonzero_positions l a)
          | |- context [bad_side ?x] => destruct (bad_side x)
          | |- context [Num.le0 ?x] => destruct (Num.le0 x)
          | |- context [match ?e with ValueError _ => _ | _ => _ end] =>
              is_var e; destruct e
          end);
  simpl.

Ltac run_wrapper :=
  unfold get_account_info, get_current_price, place_market_order,
    place_limit_order, place_stop_limit_order, get_order_status,
    cancel_order, get_open_orders, logged, try_except, bind, raise_if,
    raise, ret, logger_error, logger_info, in_env, logger, lift, call.

(** C8.  With a symbol that is not empty, [get_open_orders] asks the
    exchange for the open orders of that symbol in upper case, and returns
    the list the exchange answers with, unchanged; with no symbol, or the
    empty one, it asks for the open orders without a filter and returns
    that list unchanged. *)
Theorem open_orders_request (s : session) :
  (forall symbol,
     symbol <> "" ->
     calls (env (snd (get_open_orders (Some symbol) s)))
     = (calls (env s) ++ [futures_get_open_orders (Some (Text.upper symbol))])%list
     /\ forall orders x',
          serve (client (self s))
                (futures_get_open_orders (Some (Text.upper symbol)))
                (exch (env s))
          = (Answer (VList orders), x') ->
          fst (get_open_orders (Some symbol) s) = Ok (VList orders))
  /\ (forall symbol,
        symbol = None \/ symbol = Some "" ->
        calls (env (snd (get_open_orders symbol s)))
        = (calls (env s) ++ [futures_get_open_orders None])%list
        /\ forall orders x',
             serve (client (self s)) (futures_get_open_orders None)
                   (exch (env s))
             = (Answer (VList orders), x') ->
             fst (get_open_orders symbol s) = Ok (VList orders)).
Proof.
  split.
  - intros symbol Hsym. apply truthy_nonempty in Hsym.
    run_wrapper. rewrite Hsym. split.
    + branches; reflexivity.
    + intros orders x' ->. reflexivity.
  - intros symbol [-> | ->]; run_wrapper; simpl; (split;
      [branches; reflexivity | intros orders x' ->; reflexivity]).
Qed.

(** An operation run on a symbol and run on its upper-case form: the two
    runs return the same result, make the same requests and leave the
    exchange in the same state. *)
Lemma symbol_upper_same (symbol : string) (s : session) :
  same_outside (get_current_price symbol s)
               (get_current_price (Text.upper symbol) s)
  /\ (forall side q,
        same_outside (place_market_order symbol side q s)
                     (place_market_order (Text.upper symbol) side q s))
  /\ (forall side q p,
        same_outside (place_limit_order symbol side q p s)
                     (place_limit_order (Text.upper symbol) side q p s))
  /\ (forall side q sp lp,
        same_outside (place_stop_limit_order symbol side q sp lp s)
                     (place_stop_limit_order (Text.upper symbol) side q sp lp s))
  /\ (forall id,
        same_outside (get_order_status symbol id s)
                     (get_order_status (Text.upper symbol) id s))
  /\ (forall id,
        same_outside (cancel_order symbol id s)
                     (cancel_order (Text.upper symbol) id s))
  /\ same_outside (get_open_orders (Some symbol) s)
                  (get_open_orders (Some (Text.upper symbol)) s).
Proof.
  unfold same_outside.
  repeat match goal with |- _ /\ _ => split end; intros;
    run_wrapper; rewrite ?truthy_upper, ?upper_idempotent;
    branches; repeat split; reflexivity.
Qed.

(* ------------------------------------------------------------------ *)
(** ** The bot object *)

Lemma keeps_ret A (a : A) : keeps_self (ret a).
Proof. now intro s. Qed.

Lemma keeps_raise A e : keeps_self (@raise session A e).
Proof. now intro s. Qed.

Lemma keeps_lift A (r : result A) : keeps_self (lift r).
Proof. now intro s. Qed.

Lemma keeps_raise_if cond e : keeps_self (raise_if cond e).
Proof. intro s. now destruct cond. Qed.

Lemma keeps_in_env A (m : M world A) : keeps_self (in_env m).
Proof. intro s. unfold in_env. now destruct (m (env s)). Qed.

Lemma keeps_call req : keeps_self (call req).
Proof. intro s. unfold call. now destruct (serve _ _ _). Qed.

Lemma keeps_bind A B (m : M session A) (k : A -> M session B) :
  keeps_self m -> (forall a, keeps_self (k a)) -> keeps_self (bind m k).
Proof.
  intros Hm Hk s. unfold bind. specialize (Hm s).
  destruct (m s) as [[a|e] s1]; simpl in *.
  - now rewrite Hk.
  - exact Hm.
Qed.

Lemma keeps_try_except A (m : M session A) h :
  keeps_self m -> (forall e, keeps_self (h e)) -> keeps_self (try_except m h).
Proof.
  intros Hm Hh s. unfold try_except. specialize (Hm s).
  destruct (m s) as [[a|e] s1]; simpl in *.
  - exact Hm.
  - now rewrite Hh.
Qed.

Lemma keeps_logged A doing invalid (body : M session A) :
  keeps_self body -> keeps_self (logged doing invalid body).
Proof.
  intro Hbody. apply keeps_try_except; [exact Hbody|].
  intros [] ; destruct invalid;
    repeat first [apply keeps_bind; [|intro] | apply keeps_in_env
                 | apply keeps_raise].
Qed.

(** Going through a method step by step. *)
Ltac keeps :=
  repeat first
    [ apply keeps_logged
    | apply keeps_bind; [|intro]
    | apply keeps_call
    | apply keeps_in_env
    | apply keeps_lift
    | apply keeps_raise_if
    | apply keeps_ret
    | apply keeps_raise
    | match goal with
      | |- keeps_self (match ?x with _ => _ end) => destruct x
      end ].

Lemma perform_keeps_self (o : operation) (s : session) :
  self (perform o s) = self s.
Proof.
  destruct o; simpl;
    match goal with |- self (snd (?m s)) = _ => revert s; change (keeps_self m) end;
    unfold get_account_info, get_current_price, place_market_order,
      place_limit_order, place_stop_limit_order, get_order_status,
      cancel_order, get_open_orders, logger_info;
    keeps.
Qed.

Lemma perform_all_keeps_self (ops : list operation) (s : session) :
  self (perform_all ops s) = self s.
Proof.
  revert s. induction ops as [|o ops IH]; intro s; simpl.
  - reflexivity.
  - unfold perform_all in *. simpl. now rewrite IH, perform_keeps_self.
Qed.

(** C9.  The constructor stores the key, the secret and the network flag it
    is given; every operation of the wrapper, however it ends, leaves the
    bot object as it was, and so does every sequence of operations: the
    three fields stay as constructed. *)
Theorem credentials_stay_as_constructed :
  (forall key secret flag w bot w',
     init key secret flag w = (Ok bot, w') ->
     api_key bot = key /\ api_secret bot = secret /\ testnet bot = flag)
  /\ (forall o s, self (perform o s) = self s)
  /\ (forall ops s,
        api_key (self (perform_all ops s)) = api_key (self s)
        /\ api_secret (self (perform_all ops s)) = api_secret (self s)
        /\ testnet (self (perform_all ops s)) = testnet (self s)).
Proof.
  split; [|split].
  - intros key secret flag w bot w'.
    unfold init, try_except, bind, new_client.
    destruct flag;
      (destruct (dial _ (exch w)) as [[v|code msg|msg] x]; simpl;
       try discriminate);
      intro H; inversion H; subst; simpl; auto.
  - exact perform_keeps_self.
  - intros ops s. now rewrite perform_all_keeps_self.
Qed.

(* ------------------------------------------------------------------ *)
(** ** Collecting input *)

(** A conversion fails with [ValueError] only. *)
Lemma convert_raises t user_input e :
  convert t user_input = Raise e -> exists msg, e = ValueError msg.
Proof.
  destruct t; simpl.
  - discriminate.
  - destruct (Text.to_int user_input); [discriminate|].
    intro H. inversion H. eauto.
  - destruct (float_of_text rt user_input); [discriminate|].
    intro H. inversion H. eauto.
  - intro H. inversion H. eauto.
Qed.

Lemma prompt_once_end prompt t vf out :
  prompt_once prompt t vf {| stdin := []; stdout := out |}
  = (Raise EOFError, {| stdin := []; stdout := (out ++ [prompt])%list |}).
Proof. reflexivity. Qed.

Lemma prompt_once_interrupt prompt t vf rest out :
  prompt_once prompt t vf {| stdin := CtrlC :: rest; stdout := out |}
  = (Ok (Some None),
     {| stdin := rest;
        stdout := ((out ++ [prompt])
                   ++ [(Text.nl ++ "Operation cancelled by user.")%string])%list |}).
Proof. reflexivity. Qed.

Lemma prompt_once_accepts prompt t vf raw rest out v :
  convert t (Text.strip raw) = Ok v -> rejected vf v = false ->
  prompt_once prompt t vf {| stdin := Typed raw :: rest; stdout := out |}
  = (Ok (Some (Some v)), {| stdin := rest; stdout := (out ++ [prompt])%list |}).
Proof.
  intros Hv Hok. unfold prompt_once, try_except, bind, input, lift. simpl.
  now rewrite Hv, Hok.
Qed.

Lemma prompt_once_turns_down prompt t vf raw rest out :
  accepts t vf raw = false ->
  exists out',
    prompt_once prompt t vf {| stdin := Typed raw :: rest; stdout := out |}
    = (Ok None, {| stdin := rest; stdout := out' |}).
Proof.
  unfold accepts, prompt_once, try_except, bind, input, lift. simpl.
  destruct (convert t (Text.strip raw)) as [v|e] eqn:Hv.
  - intro H. apply Bool.negb_false_iff in H. rewrite H.
    eexists. reflexivity.
  - intros _. destruct (convert_raises _ _ _ Hv) as [msg ->].
    eexists. reflexivity.
Qed.

(** The loop, with turns enough for the input to come. *)
Lemma prompt_loop_explained prompt t vf (events : list event) :
  forall turns out,
    (List.length events < turns)%nat ->
    explains t vf events
      (prompt_loop turns prompt t vf {| stdin := events; stdout := out |}).
Proof.
  induction events as [|ev rest IH]; intros turns out Hturns;
    (destruct turns as [|k]; [inversion Hturns|]); cbn [prompt_loop].
  - unfold bind. rewrite prompt_once_end. simpl. auto.
  - destruct ev as [raw|].
    + destruct (accepts t vf raw) eqn:Hacc.
      * unfold accepts in Hacc.
        destruct (convert t (Text.strip raw)) as [v|e] eqn:Hv; [|discriminate].
        apply Bool.negb_true_iff in Hacc.
        unfold bind. rewrite (prompt_once_accepts _ _ _ _ _ _ _ Hv Hacc).
        simpl. exists [], raw. simpl. auto.
      * destruct (prompt_once_turns_down prompt t vf raw rest out Hacc)
          as [out' Hrun].
        unfold bind. rewrite Hrun.
        assert (Hk : (List.length rest < k)%nat) by (simpl in Hturns; lia).
        specialize (IH k out' Hk).
        assert (Hdown : turned_down t vf (Typed raw)) by (exists raw; auto).
        destruct (prompt_loop k prompt t vf _) as [[[v|]|e] c']; simpl in *.
        -- destruct IH as [before [raw' [-> [Hb [Hv Hok]]]]].
           exists (Typed raw :: before), raw'. simpl. auto.
        -- destruct IH as [before [-> Hb]].
           exists (Typed raw :: before). simpl. auto.
        -- destruct IH as [-> [Hb Hc]]. auto.
    + unfold bind. rewrite prompt_once_interrupt. simpl.
      exists []. simpl. auto.
Qed.

(** The bound on the turns is never what stops the loop: with more turns
    the result is the same. *)
Lemma prompt_loop_enough prompt t vf (events : list event) :
  forall turns out,
    (List.length events < turns)%nat ->
    prompt_loop turns prompt t vf {| stdin := events; stdout := out |}
    = prompt_loop (S (List.length events)) prompt t vf
        {| stdin := events; stdout := out |}.
Proof.
  induction events as [|ev rest IH]; intros turns out Hturns;
    (destruct turns as [|k]; [inversion Hturns|]);
    cbn [prompt_loop List.length]; unfold bind.
  - now rewrite prompt_once_end.
  - destruct ev as [raw|].
    + destruct (accepts t vf raw) eqn:Hacc.
      * unfold accepts in Hacc.
        destruct (convert t (Text.strip raw)) as [v|e] eqn:Hv; [|discriminate].
        apply Bool.negb_true_iff in Hacc.
        now rewrite (prompt_once_accepts _ _ _ _ _ _ _ Hv Hacc).
      * destruct (prompt_once_turns_down prompt t vf raw rest out Hacc)
          as [out' Hrun].
        rewrite Hrun. apply IH. simpl in Hturns. lia.
    + now rewrite prompt_once_interrupt.
Qed.

Lemma get_user_input_explained prompt t vf (c : console) :
  explains t vf (stdin c) (get_user_input prompt t vf c).
Proof.
  destruct c as [events out]. unfold get_user_input. cbn [stdin].
  apply prompt_loop_explained. lia.
Qed.


(* ------------------------------------------------------------------ *)
(** ** What can be raised *)

Lemma only_ret S A (a : A) : raises_Exceptions (@ret S A a).
Proof. intros s e s' H. discriminate. Qed.

Lemma only_raise S A e : is_Exception e = true -> raises_Exceptions (@raise S A e).
Proof. intros He s e' s' H. inversion H. now subst. Qed.

Lemma only_lift S A (r : result A) :
  fails_with_Exception r -> raises_Exceptions (@lift S A r).
Proof. intros Hr s e s' H. inversion H. now apply Hr. Qed.

Lemma only_raise_if S cond e :
  is_Exception e = true -> raises_Exceptions (@raise_if S cond e).
Proof.
  intros He s e' s'. unfold raise_if. destruct cond.
  - now apply only_raise.
  - apply only_ret.
Qed.

Lemma only_bind S A B (m : M S A) (k : A -> M S B) :
  raises_Exceptions m -> (forall a, raises_Exceptions (k a)) ->
  raises_Exceptions (bind m k).
Proof.
  intros Hm Hk s e s' H.
  apply bind_inv_raise in H. destruct H as [H|[a [s1 [_ H]]]].
  - eapply Hm, H.
  - eapply Hk, H.
Qed.

Lemma only_try_except S A (m : M S A) h :
  raises_Exceptions m ->
  (forall e, is_Exception e = true -> raises_Exceptions (h e)) ->
  raises_Exceptions (try_except m h).
Proof.
  intros Hm Hh s e s'. unfold try_except.
  destruct (m s) as [[a|e0] s1] eqn:Hrun; [discriminate|].
  apply Hh. eapply Hm, Hrun.
Qed.

Lemma only_in_env A (m : M world A) :
  raises_Exceptions m -> raises_Exceptions (in_env m).
Proof.
  intros Hm s e s'. unfold in_env.
  destruct (m (env s)) as [r w] eqn:Hrun. intro H. inversion H. subst.
  eapply Hm, Hrun.
Qed.

Lemma only_in_tty A (m : M console A) :
  raises_Exceptions m -> raises_Exceptions (in_tty m).
Proof.
  intros Hm w e w'. unfold in_tty.
  destruct (m (tty w)) as [r c] eqn:Hrun. intro H. inversion H. subst.
  eapply Hm, Hrun.
Qed.

Lemma only_shell A (m : M console A) :
  raises_Exceptions m -> raises_Exceptions (shell m).
Proof. intro Hm. now apply only_in_env, only_in_tty. Qed.

Lemma only_print line : raises_Exceptions (print line).
Proof. intros c e c' H. discriminate. Qed.

Lemma only_logger lvl msg : raises_Exceptions (logger lvl msg).
Proof. intros w e w' H. discriminate. Qed.

Lemma only_call req : raises_Exceptions (call req).
Proof.
  intros s e s'. unfold call.
  destruct (serve _ _ _) as [[v|code msg|msg] x]; simpl; intro H;
    inversion H; reflexivity.
Qed.

Lemma only_logged A doing invalid (body : M session A) :
  raises_Exceptions body -> raises_Exceptions (logged doing invalid body).
Proof.
  intro Hbody. apply only_try_except; [exact Hbody|].
  intros e He. destruct e, invalid; try discriminate;
    (apply only_bind; [apply only_in_env, only_logger|intros _]);
    now apply only_raise.
Qed.

(** The pure steps. *)
Lemma item_fails v key : fails_with_Exception (Py.item v key).
Proof.
  intros e. destruct v; simpl; try (intro H; inversion H; reflexivity).
  destruct (Py.assoc key entries); intro H; inversion H; reflexivity.
Qed.

Lemma get_fails v key d : fails_with_Exception (Py.get v key d).
Proof. intros e. destruct v; simpl; intro H; inversion H; reflexivity. Qed.

Lemma len_fails v : fails_with_Exception (Py.len v).
Proof. intros e. destruct v; simpl; intro H; inversion H; reflexivity. Qed.

Lemma iter_fails v : fails_with_Exception (Py.iter v).
Proof. intros e. destruct v; simpl; intro H; inversion H; reflexivity. Qed.

Lemma float_fails v : fails_with_Exception (py_float rt v).
Proof.
  intros e. destruct v; simpl; try (intro H; inversion H; reflexivity).
  - unfold float_of_int. destruct (Z.abs z <? 2 ^ 63); [discriminate|].
    destruct (float_of_bigint rt z); intro H; inversion H; reflexivity.
  - destruct (float_of_text rt s); intro H; inversion H; reflexivity.
Qed.

Lemma order_time_fails v : fails_with_Exception (order_time rt v).
Proof.
  intros e. unfold order_time.
  destruct (strftime_ms rt v); intro H; inversion H; reflexivity.
Qed.

Lemma and_then_fails A B (r : result A) (k : A -> result B) :
  fails_with_Exception r -> (forall a, fails_with_Exception (k a)) ->
  fails_with_Exception (and_then r k).
Proof.
  intros Hr Hk e. destruct r as [a|e0]; simpl.
  - apply Hk.
  - intro H. inversion H. subst. now apply Hr.
Qed.

Lemma nonzero_positions_fails items :
  forall acc, fails_with_Exception (nonzero_positions items acc).
Proof.
  induction items as [|position rest IH]; intro acc; simpl.
  - intros e H. discriminate.
  - apply and_then_fails; [apply get_fails|intro amt].
    apply and_then_fails; [apply float_fails|intro size].
    destruct (Num.ne0 size); [|apply IH].
    repeat (apply and_then_fails; [apply get_fails|intro]).
    apply IH.
Qed.

(** Going through a computation step by step. *)
Ltac classes :=
  repeat first
    [ apply only_logged
    | apply only_bind; [|intro]
    | apply only_call
    | apply only_shell
    | apply only_in_env
    | apply only_in_tty
    | apply only_print
    | apply only_logger
    | apply only_ret
    | apply only_raise_if; reflexivity
    | apply only_lift
    | apply item_fails
    | apply get_fails
    | apply len_fails
    | apply iter_fails
    | apply float_fails
    | apply order_time_fails
    | apply nonzero_positions_fails
    | match goal with
      | |- raises_Exceptions (match ?x with _ => _ end) => destruct x
      end ].

Lemma only_wrapper :
  raises_Exceptions get_account_info
  /\ (forall symbol, raises_Exceptions (get_current_price symbol))
  /\ (forall symbol side q, raises_Exceptions (place_market_order symbol side q))
  /\ (forall symbol side q p,
        raises_Exceptions (place_limit_order symbol side q p))
  /\ (forall symbol side q sp lp,
        raises_Exceptions (place_stop_limit_order symbol side q sp lp))
  /\ (forall symbol id, raises_Exceptions (get_order_status symbol id))
  /\ (forall symbol id, raises_Exceptions (cancel_order symbol id))
  /\ (forall symbol, raises_Exceptions (get_open_orders symbol)).
Proof.
  repeat match goal with |- _ /\ _ => split end; intros;
    unfold get_account_info, get_current_price, place_market_order,
      place_limit_order, place_stop_limit_order, get_order_status,
      cancel_order, get_open_orders, logger_info;
    classes.
Qed.

(* ------------------------------------------------------------------ *)
(** ** The menu loop *)

Lemma shell_print line s : shell (print line) s = (Ok tt, printed line s).
Proof. reflexivity. Qed.

(** The block around an operation catches what the operation raises. *)
Lemma guarded_catches label (body : M session unit) s e s1 :
  body s = (Raise e, s1) -> is_Exception e = true ->
  guarded label body s = (Ok tt, printed (label ++ str_exn e) s1).
Proof.
  intros Hbody He. unfold guarded.
  rewrite (try_except_raise _ _ _ _ _ Hbody), He. apply shell_print.
Qed.

Lemma only_guarded label (body : M session unit) :
  raises_Exceptions body -> raises_Exceptions (guarded label body).
Proof.
  intro Hbody. apply only_try_except; [exact Hbody|].
  intros e ->. apply only_shell, only_print.
Qed.

Lemma guarded_never_raises label (body : M session unit) :
  raises_Exceptions body -> never_raises (guarded label body).
Proof.
  intros Hbody s. unfold guarded, try_except.
  destruct (body s) as [[[]|e] s1] eqn:Hrun.
  - now exists tt, s1.
  - rewrite (Hbody _ _ _ Hrun). rewrite shell_print. eauto.
Qed.

Lemma only_get_user_input prompt t vf :
  raises_Exceptions (get_user_input prompt t vf).
Proof.
  intros [events out] e c' Hrun. unfold get_user_input in Hrun.
  cbn [stdin] in Hrun.
  pose proof (get_user_input_explained prompt t vf
                {| stdin := events; stdout := out |}) as H.
  unfold get_user_input in H. cbn [stdin] in H.
  rewrite Hrun in H. destruct H as [-> _]. reflexivity.
Qed.

Ltac shell_classes :=
  repeat first
    [ match goal with
      | H : _ |- raises_Exceptions _ => solve [apply H]
      end
    | apply only_guarded
    | apply only_get_user_input
    | progress classes
    | match goal with
      | |- raises_Exceptions (if ?b then _ else _) => destruct b
      end
    | solve [auto] ].

Lemma only_format_positions ps : raises_Exceptions (format_positions ps).
Proof.
  induction ps as [|pos rest IH]; simpl.
  - apply only_ret.
  - apply only_bind; [|intro; exact IH].
    unfold format_position. shell_classes.
Qed.

Lemma only_format_open_orders orders :
  raises_Exceptions (format_open_orders orders).
Proof.
  induction orders as [|order rest IH]; simpl.
  - apply only_ret.
  - apply only_bind; [|intro; exact IH].
    unfold format_open_order. shell_classes.
Qed.

Lemma block_catches A (op : M session A) (display : A -> M session unit)
    label s e s1 :
  raises_Exceptions op -> op s = (Raise e, s1) ->
  guarded label (bind op display) s
  = (Ok tt, printed (label ++ str_exn e) s1).
Proof.
  intros Hop Hrun. apply guarded_catches.
  - now apply bind_raise.
  - eapply Hop, Hrun.
Qed.

(* ------------------------------------------------------------------ *)
(** ** Missing input *)

Lemma shell_display_menu s :
  exists out,
    shell display_menu s
    = (Ok tt, with_console s {| stdin := stdin (tty (env s)); stdout := out |}).
Proof. eexists. reflexivity. Qed.

Lemma get_user_input_accepts prompt t vf raw rest out v :
  convert t (Text.strip raw) = Ok v -> rejected vf v = false ->
  get_user_input prompt t vf {| stdin := Typed raw :: rest; stdout := out |}
  = (Ok (Some v), {| stdin := rest; stdout := (out ++ [prompt])%list |}).
Proof.
  intros Hv Hok. unfold get_user_input. cbn [stdin List.length prompt_loop].
  unfold bind. now rewrite (prompt_once_accepts _ _ _ _ _ _ _ Hv Hok).
Qed.

Lemma shell_get_user_input_accepts prompt t vf s raw rest v :
  stdin (tty (env s)) = Typed raw :: rest ->
  convert t (Text.strip raw) = Ok v -> rejected vf v = false ->
  shell (get_user_input prompt t vf) s
  = (Ok (Some v),
     with_console s {| stdin := rest;
                       stdout := (stdout (tty (env s)) ++ [prompt])%list |}).
Proof.
  destruct s as [b [x cs lg [events out]]]. cbn [env tty stdin stdout].
  intros -> Hv Hok. unfold shell, in_env, in_tty. cbn [env tty].
  now rewrite (get_user_input_accepts _ _ _ _ _ _ _ Hv Hok).
Qed.

(** A value read and checked for truth (the [continue] checks of the
    shell). *)
Lemma required_reads prompt t vf rest_of_branch s raw rest v :
  stdin (tty (env s)) = Typed raw :: rest ->
  convert t (Text.strip raw) = Ok v -> rejected vf v = false ->
  required prompt t vf rest_of_branch s
  = let s' := with_console s
                {| stdin := rest;
                   stdout := (stdout (tty (env s)) ++ [prompt])%list |} in
    if truth t v then rest_of_branch v s' else (Ok Continue, s').
Proof.
  intros Hin Hv Hok. unfold required.
  rewrite (bind_ok _ _ _ _ _ (shell_get_user_input_accepts _ _ _ _ _ _ _ Hin Hv Hok)).
  cbv zeta. now destruct (truth t v).
Qed.

Lemma with_console_twice s c1 c2 :
  with_console (with_console s c1) c2 = with_console s c2.
Proof. reflexivity. Qed.

(** C5.  At the menu, when the choice read is 6 (order status) or 7 (cancel
    order), a symbol is typed and the order id typed converts to zero, the
    iteration goes back to the menu: the bot, the exchange, the requests
    made and the log are as before (no query and no cancellation was made),
    and the three lines have been read. *)
Theorem zero_order_id_is_missing_input (s : session)
    (choice symbol order_id : string) (rest : list event) :
  stdin (tty (env s))
  = Typed choice :: Typed symbol :: Typed order_id :: rest ->
  convert T_int (Text.strip choice) = Ok 6
  \/ convert T_int (Text.strip choice) = Ok 7 ->
  Text.strip symbol <> "" ->
  convert T_int (Text.strip order_id) = Ok 0 ->
  exists out,
    menu_iteration s
    = (Continue, with_console s {| stdin := rest; stdout := out |}).
Proof.
  intros Hin Hchoice Hsymbol Hid.
  apply truthy_nonempty in Hsymbol.
  destruct (shell_display_menu s) as [out0 Hmenu].
  assert (Hprompt : forall n,
            convert T_int (Text.strip choice) = Ok n ->
            choice_prompt s
            = (Ok (Some n),
               with_console s
                 {| stdin := Typed symbol :: Typed order_id :: rest;
                    stdout := (out0 ++ ["Enter your choice (1-9): "])%list |})).
  { intros n Hn. unfold choice_prompt.
    rewrite (bind_ok _ _ _ _ _ Hmenu).
    erewrite shell_get_user_input_accepts;
      [reflexivity|exact Hin|exact Hn|reflexivity]. }
  unfold menu_iteration, menu_body.
  destruct Hchoice as [Hchoice|Hchoice];
    rewrite (bind_ok _ _ _ _ _ (Hprompt _ Hchoice));
    cbn [dispatch];
    (erewrite required_reads;
       [|reflexivity|reflexivity|reflexivity]);
    cbv zeta; cbn [truth]; rewrite Hsymbol;
    (erewrite required_reads; [|reflexivity|exact Hid|reflexivity]);
    cbv zeta; cbn [truth]; simpl (negb _);
    rewrite !with_console_twice; eexists; reflexivity.
Qed.

(* ------------------------------------------------------------------ *)
(** ** More on placement *)

Lemma call_calls req s :
  calls (env (snd (call req s))) = (calls (env s) ++ [req])%list.
Proof. unfold call. now destruct (serve _ _ _). Qed.

(** X1.  A placement makes its one request exactly when its checks pass, and
    none otherwise: a market order of type MARKET with no price and no time
    in force; a limit order as in [limit_request]; a stop-limit order of
    type STOP, time in force GTC, the limit price as [price] and the stop
    price as [stopPrice]. *)
Theorem placement_requests (symbol side : string) (q p sp lp : float)
    (s : session) :
  calls (env (snd (place_market_order symbol side q s)))
  = (if bad_side side || Num.le0 q then calls (env s)
     else (calls (env s) ++ [market_request symbol side q])%list)
  /\ calls (env (snd (place_limit_order symbol side q p s)))
     = (if bad_side side || Num.le0 q || Num.le0 p then calls (env s)
        else (calls (env s) ++ [limit_request symbol side q p])%list)
  /\ calls (env (snd (place_stop_limit_order symbol side q sp lp s)))
     = (if bad_side side || Num.le0 q || (Num.le0 sp || Num.le0 lp)
        then calls (env s)
        else (calls (env s) ++ [stop_limit_request symbol side q sp lp])%list).
Proof.
  repeat split; run_placement; unfold call;
    destruct (bad_side side); simpl; try reflexivity;
    destruct (Num.le0 q); simpl; try reflexivity;
    try (destruct (Num.le0 p); simpl; try reflexivity);
    try (destruct (Num.le0 sp); simpl; try reflexivity;
         destruct (Num.le0 lp); simpl; try reflexivity);
    (destruct (serve (client (self s)) _ (exch (env s)))
       as [[v|code msg|msg] x]; simpl; try reflexivity;
     destruct (Py.item v "orderId") as [id|e]; [reflexivity|];
     destruct e; reflexivity).
Qed.

Lemma nan_not_le0 (x : float) : PrimFloat.is_nan x = true -> Num.le0 x = false.
Proof.
  intro H. unfold Num.le0. rewrite leb_spec.
  unfold Prim2SF at 1. now rewrite H.
Qed.

(** X2.  A quantity or a price that is not a number passes the checks, since
    [nan <= 0] is false: with a side that passes, the request goes out with
    the NaN in it. *)
Theorem nan_passes_validation (symbol side : string) (q p sp lp : float)
    (s : session) :
  bad_side side = false ->
  PrimFloat.is_nan q = true -> PrimFloat.is_nan p = true ->
  PrimFloat.is_nan sp = true -> PrimFloat.is_nan lp = true ->
  calls (env (snd (place_market_order symbol side q s)))
  = (calls (env s) ++ [market_request symbol side q])%list
  /\ calls (env (snd (place_limit_order symbol side q p s)))
     = (calls (env s) ++ [limit_request symbol side q p])%list
  /\ calls (env (snd (place_stop_limit_order symbol side q sp lp s)))
     = (calls (env s) ++ [stop_limit_request symbol side q sp lp])%list.
Proof.
  intros Hside Hq Hp Hsp Hlp.
  apply nan_not_le0 in Hq, Hp, Hsp, Hlp.
  repeat split; run_placement; rewrite Hside, Hq, ?Hp, ?Hsp, ?Hlp; simpl;
    unfold call;
    (destruct (serve (client (self s)) _ (exch (env s)))
       as [[v|code msg|msg] x]; simpl; try reflexivity;
     destruct (Py.item v "orderId") as [id|e]; [reflexivity|];
     destruct e; reflexivity).
Qed.

(** A placement with a side and the placement with its upper-case form
    return the same result, make the same requests and leave the exchange
    in the same state. *)
Lemma side_upper_same (symbol side : string) (s : session) :
  (forall q,
     same_outside (place_market_order symbol side q s)
                  (place_market_order symbol (Text.upper side) q s))
  /\ (forall q p,
        same_outside (place_limit_order symbol side q p s)
                     (place_limit_order symbol (Text.upper side) q p s))
  /\ (forall q sp lp,
        same_outside (place_stop_limit_order symbol side q sp lp s)
                     (place_stop_limit_order symbol (Text.upper side) q sp lp s)).
Proof.
  unfold same_outside.
  repeat match goal with |- _ /\ _ => split end; intros;
    run_wrapper; rewrite ?bad_side_upper, ?upper_idempotent;
    branches; repeat split; reflexivity.
Qed.

(* ------------------------------------------------------------------ *)
(** ** What the exchange answers *)

(** The requests of an operation, whatever comes back. *)
Lemma perform_calls (o : operation) (s : session) :
  calls (env (perform o s))
  = (calls (env s) ++ match request_of o with
                      | Some req => [req]
                      | None => []
                      end)%list.
Proof.
  destruct o as [|symbol|symbol side q|symbol side q p|symbol side q sp lp
                |symbol id|symbol id|[symbol|]];
    simpl; run_wrapper;
    repeat match goal with
           | |- context [bad_side ?x] => destruct (bad_side x); simpl
           | |- context [Num.le0 ?x] => destruct (Num.le0 x); simpl
           | |- context [Text.truthy ?x] => destruct (Text.truthy x); simpl
           end;
    rewrite ?app_nil_r; try reflexivity;
    branches; reflexivity.
Qed.

(** The requests of an operation, in the two cases of its checks. *)
Lemma perform_calls_if (o : operation) (s : session) (failed : bool)
    (req : request) :
  request_of o = (if failed then None else Some req) ->
  calls (env (perform o s))
  = (if failed then calls (env s) else (calls (env s) ++ [req])%list).
Proof.
  intro H. rewrite perform_calls, H.
  destruct failed; [apply app_nil_r|reflexivity].
Qed.

(** C10.  Every operation that takes a symbol sends it in upper case: the
    one request the operation makes (a placement makes it when its checks
    pass, and none otherwise) carries [symbol.upper()] as its symbol.  So
    the run on a symbol and the run on its upper-case form make the same
    request, return the same result and leave the exchange in the same
    state. *)
Theorem symbol_case_is_immaterial (symbol : string) (s : session) :
  (calls (env (snd (get_current_price symbol s)))
   = (calls (env s) ++ [futures_symbol_ticker (Text.upper symbol)])%list
   /\ same_outside (get_current_price symbol s)
                   (get_current_price (Text.upper symbol) s))
  /\ (forall side q,
        calls (env (snd (place_market_order symbol side q s)))
        = (if bad_side side || Num.le0 q then calls (env s)
           else (calls (env s)
                 ++ [futures_create_order
                       [("symbol", VStr (Text.upper symbol));
                        ("side", VStr (Text.upper side));
                        ("type", VStr "MARKET");
                        ("quantity", VFloat q)]])%list)
        /\ same_outside (place_market_order symbol side q s)
                        (place_market_order (Text.upper symbol) side q s))
  /\ (forall side q p,
        calls (env (snd (place_limit_order symbol side q p s)))
        = (if bad_side side || Num.le0 q || Num.le0 p then calls (env s)
           else (calls (env s)
                 ++ [futures_create_order
                       [("symbol", VStr (Text.upper symbol));
                        ("side", VStr (Text.upper side));
                        ("type", VStr "LIMIT");
                        ("timeInForce", VStr "GTC");
                        ("quantity", VFloat q);
                        ("price", VFloat p)]])%list)
        /\ same_outside (place_limit_order symbol side q p s)
                        (place_limit_order (Text.upper symbol) side q p s))
  /\ (forall side q sp lp,
        calls (env (snd (place_stop_limit_order symbol side q sp lp s)))
        = (if bad_side side || Num.le0 q || (Num.le0 sp || Num.le0 lp)
           then calls (env s)
           else (calls (env s)
                 ++ [futures_create_order
                       [("symbol", VStr (Text.upper symbol));
                        ("side", VStr (Text.upper side));
                        ("type", VStr "STOP");
                        ("timeInForce", VStr "GTC");
                        ("quantity", VFloat q);
                        ("price", VFloat lp);
                        ("stopPrice", VFloat sp)]])%list)
        /\ same_outside (place_stop_limit_order symbol side q sp lp s)
                        (place_stop_limit_order (Text.upper symbol) side q sp lp s))
  /\ (forall id,
        calls (env (snd (get_order_status symbol id s)))
        = (calls (env s) ++ [futures_get_order (Text.upper symbol) id])%list
        /\ same_outside (get_order_status symbol id s)
                        (get_order_status (Text.upper symbol) id s))
  /\ (forall id,
        calls (env (snd (cancel_order symbol id s)))
        = (calls (env s) ++ [futures_cancel_order (Text.upper symbol) id])%list
        /\ same_outside (cancel_order symbol id s)
                        (cancel_order (Text.upper symbol) id s))
  /\ (calls (env (snd (get_open_orders (Some symbol) s)))
      = (calls (env s)
         ++ [futures_get_open_orders
               (if Text.truthy symbol then Some (Text.upper symbol)
                else None)])%list
      /\ same_outside (get_open_orders (Some symbol) s)
                      (get_open_orders (Some (Text.upper symbol)) s)).
Proof.
  destruct (symbol_upper_same symbol s)
    as (S1 & S2 & S3 & S4 & S5 & S6 & S7).
  repeat (intros; match goal with |- _ /\ _ => split end); intros; auto.
  - exact (perform_calls (op_current_price symbol) s).
  - exact (perform_calls_if (op_market_order symbol side q) s _ _ eq_refl).
  - exact (perform_calls_if (op_limit_order symbol side q p) s _ _ eq_refl).
  - exact (perform_calls_if (op_stop_limit_order symbol side q sp lp) s _ _
             eq_refl).
  - exact (perform_calls (op_order_status symbol id) s).
  - exact (perform_calls (op_cancel_order symbol id) s).
  - exact (perform_calls (op_open_orders (Some symbol)) s).
Qed.

(** The side that fails the check. *)
Lemma bad_side_true (side : string) :
  Text.upper side <> "BUY" -> Text.upper side <> "SELL" ->
  bad_side side = true.
Proof.
  intros Hbuy Hsell. destruct (bad_side side) eqn:H; [reflexivity|].
  apply bad_side_false in H. destruct H; contradiction.
Qed.

(** X3.  The side is upper-cased before it is checked and before it is sent.
    Checked: a side whose upper-case form is neither BUY nor SELL is refused
    with the [ValueError] of the side and nothing goes out.  Sent: with an
    upper-case form that is BUY or SELL and numbers that pass, the request
    carries [side.upper()] as its side.  So a placement with a side and the
    placement with its upper-case form return the same result, make the same
    requests and leave the exchange in the same state. *)
Theorem side_case_is_immaterial (symbol side : string) (s : session) :
  (Text.upper side <> "BUY" -> Text.upper side <> "SELL" ->
   forall q p sp lp,
     (fst (place_market_order symbol side q s)
      = Raise (ValueError "Side must be 'BUY' or 'SELL'")
      /\ calls (env (snd (place_market_order symbol side q s)))
         = calls (env s))
     /\ (fst (place_limit_order symbol side q p s)
         = Raise (ValueError "Side must be 'BUY' or 'SELL'")
         /\ calls (env (snd (place_limit_order symbol side q p s)))
            = calls (env s))
     /\ (fst (place_stop_limit_order symbol side q sp lp s)
         = Raise (ValueError "Side must be 'BUY' or 'SELL'")
         /\ calls (env (snd (place_stop_limit_order symbol side q sp lp s)))
            = calls (env s)))
  /\ (Text.upper side = "BUY" \/ Text.upper side = "SELL" ->
      forall q, Num.le0 q = false ->
        calls (env (snd (place_market_order symbol side q s)))
        = (calls (env s)
           ++ [futures_create_order
                 [("symbol", VStr (Text.upper symbol));
                  ("side", VStr (Text.upper side));
                  ("type", VStr "MARKET");
                  ("quantity", VFloat q)]])%list
        /\ (forall p, Num.le0 p = false ->
              calls (env (snd (place_limit_order symbol side q p s)))
              = (calls (env s)
                 ++ [futures_create_order
                       [("symbol", VStr (Text.upper symbol));
                        ("side", VStr (Text.upper side));
                        ("type", VStr "LIMIT");
                        ("timeInForce", VStr "GTC");
                        ("quantity", VFloat q);
                        ("price", VFloat p)]])%list)
        /\ (forall sp lp, Num.le0 sp = false -> Num.le0 lp = false ->
              calls (env (snd (place_stop_limit_order symbol side q sp lp s)))
              = (calls (env s)
                 ++ [futures_create_order
                       [("symbol", VStr (Text.upper symbol));
                        ("side", VStr (Text.upper side));
                        ("type", VStr "STOP");
                        ("timeInForce", VStr "GTC");
                        ("quantity", VFloat q);
                        ("price", VFloat lp);
                        ("stopPrice", VFloat sp)]])%list))
  /\ (forall q,
        same_outside (place_market_order symbol side q s)
                     (place_market_order symbol (Text.upper side) q s))
  /\ (forall q p,
        same_outside (place_limit_order symbol side q p s)
                     (place_limit_order symbol (Text.upper side) q p s))
  /\ (forall q sp lp,
        same_outside (place_stop_limit_order symbol side q sp lp s)
                     (place_stop_limit_order symbol (Text.upper side) q sp lp s)).
Proof.
  split; [|split; [|exact (side_upper_same symbol side s)]].
  - intros Hbuy Hsell q p sp lp.
    pose proof (bad_side_true side Hbuy Hsell) as Hbad.
    rewrite (market_bad_side symbol side q s Hbad),
      (limit_bad_side symbol side q p s Hbad),
      (stop_limit_bad_side symbol side q sp lp s Hbad).
    repeat split.
  - intros Hside q Hq. apply bad_side_false in Hside.
    split; [|split].
    + etransitivity;
        [exact (perform_calls_if (op_market_order symbol side q) s _ _ eq_refl)|].
      now rewrite Hside, Hq.
    + intros p Hp.
      etransitivity;
        [exact (perform_calls_if (op_limit_order symbol side q p) s _ _ eq_refl)|].
      now rewrite Hside, Hq, Hp.
    + intros sp lp Hsp Hlp.
      etransitivity;
        [exact (perform_calls_if (op_stop_limit_order symbol side q sp lp) s
                  _ _ eq_refl)|].
      now rewrite Hside, Hq, Hsp, Hlp.
Qed.

(** X4.  An operation makes one request at most, fixed by its arguments alone
    and whatever the exchange answers: nothing is asked twice.  The console
    is not touched. *)
Theorem one_request_at_most (o : operation) (s : session) :
  calls (env (perform o s))
  = (calls (env s) ++ match request_of o with
                      | Some req => [req]
                      | None => []
                      end)%list
  /\ tty (env (perform o s)) = tty (env s).
Proof.
  split; [apply perform_calls|].
  destruct o as [|symbol|symbol side q|symbol side q p|symbol side q sp lp
                |symbol id|symbol id|[symbol|]];
    simpl; run_wrapper;
    repeat match goal with
           | |- context [Text.truthy ?x] => destruct (Text.truthy x); simpl
           end;
    branches; reflexivity.
Qed.

(** X5.  When the exchange refuses the request of an operation, or the client
    fails on it, the operation raises that very exception, and the exchange
    is left as the failed request left it. *)
Theorem exchange_failure_propagates (o : operation) (req : request)
    (s : session) (r : reply) (x' : X) (e : exn) :
  request_of o = Some req ->
  serve (client (self s)) req (exch (env s)) = (r, x') ->
  outcome r = Raise e ->
  attempt o s = Some e /\ exch (env (perform o s)) = x'.
Proof.
  intros Hreq Hserve Hout.
  destruct o as [|symbol|symbol side q|symbol side q p|symbol side q sp lp
                |symbol id|symbol id|[symbol|]];
    simpl in Hreq;
    repeat match type of Hreq with
           | context [bad_side ?x] => destruct (bad_side x) eqn:?; simpl in Hreq
           | context [Num.le0 ?x] => destruct (Num.le0 x) eqn:?; simpl in Hreq
           | context [Text.truthy ?x] =>
               destruct (Text.truthy x) eqn:?; simpl in Hreq
           end;
    try discriminate; inversion Hreq; subst req; clear Hreq;
    unfold attempt, ending, perform; run_wrapper;
    unfold market_request, limit_request, stop_limit_request in Hserve;
    repeat (match goal with H : _ = _ |- _ => rewrite H end; simpl);
    rewrite ?Hserve, ?Hout; simpl; rewrite ?Hout;
    destruct e; simpl; split; reflexivity.
Qed.

(** X6.  The price read off the ticker: [get_current_price] returns
    [float(ticker['price'])], and raises what the lookup or the conversion
    raises (a [KeyError] for an answer without a price). *)
Theorem current_price_result (symbol : string) (s : session) (v : value)
    (x' : X) :
  serve (client (self s)) (futures_symbol_ticker (Text.upper symbol))
        (exch (env s))
  = (Answer v, x') ->
  fst (get_current_price symbol s)
  = and_then (Py.item v "price") (py_float rt).
Proof.
  intro Hserve. run_wrapper. rewrite Hserve. simpl.
  destruct (Py.item v "price") as [quoted|e]; simpl.
  - destruct (py_float rt quoted) as [x|e]; simpl; [reflexivity|].
    destruct e; reflexivity.
  - destruct e; reflexivity.
Qed.

(** X7.  [cancel_order] returns what the client returns and raises what the
    client raises, nothing else. *)
Theorem cancel_order_result (symbol : string) (order_id : Z) (s : session) :
  fst (cancel_order symbol order_id s)
  = outcome (fst (serve (client (self s))
                        (futures_cancel_order (Text.upper symbol) order_id)
                        (exch (env s)))).
Proof.
  run_wrapper.
  destruct (serve (client (self s)) _ (exch (env s))) as [[v|code msg|msg] x];
    reflexivity.
Qed.

(** X8.  An order the exchange accepted: the placement returns the answer as it
    is when the answer has an [orderId], and raises the error of the lookup
    when it has none; the order stands at the exchange either way. *)
Theorem accepted_order_result (symbol side : string) (q p sp lp : float)
    (s : session) (v : value) (x' : X) :
  bad_side side = false -> Num.le0 q = false ->
  (serve (client (self s)) (market_request symbol side q) (exch (env s))
   = (Answer v, x') ->
   fst (place_market_order symbol side q s)
   = and_then (Py.item v "orderId") (fun _ => Ok v)
   /\ exch (env (snd (place_market_order symbol side q s))) = x')
  /\ (Num.le0 p = false ->
      serve (client (self s)) (limit_request symbol side q p) (exch (env s))
      = (Answer v, x') ->
      fst (place_limit_order symbol side q p s)
      = and_then (Py.item v "orderId") (fun _ => Ok v)
      /\ exch (env (snd (place_limit_order symbol side q p s))) = x')
  /\ (Num.le0 sp = false -> Num.le0 lp = false ->
      serve (client (self s)) (stop_limit_request symbol side q sp lp)
            (exch (env s))
      = (Answer v, x') ->
      fst (place_stop_limit_order symbol side q sp lp s)
      = and_then (Py.item v "orderId") (fun _ => Ok v)
      /\ exch (env (snd (place_stop_limit_order symbol side q sp lp s))) = x').
Proof.
  intros Hside Hq.
  repeat match goal with |- _ /\ _ => split end; intros;
    run_wrapper;
    unfold market_request, limit_request, stop_limit_request in *;
    repeat (match goal with H : _ = _ |- _ => rewrite H end; simpl);
    (destruct (Py.item v "orderId") as [id|e]; [split; reflexivity|];
     destruct e; split; reflexivity).
Qed.

(** X9.  What [get_order_status] does with the answer: a [KeyError] for the
    first key it reads that the answer lacks; otherwise the ten fields, the
    nine values as they are in the answer and the time as text. *)
Theorem order_status_result (symbol : string) (order_id : Z) (s : session)
    (entries : list (string * value)) (x' : X) :
  serve (client (self s)) (futures_get_order (Text.upper symbol) order_id)
        (exch (env s))
  = (Answer (VDict entries), x') ->
  fst (get_order_status symbol order_id s)
  = match first_missing status_keys entries with
    | Some key => Raise (KeyError key)
    | None =>
        and_then (order_time rt (entry (VDict entries) "time")) (fun shown =>
        Ok {| st_orderId := entry (VDict entries) "orderId";
              st_symbol := entry (VDict entries) "symbol";
              st_status := entry (VDict entries) "status";
              st_type := entry (VDict entries) "type";
              st_side := entry (VDict entries) "side";
              st_origQty := entry (VDict entries) "origQty";
              st_executedQty := entry (VDict entries) "executedQty";
              st_price := entry (VDict entries) "price";
              st_avgPrice := entry (VDict entries) "avgPrice";
              st_time := shown |})
    end.
Proof.
  intro Hserve. run_wrapper. rewrite Hserve.
  unfold first_missing, status_keys, entry. simpl.
  destruct (Py.assoc "orderId" entries); simpl; [|reflexivity].
  destruct (Py.assoc "symbol" entries); simpl; [|reflexivity].
  destruct (Py.assoc "status" entries); simpl; [|reflexivity].
  destruct (Py.assoc "type" entries); simpl; [|reflexivity].
  destruct (Py.assoc "side" entries); simpl; [|reflexivity].
  destruct (Py.assoc "origQty" entries); simpl; [|reflexivity].
  destruct (Py.assoc "executedQty" entries); simpl; [|reflexivity].
  destruct (Py.assoc "price" entries); simpl; [|reflexivity].
  destruct (Py.assoc "avgPrice" entries); simpl; [|reflexivity].
  destruct (Py.assoc "time" entries) as [v_time|]; simpl; [|reflexivity].
  destruct (order_time rt v_time) as [shown|e]; simpl; [reflexivity|].
  destruct e; reflexivity.
Qed.

(* ------------------------------------------------------------------ *)
(** ** The account query, when the answer is not as expected *)

Lemma nonzero_positions_bad (good : list value) (bad : value)
    (rest : list value) (e : exn) :
  Forall is_position good -> amount bad = Raise e ->
  forall acc, nonzero_positions (good ++ bad :: rest) acc = Raise e.
Proof.
  intros Hgood Hbad.
  induction Hgood as [|position good' [[entries ->] [x Hx]] _ IH];
    intro acc; simpl.
  - unfold amount in Hbad.
    destruct (Py.get bad "positionAmt" (VInt 0)) as [amt|e0]; simpl in *.
    + now rewrite Hbad.
    + now inversion Hbad.
  - unfold amount in Hx. simpl in Hx. rewrite Hx. simpl.
    destruct (Num.ne0 x); apply IH.
Qed.

(** X10.  One position whose amount cannot be read (no number in it, or not a
    dictionary at all) makes the whole query fail with the error of that
    position, whatever the positions before and after it. *)
Theorem unreadable_position_fails_the_query (s : session)
    (entries : list (string * value)) (good : list value) (bad : value)
    (rest : list value) (e : exn) (x' : X) :
  serve (client (self s)) futures_account (exch (env s))
  = (Answer (VDict entries), x') ->
  Py.assoc "positions" entries = Some (VList (good ++ bad :: rest)) ->
  Forall is_position good ->
  amount bad = Raise e ->
  fst (get_account_info s) = Raise e.
Proof.
  intros Hserve Hlisted Hgood Hbad.
  run_wrapper. rewrite Hserve. simpl. rewrite Hlisted. simpl.
  rewrite (nonzero_positions_bad good bad rest e Hgood Hbad []). simpl.
  destruct e; reflexivity.
Qed.

(** X11.  An answer without positions gives a snapshot without positions, and an
    answer without a balance gives the balance ['0']; an answer that is not
    a dictionary fails with the [AttributeError] of its type, for a list
    ['list' object has no attribute 'get']. *)
Theorem account_answer_with_gaps (s : session) (v : value) (x' : X) :
  serve (client (self s)) futures_account (exch (env s)) = (Answer v, x') ->
  match v with
  | VDict entries =>
      Py.assoc "positions" entries = None ->
      fst (get_account_info s)
      = Ok {| total_wallet_balance := balance entries "totalWalletBalance";
              total_unrealized_pnl := balance entries "totalUnrealizedPnL";
              total_margin_balance := balance entries "totalMarginBalance";
              available_balance := balance entries "availableBalance";
              max_withdraw_amount := balance entries "maxWithdrawAmount";
              positions := [] |}
  | _ =>
      fst (get_account_info s)
      = Raise (AttributeError
                 ("'" ++ Py.type_name v ++ "' object has no attribute 'get'"))
  end.
Proof.
  intro Hserve.
  destruct v; try (run_wrapper; rewrite Hserve; reflexivity).
  intro Hnone. run_wrapper. rewrite Hserve. simpl. rewrite Hnone.
  reflexivity.
Qed.

(* ------------------------------------------------------------------ *)
(** ** The log *)

Lemma append_assoc (a b c : string) : ((a ++ b) ++ c = a ++ (b ++ c))%string.
Proof. induction a as [|ch a IH]; simpl; [reflexivity|now rewrite IH]. Qed.

Lemma info_ret A (a : A) : logs_info (ret a).
Proof. intro s. exists []. simpl. now rewrite app_nil_r. Qed.

Lemma info_lift A (r : result A) : logs_info (lift r).
Proof. intro s. exists []. simpl. now rewrite app_nil_r. Qed.

Lemma info_raise_if cond e : logs_info (raise_if cond e).
Proof. intro s. exists []. destruct cond; simpl; now rewrite app_nil_r. Qed.

Lemma info_call req : logs_info (call req).
Proof.
  intro s. exists []. unfold call. destruct (serve _ _ _). simpl.
  now rewrite app_nil_r.
Qed.

Lemma info_logger_info msg : logs_info (logger_info msg).
Proof. intro s. now exists [msg]. Qed.

Lemma info_bind A B (m : M session A) (k : A -> M session B) :
  logs_info m -> (forall a, logs_info (k a)) -> logs_info (bind m k).
Proof.
  intros Hm Hk s. unfold bind. destruct (Hm s) as [lines1 H1].
  destruct (m s) as [[a|e] s1]; simpl in *.
  - destruct (Hk a s1) as [lines2 H2]. exists (lines1 ++ lines2)%list.
    now rewrite H2, H1, map_app, app_assoc.
  - now exists lines1.
Qed.

Ltac infos :=
  repeat first
    [ apply info_bind; [|intro]
    | apply info_call
    | apply info_logger_info
    | apply info_lift
    | apply info_raise_if
    | apply info_ret
    | match goal with
      | |- logs_info (match ?x with _ => _ end) => destruct x
      | |- logs_info (if ?b then _ else _) => destruct b
      end ].

Ltac closing :=
  solve [simpl; rewrite ?append_assoc, <- ?app_assoc; reflexivity].

(** The log after a method: the lines of the body, then one [ERROR] line
    that ends with the text of the exception when the body raised. *)
Lemma logged_log A doing invalid (body : M session A) (s : session) :
  logs_info body -> raises_Exceptions body ->
  exists lines,
    match fst (logged doing invalid body s) with
    | Ok _ =>
        log (env (snd (logged doing invalid body s)))
        = (log (env s) ++ map (pair INFO) lines)%list
    | Raise e =>
        exists text,
          log (env (snd (logged doing invalid body s)))
          = (log (env s) ++ map (pair INFO) lines
             ++ [(ERROR, (text ++ str_exn e)%string)])%list
    end.
Proof.
  intros Hinfo Honly. destruct (Hinfo s) as [lines Hlines]. exists lines.
  unfold logged, try_except.
  destruct (body s) as [[a|e] s1] eqn:Hrun; simpl in *; [exact Hlines|].
  pose proof (Honly _ _ _ Hrun) as He.
  destruct e; try discriminate; destruct invalid; simpl; rewrite Hlines;
    first [ exists ("API error " ++ doing ++ ": ")%string; closing
          | exists ("Invalid input for " ++ s0 ++ ": ")%string; closing
          | exists ("Unexpected error " ++ doing ++ ": ")%string; closing ].
Qed.

(** X12.  Every failure of an operation leaves one [ERROR] line, the last line of
    the log, which ends with the text of the exception raised; the lines
    before it, and all the lines of an operation that succeeds, are [INFO]
    lines added to the log as it was. *)
Theorem failure_is_logged (o : operation) (s : session) :
  exists lines,
    match attempt o s with
    | None =>
        log (env (perform o s)) = (log (env s) ++ map (pair INFO) lines)%list
    | Some e =>
        exists text,
          log (env (perform o s))
          = (log (env s) ++ map (pair INFO) lines
             ++ [(ERROR, (text ++ str_exn e)%string)])%list
    end.
Proof.
  destruct o as [|symbol|symbol side q|symbol side q p|symbol side q sp lp
                |symbol id|symbol id|symbol];
    unfold attempt, ending, perform;
    match goal with
    | |- context [fst (?op s)] =>
        let body := eval unfold get_account_info, get_current_price,
                      place_market_order, place_limit_order,
                      place_stop_limit_order, get_order_status, cancel_order,
                      get_open_orders in op in
        change op with body
    end;
    match goal with
    | |- context [logged ?d ?i ?body s] =>
        destruct (logged_log _ d i body s) as [lines H];
          [ infos | classes | ];
        exists lines; destruct (fst (logged d i body s)); exact H
    end.
Qed.

(* ------------------------------------------------------------------ *)
(** ** Nothing is taken back *)

Lemma extends_refl A (l : list A) : extends l l.
Proof. exists []. now rewrite app_nil_r. Qed.

Lemma extends_trans A (a b c : list A) : extends a b -> extends b c -> extends a c.
Proof. intros [m1 ->] [m2 ->]. exists (m1 ++ m2)%list. now rewrite app_assoc. Qed.

Lemma extends_one A (l : list A) x : extends l (l ++ [x]).
Proof. now exists [x]. Qed.

Lemma remains_refl A (l : list A) : remains l l.
Proof. now exists []. Qed.

Lemma remains_trans A (a b c : list A) : remains a b -> remains b c -> remains a c.
Proof. intros [g1 ->] [g2 ->]. exists (g1 ++ g2)%list. now rewrite app_assoc. Qed.

Lemma remains_one A (l : list A) x : remains (x :: l) l.
Proof. now exists [x]. Qed.

Lemma console_later_refl c : console_later c c.
Proof. split; [apply remains_refl|apply extends_refl]. Qed.

Lemma console_later_trans a b c :
  console_later a b -> console_later b c -> console_later a c.
Proof.
  intros [H1 H2] [H3 H4]. split;
    [eapply remains_trans|eapply extends_trans]; eauto.
Qed.

Lemma world_later_refl w : world_later w w.
Proof.
  repeat split; try apply extends_refl; apply remains_refl.
Qed.

Lemma world_later_trans a b c :
  world_later a b -> world_later b c -> world_later a c.
Proof.
  intros (H1 & H2 & H3 & H3') (H4 & H5 & H6 & H6'). repeat split;
    first [eapply extends_trans; eassumption
          |eapply remains_trans; eassumption].
Qed.

Lemma session_later_refl s : session_later s s.
Proof. split; [reflexivity|apply world_later_refl]. Qed.

Lemma session_later_trans a b c :
  session_later a b -> session_later b c -> session_later a c.
Proof.
  intros [H1 H2] [H3 H4]. split; [congruence|].
  eapply world_later_trans; eauto.
Qed.

Lemma forward_ret S (later : S -> S -> Prop) A (a : A) :
  (forall s, later s s) -> forward later (ret a).
Proof. intros Hrefl s. apply Hrefl. Qed.

Lemma forward_raise S (later : S -> S -> Prop) A e :
  (forall s, later s s) -> forward later (@raise S A e).
Proof. intros Hrefl s. apply Hrefl. Qed.

Lemma forward_lift S (later : S -> S -> Prop) A (r : result A) :
  (forall s, later s s) -> forward later (lift r).
Proof. intros Hrefl s. apply Hrefl. Qed.

Lemma forward_raise_if S (later : S -> S -> Prop) cond e :
  (forall s, later s s) -> forward later (raise_if cond e).
Proof. intros Hrefl s. destruct cond; apply Hrefl. Qed.

Lemma forward_bind S (later : S -> S -> Prop) A B (m : M S A) (k : A -> M S B) :
  (forall a b c, later a b -> later b c -> later a c) ->
  forward later m -> (forall a, forward later (k a)) ->
  forward later (bind m k).
Proof.
  intros Htrans Hm Hk s. unfold bind. specialize (Hm s).
  destruct (m s) as [[a|e] s1]; simpl in *.
  - eapply Htrans; [exact Hm|apply Hk].
  - exact Hm.
Qed.

Lemma forward_try_except S (later : S -> S -> Prop) A (m : M S A) h :
  (forall a b c, later a b -> later b c -> later a c) ->
  forward later m -> (forall e, forward later (h e)) ->
  forward later (try_except m h).
Proof.
  intros Htrans Hm Hh s. unfold try_except. specialize (Hm s).
  destruct (m s) as [[a|e] s1]; simpl in *.
  - exact Hm.
  - eapply Htrans; [exact Hm|apply Hh].
Qed.

Lemma forward_print line : forward console_later (print line).
Proof. intro c. split; [apply remains_refl|apply extends_one]. Qed.

Lemma forward_input prompt : forward console_later (input prompt).
Proof.
  intro c. unfold input.
  destruct (stdin c) as [|[raw|] rest] eqn:Hin; simpl;
    (split; simpl; [|apply extends_one]);
    rewrite ?Hin; first [apply remains_refl|apply remains_one].
Qed.

Lemma forward_logger lvl msg : forward world_later (logger lvl msg).
Proof.
  intro w. repeat split; simpl;
    first [apply extends_one|apply extends_refl|apply remains_refl].
Qed.

Lemma forward_in_tty A (m : M console A) :
  forward console_later m -> forward world_later (in_tty m).
Proof.
  intros Hm w. unfold in_tty. specialize (Hm (tty w)).
  destruct (m (tty w)) as [r c]. simpl in *.
  split; [apply extends_refl|]. split; [apply extends_refl|exact Hm].
Qed.

Lemma forward_in_env A (m : M world A) :
  forward world_later m -> forward session_later (in_env m).
Proof.
  intros Hm s. unfold in_env. specialize (Hm (env s)).
  destruct (m (env s)) as [r w]. simpl in *. now split.
Qed.

Lemma forward_shell A (m : M console A) :
  forward console_later m -> forward session_later (shell m).
Proof. intro Hm. now apply forward_in_env, forward_in_tty. Qed.

Lemma forward_call req : forward session_later (call req).
Proof.
  intro s. unfold call. destruct (serve _ _ _) as [r x]. simpl.
  split; [reflexivity|]. split; simpl; [apply extends_one|].
  split; [apply extends_refl|apply console_later_refl].
Qed.

Ltac later_refl :=
  first [ exact console_later_refl | exact world_later_refl
        | exact session_later_refl ].

Ltac later_trans :=
  first [ exact console_later_trans | exact world_later_trans
        | exact session_later_trans ].

(** One step through a computation, by its shape. *)
Ltac onward_step :=
  match goal with
  | H : forward ?later ?m |- forward ?later ?m => exact H
  | |- forward _ (bind _ _) => apply forward_bind; [later_trans| |intro]
  | |- forward _ (try_except _ _) =>
      apply forward_try_except; [later_trans| |intro]
  | |- forward _ (call _) => apply forward_call
  | |- forward _ (print _) => apply forward_print
  | |- forward _ (input _) => apply forward_input
  | |- forward _ (logger _ _) => apply forward_logger
  | |- forward _ (shell _) => apply forward_shell
  | |- forward _ (in_env _) => apply forward_in_env
  | |- forward _ (in_tty _) => apply forward_in_tty
  | |- forward _ (ret _) => apply forward_ret; later_refl
  | |- forward _ (raise _) => apply forward_raise; later_refl
  | |- forward _ (lift _) => apply forward_lift; later_refl
  | |- forward _ (raise_if _ _) => apply forward_raise_if; later_refl
  | |- forward _ (logger_info _) => unfold logger_info
  | |- forward _ (logger_error _) => unfold logger_error
  | |- forward _ (logged _ _ _) => unfold logged
  | |- forward _ (guarded _ _) => unfold guarded
  | |- forward _ (match ?x with _ => _ end) => destruct x
  | |- forward _ (if ?b then _ else _) => destruct b
  end.

Ltac onward := repeat onward_step.

Lemma forward_prompt_loop turns prompt t vf :
  forward console_later (prompt_loop turns prompt t vf).
Proof.
  induction turns as [|k IH]; cbn [prompt_loop].
  - onward.
  - unfold prompt_once. onward.
Qed.

Lemma forward_get_user_input prompt t vf :
  forward console_later (get_user_input prompt t vf).
Proof. intro c. unfold get_user_input. apply forward_prompt_loop. Qed.

Lemma forward_format_positions ps :
  forward console_later (format_positions ps).
Proof.
  induction ps as [|pos rest IH]; cbn [format_positions]; [onward|].
  unfold format_position. onward.
Qed.

Lemma forward_format_open_orders orders :
  forward console_later (format_open_orders orders).
Proof.
  induction orders as [|order rest IH]; cbn [format_open_orders]; [onward|].
  unfold format_open_order. onward.
Qed.

Lemma forward_perform_like :
  forward session_later get_account_info
  /\ (forall symbol, forward session_later (get_current_price symbol))
  /\ (forall symbol side q,
        forward session_later (place_market_order symbol side q))
  /\ (forall symbol side q p,
        forward session_later (place_limit_order symbol side q p))
  /\ (forall symbol side q sp lp,
        forward session_later (place_stop_limit_order symbol side q sp lp))
  /\ (forall symbol id, forward session_later (get_order_status symbol id))
  /\ (forall symbol id, forward session_later (cancel_order symbol id))
  /\ (forall symbol, forward session_later (get_open_orders symbol)).
Proof.
  repeat match goal with |- _ /\ _ => split end; intros;
    unfold get_account_info, get_current_price, place_market_order,
      place_limit_order, place_stop_limit_order, get_order_status,
      cancel_order, get_open_orders;
    onward.
Qed.

(** The same through the shell, where the wrapper and the console
    functions are steps of their own. *)
Ltac shell_onward :=
  repeat first
    [ match goal with
      | |- forward _ (get_user_input _ _ _) => apply forward_get_user_input
      | |- forward _ (format_positions _) => apply forward_format_positions
      | |- forward _ (format_open_orders _) =>
          apply forward_format_open_orders
      | |- forward _ get_account_info => apply forward_perform_like
      | |- forward _ (get_current_price _) => apply forward_perform_like
      | |- forward _ (place_market_order _ _ _) => apply forward_perform_like
      | |- forward _ (place_limit_order _ _ _ _) => apply forward_perform_like
      | |- forward _ (place_stop_limit_order _ _ _ _ _) =>
          apply forward_perform_like
      | |- forward _ (get_order_status _ _) => apply forward_perform_like
      | |- forward _ (cancel_order _ _) => apply forward_perform_like
      | |- forward _ (get_open_orders _) => apply forward_perform_like
      | |- forward _ (required _ _ _ _) => unfold required
      | |- forward _ (placed _ _) => unfold placed
      | |- forward _ (format_account_info _) => unfold format_account_info
      | |- forward _ (format_order_info _) => unfold format_order_info
      | |- forward _ display_menu => unfold display_menu
      end
    | onward_step ].

Lemma forward_blocks :
  forward session_later do_account_info
  /\ (forall symbol, forward session_later (do_current_price symbol))
  /\ (forall symbol side q,
        forward session_later (do_market_order symbol side q))
  /\ (forall symbol side q p,
        forward session_later (do_limit_order symbol side q p))
  /\ (forall symbol side q sp lp,
        forward session_later (do_stop_limit_order symbol side q sp lp))
  /\ (forall symbol id, forward session_later (do_order_status symbol id))
  /\ (forall symbol id, forward session_later (do_cancel_order symbol id))
  /\ (forall symbol, forward session_later (do_open_orders symbol)).
Proof.
  repeat match goal with |- _ /\ _ => split end; intros;
    unfold do_account_info, do_current_price, do_market_order,
      do_limit_order, do_stop_limit_order, do_order_status,
      do_cancel_order, do_open_orders;
    shell_onward.
Qed.

Lemma forward_dispatch choice : forward session_later (dispatch choice).
Proof.
  destruct forward_blocks as (B1 & B2 & B3 & B4 & B5 & B6 & B7 & B8).
  unfold dispatch.
  repeat first
    [ match goal with
      | |- forward _ do_account_info => exact B1
      | |- forward _ (do_current_price _) => apply B2
      | |- forward _ (do_market_order _ _ _) => apply B3
      | |- forward _ (do_limit_order _ _ _ _) => apply B4
      | |- forward _ (do_stop_limit_order _ _ _ _ _) => apply B5
      | |- forward _ (do_order_status _ _) => apply B6
      | |- forward _ (do_cancel_order _ _) => apply B7
      | |- forward _ (do_open_orders _) => apply B8
      end
    | progress shell_onward ].
Qed.

Lemma forward_menu_body : forward session_later menu_body.
Proof.
  unfold menu_body, choice_prompt.
  apply forward_bind; [later_trans|shell_onward|apply forward_dispatch].
Qed.

Lemma forward_menu_iteration s : session_later s (snd (menu_iteration s)).
Proof.
  unfold menu_iteration. pose proof (forward_menu_body s) as H.
  destruct (menu_body s) as [[c|e] s1]; simpl in *; [exact H|].
  destruct (is_Exception e); simpl;
    (eapply session_later_trans; [exact H|]).
  - assert (Hf : forward session_later
                   (shell (print ("Unexpected error: " ++ str_exn e));;
                    logger_error ("Unexpected error in main loop: "
                                  ++ str_exn e)))
      by onward.
    apply Hf.
  - assert (Hf : forward session_later
                   (shell (print (Text.nl ++ Text.nl
                                  ++ "Exiting application..."))))
      by onward.
    apply Hf.
Qed.

Lemma forward_main_loop turns :
  forall s, session_later s (main_loop turns s).
Proof.
  induction turns as [|k IH]; intro s; simpl.
  - apply session_later_refl.
  - pose proof (forward_menu_iteration s) as H.
    destruct (menu_iteration s) as [[|] s1]; simpl in *.
    + eapply session_later_trans; [exact H|apply IH].
    + exact H.
Qed.

(** X13.  Through the whole menu loop, whatever is typed and whatever the exchange
    answers, nothing is taken back: the bot object stays as it is, the
    requests made and the log only get longer, what was printed stays
    printed, and the input is read from the front. *)
Theorem menu_loop_only_moves_forward (turns : nat) (s : session) :
  self (main_loop turns s) = self s
  /\ extends (calls (env s)) (calls (env (main_loop turns s)))
  /\ extends (log (env s)) (log (env (main_loop turns s)))
  /\ extends (stdout (tty (env s))) (stdout (tty (env (main_loop turns s))))
  /\ remains (stdin (tty (env s))) (stdin (tty (env (main_loop turns s)))).
Proof.
  destruct (forward_main_loop turns s) as (H1 & H2 & H3 & H4 & H5).
  auto.
Qed.

(* ------------------------------------------------------------------ *)
(** ** The blocks of the menu and the exchange *)

Lemma offline_ret A (a : A) : offline (ret a).
Proof. intro s. auto. Qed.

Lemma offline_raise A e : offline (@raise session A e).
Proof. intro s. auto. Qed.

Lemma offline_lift A (r : result A) : offline (lift r).
Proof. intro s. auto. Qed.

Lemma offline_shell A (m : M console A) : offline (shell m).
Proof.
  intro s. unfold shell, in_env, in_tty. destruct (m (tty (env s))). auto.
Qed.

Lemma offline_bind A B (m : M session A) (k : A -> M session B) :
  offline m -> (forall a, offline (k a)) -> offline (bind m k).
Proof.
  intros Hm Hk s. unfold bind. specialize (Hm s).
  destruct (m s) as [[a|e] s1]; simpl in *; [|exact Hm].
  destruct (Hk a s1) as (H1 & H2 & H3). destruct Hm as (H4 & H5 & H6).
  repeat split; congruence.
Qed.

Ltac aside :=
  repeat match goal with
         | |- offline (bind _ _) => apply offline_bind; [|intro]
         | |- offline (shell _) => apply offline_shell
         | |- offline (lift _) => apply offline_lift
         | |- offline (ret _) => apply offline_ret
         | |- offline (raise _) => apply offline_raise
         | |- offline (placed _ _) => unfold placed
         | |- offline (if ?b then _ else _) => destruct b
         | |- offline (match ?x with _ => _ end) => destruct x
         end.

(** A block leaves of the operation what the operation left: the display
    and the handler only print. *)
Lemma block_outside A (op : M session A) (display : A -> M session unit)
    label s :
  (forall a, offline (display a)) ->
  let after := snd (guarded label (bind op display) s) in
  calls (env after) = calls (env (snd (op s)))
  /\ exch (env after) = exch (env (snd (op s)))
  /\ log (env after) = log (env (snd (op s))).
Proof.
  intro Hdisplay. unfold guarded, try_except, bind.
  destruct (op s) as [[a|e] s1]; simpl.
  - specialize (Hdisplay a s1).
    destruct (display a s1) as [[[]|e] s2]; simpl in *; [exact Hdisplay|].
    destruct (is_Exception e); simpl; exact Hdisplay.
  - destruct (is_Exception e); simpl; auto.
Qed.

(** X14.  A block of the menu does on the exchange side what its operation does,
    no more: the same requests, the same exchange state, the same log.
    Showing the result, or the error, only prints. *)
Theorem blocks_add_nothing (o : operation) (s : session) :
  let after :=
    match o with
    | op_account_info => snd (do_account_info s)
    | op_current_price symbol => snd (do_current_price symbol s)
    | op_market_order symbol side q => snd (do_market_order symbol side q s)
    | op_limit_order symbol side q p =>
        snd (do_limit_order symbol side q p s)
    | op_stop_limit_order symbol side q sp lp =>
        snd (do_stop_limit_order symbol side q sp lp s)
    | op_order_status symbol id => snd (do_order_status symbol id s)
    | op_cancel_order symbol id => snd (do_cancel_order symbol id s)
    | op_open_orders symbol => snd (do_open_orders symbol s)
    end in
  calls (env after) = calls (env (perform o s))
  /\ exch (env after) = exch (env (perform o s))
  /\ log (env after) = log (env (perform o s)).
Proof.
  destruct o; cbv zeta; cbn [perform];
    unfold do_account_info, do_current_price, do_market_order,
      do_limit_order, do_stop_limit_order, do_order_status,
      do_cancel_order, do_open_orders;
    apply block_outside; intro; aside.
Qed.

(* ------------------------------------------------------------------ *)
(** ** Going through the menu *)

Lemma get_user_input_interrupted prompt t vf rest out :
  get_user_input prompt t vf {| stdin := CtrlC :: rest; stdout := out |}
  = (Ok None,
     {| stdin := rest;
        stdout := ((out ++ [prompt])
                   ++ [(Text.nl ++ "Operation cancelled by user.")%string])%list |}).
Proof.
  unfold get_user_input. cbn [stdin List.length prompt_loop].
  unfold bind. now rewrite prompt_once_interrupt.
Qed.

Lemma get_user_input_ended prompt t vf out :
  get_user_input prompt t vf {| stdin := []; stdout := out |}
  = (Raise EOFError, {| stdin := []; stdout := (out ++ [prompt])%list |}).
Proof.
  unfold get_user_input. cbn [stdin List.length prompt_loop].
  unfold bind. now rewrite prompt_once_end.
Qed.

Lemma shell_get_user_input_interrupted prompt t vf s rest :
  stdin (tty (env s)) = CtrlC :: rest ->
  exists out,
    shell (get_user_input prompt t vf) s
    = (Ok None, with_console s {| stdin := rest; stdout := out |}).
Proof.
  destruct s as [b [x cs lg [events out]]]. cbn [env tty stdin].
  intros ->. unfold shell, in_env, in_tty. cbn [env tty].
  rewrite get_user_input_interrupted. eexists. reflexivity.
Qed.

Lemma shell_get_user_input_ended prompt t vf s :
  stdin (tty (env s)) = [] ->
  exists out,
    shell (get_user_input prompt t vf) s
    = (Raise EOFError, with_console s {| stdin := []; stdout := out |}).
Proof.
  destruct s as [b [x cs lg [events out]]]. cbn [env tty stdin].
  intros ->. unfold shell, in_env, in_tty. cbn [env tty].
  rewrite get_user_input_ended. eexists. reflexivity.
Qed.

(** What the console of a session holds, once the console was replaced. *)
Lemma stdin_with_console s c : stdin (tty (env (with_console s c))) = stdin c.
Proof. reflexivity. Qed.

(** The menu prompt, by what comes first in the input. *)
Lemma choice_prompt_reads s raw rest n :
  stdin (tty (env s)) = Typed raw :: rest ->
  convert T_int (Text.strip raw) = Ok n ->
  exists out,
    choice_prompt s
    = (Ok (Some n), with_console s {| stdin := rest; stdout := out |}).
Proof.
  intros Hin Hn. destruct (shell_display_menu s) as [out0 Hmenu].
  unfold choice_prompt. rewrite (bind_ok _ _ _ _ _ Hmenu).
  erewrite shell_get_user_input_accepts;
    [|rewrite stdin_with_console; exact Hin|exact Hn|reflexivity].
  rewrite with_console_twice. eexists. reflexivity.
Qed.

Lemma choice_prompt_interrupted s rest :
  stdin (tty (env s)) = CtrlC :: rest ->
  exists out,
    choice_prompt s
    = (Ok None, with_console s {| stdin := rest; stdout := out |}).
Proof.
  intro Hin. destruct (shell_display_menu s) as [out0 Hmenu].
  unfold choice_prompt. rewrite (bind_ok _ _ _ _ _ Hmenu).
  destruct (shell_get_user_input_interrupted
              "Enter your choice (1-9): " T_int None
              (with_console s {| stdin := stdin (tty (env s)); stdout := out0 |})
              rest Hin) as [out Hrun].
  rewrite Hrun, with_console_twice. eexists. reflexivity.
Qed.

Lemma choice_prompt_ended s :
  stdin (tty (env s)) = [] ->
  exists out,
    choice_prompt s
    = (Raise EOFError, with_console s {| stdin := []; stdout := out |}).
Proof.
  intro Hin. destruct (shell_display_menu s) as [out0 Hmenu].
  unfold choice_prompt. rewrite (bind_ok _ _ _ _ _ Hmenu).
  destruct (shell_get_user_input_ended
              "Enter your choice (1-9): " T_int None
              (with_console s {| stdin := stdin (tty (env s)); stdout := out0 |})
              Hin) as [out Hrun].
  rewrite Hrun, with_console_twice. eexists. reflexivity.
Qed.

(** An iteration whose choice was read, by what the chain does with it. *)
Lemma menu_iteration_dispatches s choice s1 c s2 :
  choice_prompt s = (Ok choice, s1) ->
  dispatch choice s1 = (Ok c, s2) ->
  menu_iteration s = (c, s2).
Proof.
  intros Hprompt Hd. unfold menu_iteration, menu_body.
  now rewrite (bind_ok _ _ _ _ _ Hprompt), Hd.
Qed.

(** A value asked for and not given: an interrupt, or a false value. *)
Lemma required_missing prompt t vf rest_of_branch s rest :
  stdin (tty (env s)) = CtrlC :: rest
  \/ (exists raw v, stdin (tty (env s)) = Typed raw :: rest
                    /\ convert t (Text.strip raw) = Ok v
                    /\ rejected vf v = false
                    /\ truth t v = false) ->
  exists out,
    required prompt t vf rest_of_branch s
    = (Ok Continue, with_console s {| stdin := rest; stdout := out |}).
Proof.
  intros [Hin | (raw & v & Hin & Hv & Hok & Hfalse)].
  - destruct (shell_get_user_input_interrupted prompt t vf s rest Hin)
      as [out Hrun].
    unfold required. rewrite (bind_ok _ _ _ _ _ Hrun). eexists. reflexivity.
  - rewrite (required_reads _ _ _ _ _ _ _ _ Hin Hv Hok).
    cbv zeta. rewrite Hfalse. eexists. reflexivity.
Qed.

Lemma shell_print_console line s :
  shell (print line) s
  = (Ok tt, with_console s {| stdin := stdin (tty (env s));
                              stdout := (stdout (tty (env s)) ++ [line])%list |}).
Proof. reflexivity. Qed.

(** X15.  At the entries 2 to 7, a symbol that is not given (the prompt is
    interrupted, or the line is empty once stripped) ends the iteration:
    back to the menu, and the bot, the exchange, the requests made and the
    log are as before. *)
Theorem missing_symbol_returns_to_menu (s : session) (choice : string)
    (n : Z) (ev : event) (rest : list event) :
  stdin (tty (env s)) = Typed choice :: ev :: rest ->
  convert T_int (Text.strip choice) = Ok n ->
  2 <= n <= 7 ->
  ev = CtrlC \/ (exists raw, ev = Typed raw /\ Text.strip raw = "") ->
  exists out,
    menu_iteration s
    = (Continue, with_console s {| stdin := rest; stdout := out |}).
Proof.
  intros Hin Hn Hrange Hev.
  destruct (choice_prompt_reads s choice (ev :: rest) n Hin Hn) as [out0 Hprompt].
  set (s1 := with_console s {| stdin := ev :: rest; stdout := out0 |}) in *.
  assert (Hmissing :
            forall s2 : session, stdin (tty (env s2)) = ev :: rest ->
            stdin (tty (env s2)) = CtrlC :: rest
            \/ (exists raw v, stdin (tty (env s2)) = Typed raw :: rest
                              /\ convert T_str (Text.strip raw) = Ok v
                              /\ rejected (@None (py T_str -> bool)) v = false
                              /\ truth T_str v = false)).
  { intros s2 H2. destruct Hev as [->|[raw [-> Hraw]]]; [now left|right].
    exists raw, (Text.strip raw). repeat split; trivial.
    simpl. now rewrite Hraw. }
  assert (Hd : exists out, dispatch (Some n) s1
                           = (Ok Continue,
                              with_console s {| stdin := rest; stdout := out |})).
  { assert (Hcases : n = 2 \/ n = 3 \/ n = 4 \/ n = 5 \/ n = 6 \/ n = 7) by lia.
    destruct Hcases as [->|[->|[->|[->|[->| ->]]]]]; cbn [dispatch];
      rewrite ?(bind_ok _ _ _ _ _ (shell_print_console _ s1)).
    - destruct (Hmissing s1 eq_refl) as [H|(raw & v & H & Hv & _ & Ht)].
      + destruct (shell_get_user_input_interrupted
                    "Enter symbol (e.g., BTCUSDT): " T_str None s1 rest H)
          as [out Hrun].
        rewrite (bind_ok _ _ _ _ _ Hrun). eexists. reflexivity.
      + erewrite bind_ok;
          [|eapply shell_get_user_input_accepts;
            [exact H|exact Hv|reflexivity]].
        simpl in Ht. cbv beta iota. rewrite Ht. eexists. reflexivity.
    - match goal with
      | |- context [required ?p ?t ?vf ?k ?st] =>
          destruct (required_missing p t vf k st rest (Hmissing st eq_refl))
            as [out Hrun]
      end.
      rewrite Hrun. eexists. reflexivity.
    - match goal with
      | |- context [required ?p ?t ?vf ?k ?st] =>
          destruct (required_missing p t vf k st rest (Hmissing st eq_refl))
            as [out Hrun]
      end.
      rewrite Hrun. eexists. reflexivity.
    - match goal with
      | |- context [required ?p ?t ?vf ?k ?st] =>
          destruct (required_missing p t vf k st rest (Hmissing st eq_refl))
            as [out Hrun]
      end.
      rewrite Hrun. eexists. reflexivity.
    - match goal with
      | |- context [required ?p ?t ?vf ?k ?st] =>
          destruct (required_missing p t vf k st rest (Hmissing st eq_refl))
            as [out Hrun]
      end.
      rewrite Hrun. eexists. reflexivity.
    - match goal with
      | |- context [required ?p ?t ?vf ?k ?st] =>
          destruct (required_missing p t vf k st rest (Hmissing st eq_refl))
            as [out Hrun]
      end.
      rewrite Hrun. eexists. reflexivity. }
  destruct Hd as [out Hd]. exists out.
  exact (menu_iteration_dispatches _ _ _ _ _ Hprompt Hd).
Qed.

Lemma dispatch_invalid (n : Z) (s : session) :
  n < 1 \/ 9 < n ->
  dispatch (Some n) s
  = (shell (print "Invalid choice. Please select a number between 1 and 9.");;
     ret Continue) s.
Proof.
  intro H. destruct n as [|p|p]; try reflexivity.
  repeat (destruct p as [p|p|]; try reflexivity; try lia).
Qed.

(** X16.  A number that is not one of 1 to 9 is answered with the invalid-choice
    line and the menu again; nothing else happens. *)
Theorem invalid_choice_returns_to_menu (s : session) (choice : string)
    (n : Z) (rest : list event) :
  stdin (tty (env s)) = Typed choice :: rest ->
  convert T_int (Text.strip choice) = Ok n ->
  n < 1 \/ 9 < n ->
  exists out,
    menu_iteration s
    = (Continue,
       with_console s
         {| stdin := rest;
            stdout := (out ++ ["Invalid choice. Please select a number between 1 and 9."])%list |}).
Proof.
  intros Hin Hn Hrange.
  destruct (choice_prompt_reads s choice rest n Hin Hn) as [out Hprompt].
  exists out. eapply menu_iteration_dispatches; [exact Hprompt|].
  rewrite (dispatch_invalid n _ Hrange). reflexivity.
Qed.

(** X17.  The choice 9 and an interrupt at the menu prompt end the loop at once,
    however many iterations were still to come: what is left of the input
    stays unread, and the bot, the exchange, the requests made and the log
    are as before. *)
Theorem leaving_the_loop (s : session) (rest : list event) :
  stdin (tty (env s)) = CtrlC :: rest
  \/ (exists raw, stdin (tty (env s)) = Typed raw :: rest
                  /\ convert T_int (Text.strip raw) = Ok 9) ->
  exists out,
    forall turns,
      main_loop (S turns) s
      = with_console s {| stdin := rest; stdout := out |}.
Proof.
  intros [Hin | (raw & Hin & Hraw)].
  - destruct (choice_prompt_interrupted s rest Hin) as [out Hprompt].
    exists out. intro turns. cbn [main_loop].
    erewrite menu_iteration_dispatches; [|exact Hprompt|reflexivity].
    reflexivity.
  - destruct (choice_prompt_reads s raw rest 9 Hin Hraw) as [out Hprompt].
    eexists. intro turns. cbn [main_loop].
    erewrite menu_iteration_dispatches; [|exact Hprompt|reflexivity].
    reflexivity.
Qed.

Lemma menu_iteration_at_end s :
  stdin (tty (env s)) = [] ->
  exists out,
    menu_iteration s
    = (Continue,
       {| self := self s;
          env := {| exch := exch (env s); calls := calls (env s);
                    log := (log (env s)
                            ++ [(ERROR, "Unexpected error in main loop: EOF when reading a line")])%list;
                    tty := {| stdin := []; stdout := out |} |} |}).
Proof.
  intro Hin. destruct (choice_prompt_ended s Hin) as [out Hprompt].
  unfold menu_iteration, menu_body.
  rewrite (bind_raise _ _ _ _ _ Hprompt). eexists. reflexivity.
Qed.

(** X18.  Once the input has ended the loop does not stop: each iteration meets
    the end of input at the menu prompt, logs the same error and goes round
    again, without a request to the exchange. *)
Theorem end_of_input_loops (turns : nat) (s : session) :
  stdin (tty (env s)) = [] ->
  stdin (tty (env (main_loop turns s))) = []
  /\ log (env (main_loop turns s))
     = (log (env s)
        ++ repeat (ERROR, "Unexpected error in main loop: EOF when reading a line")
             turns)%list
  /\ calls (env (main_loop turns s)) = calls (env s)
  /\ exch (env (main_loop turns s)) = exch (env s)
  /\ self (main_loop turns s) = self s.
Proof.
  revert s. induction turns as [|k IH]; intros s Hin.
  - simpl. rewrite app_nil_r. auto.
  - destruct (menu_iteration_at_end s Hin) as [out Hrun].
    cbn [main_loop]. rewrite Hrun.
    match goal with
    | |- context [main_loop k ?s1] =>
        destruct (IH s1 eq_refl) as (H1 & H2 & H3 & H4 & H5)
    end.
    rewrite H1, H2, H3, H4, H5. cbn [env log calls exch self repeat].
    rewrite <- app_assoc. auto.
Qed.

Lemma blocks_never_raise :
  never_raises do_account_info
  /\ (forall symbol, never_raises (do_current_price symbol))
  /\ (forall symbol side q, never_raises (do_market_order symbol side q))
  /\ (forall symbol side q p, never_raises (do_limit_order symbol side q p))
  /\ (forall symbol side q sp lp,
        never_raises (do_stop_limit_order symbol side q sp lp))
  /\ (forall symbol id, never_raises (do_order_status symbol id))
  /\ (forall symbol id, never_raises (do_cancel_order symbol id))
  /\ (forall symbol, never_raises (do_open_orders symbol)).
Proof.
  destruct only_wrapper as (W1 & W2 & W3 & W4 & W5 & W6 & W7 & W8).
  pose proof only_format_positions. pose proof only_format_open_orders.
  repeat match goal with |- _ /\ _ => split end; intros;
    unfold do_account_info, do_current_price, do_market_order,
      do_limit_order, do_stop_limit_order, do_order_status,
      do_cancel_order, do_open_orders;
    apply guarded_never_raises;
    unfold placed, format_account_info, format_order_info;
    shell_classes.
Qed.

(** A block followed by [continue]. *)
Lemma block_then_continue (block : M session unit) s :
  never_raises block ->
  (block;; ret Continue) s = (Ok Continue, snd (block s)).
Proof.
  intro H. destruct (H s) as [[] [s' Hrun]].
  rewrite (bind_ok _ _ _ _ _ Hrun), Hrun. reflexivity.
Qed.

(** X19.  At entry 8, leaving the symbol out is not a way back to the menu:
    after an interrupt at the symbol prompt, as after an empty line, the
    open orders of all symbols are asked for. *)
Theorem open_orders_without_symbol (s : session) (choice : string)
    (ev : event) (rest : list event) :
  stdin (tty (env s)) = Typed choice :: ev :: rest ->
  convert T_int (Text.strip choice) = Ok 8 ->
  ev = CtrlC \/ (exists raw, ev = Typed raw /\ Text.strip raw = "") ->
  fst (menu_iteration s) = Continue
  /\ calls (env (snd (menu_iteration s)))
     = (calls (env s) ++ [futures_get_open_orders None])%list.
Proof.
  intros Hin Hn Hev.
  destruct (choice_prompt_reads s choice (ev :: rest) 8 Hin Hn) as [out0 Hprompt].
  set (s1 := with_console s {| stdin := ev :: rest; stdout := out0 |}) in *.
  destruct blocks_never_raise as (_ & _ & _ & _ & _ & _ & _ & Hopen).
  assert (Hd : exists out,
             dispatch (Some 8) s1
             = (Ok Continue,
                snd (do_open_orders None
                       (with_console s {| stdin := rest; stdout := out |})))).
  { cbn [dispatch]. destruct Hev as [->|[raw [-> Hraw]]].
    - destruct (shell_get_user_input_interrupted
                  "Enter symbol (optional, press Enter for all): " T_str None
                  s1 rest eq_refl) as [out Hrun].
      rewrite (bind_ok _ _ _ _ _ Hrun). exists out.
      apply block_then_continue, Hopen.
    - erewrite bind_ok;
        [|eapply shell_get_user_input_accepts; reflexivity].
      cbn [convert]. rewrite Hraw. cbn [Text.truthy]. eexists.
      apply block_then_continue, Hopen. }
  destruct Hd as [out Hd].
  rewrite (menu_iteration_dispatches _ _ _ _ _ Hprompt Hd).
  split; [reflexivity|]. cbn [snd].
  unfold do_open_orders.
  match goal with
  | |- context [guarded ?l (bind ?op ?d) ?st] =>
      destruct (block_outside _ op d l st) as [Hcalls _]; [intro; aside|]
  end.
  rewrite Hcalls.
  exact (perform_calls (op_open_orders None) _).
Qed.

Lemma good_side_truthy (side : string) :
  bad_side side = false -> Text.truthy side = true.
Proof. destruct side; [discriminate|reflexivity]. Qed.

Lemma positive_reads (raw : string) (q : float) :
  float_of_text rt (Text.strip raw) = Some q -> Num.gt0 q = true ->
  convert T_float (Text.strip raw) = Ok q
  /\ rejected is_positive q = false
  /\ Num.truthy q = true.
Proof.
  intros Hq Hpos. repeat split.
  - simpl. now rewrite Hq.
  - simpl. now rewrite Hpos.
  - now apply gt0_truthy.
Qed.

(** One value read by [required], with the three facts it needs at hand. *)
Ltac reads Hconv Hok Htrue :=
  erewrite required_reads; [|reflexivity|exact Hconv|exact Hok];
  cbv zeta; cbn [truth]; rewrite Htrue, ?with_console_twice.

(** The requests of a block are the requests of its operation. *)
Ltac block_calls :=
  match goal with
  | |- context [guarded ?l (bind ?op ?d) ?st] =>
      let H := fresh "Hcalls" in
      destruct (block_outside _ op d l st) as [H _]; [intro; aside|];
      rewrite H
  end.

(* ------------------------------------------------------------------ *)
(** ** An operation that fails *)







(** X20.  What the shell lets through, the wrapper accepts: at the entries 3, 4
    and 5, once a symbol is typed, a side is accepted by the prompt and the
    numbers typed are accepted as positive, the order goes to the exchange,
    with the values as typed and stripped.  The checks of the wrapper
    cannot fail on them. *)
Theorem prompted_order_reaches_the_exchange (s : session)
    (choice symbol side quantity : string) (q : float) :
  Text.strip symbol <> "" ->
  bad_side (Text.strip side) = false ->
  float_of_text rt (Text.strip quantity) = Some q -> Num.gt0 q = true ->
  (forall rest,
     convert T_int (Text.strip choice) = Ok 3 ->
     stdin (tty (env s))
     = Typed choice :: Typed symbol :: Typed side :: Typed quantity :: rest ->
     fst (menu_iteration s) = Continue
     /\ calls (env (snd (menu_iteration s)))
        = (calls (env s)
           ++ [market_request (Text.strip symbol) (Text.strip side) q])%list)
  /\ (forall price p rest,
        convert T_int (Text.strip choice) = Ok 4 ->
        float_of_text rt (Text.strip price) = Some p -> Num.gt0 p = true ->
        stdin (tty (env s))
        = Typed choice :: Typed symbol :: Typed side :: Typed quantity
          :: Typed price :: rest ->
        fst (menu_iteration s) = Continue
        /\ calls (env (snd (menu_iteration s)))
           = (calls (env s)
              ++ [limit_request (Text.strip symbol) (Text.strip side) q p])%list)
  /\ (forall stop sp limit lp rest,
        convert T_int (Text.strip choice) = Ok 5 ->
        float_of_text rt (Text.strip stop) = Some sp -> Num.gt0 sp = true ->
        float_of_text rt (Text.strip limit) = Some lp -> Num.gt0 lp = true ->
        stdin (tty (env s))
        = Typed choice :: Typed symbol :: Typed side :: Typed quantity
          :: Typed stop :: Typed limit :: rest ->
        fst (menu_iteration s) = Continue
        /\ calls (env (snd (menu_iteration s)))
           = (calls (env s)
              ++ [stop_limit_request (Text.strip symbol) (Text.strip side)
                    q sp lp])%list).
Proof.
  intros Hsymbol Hside Hq Hqpos.
  apply truthy_nonempty in Hsymbol.
  pose proof (good_side_truthy _ Hside) as Hside_true.
  destruct (positive_reads quantity q Hq Hqpos) as (Cq & Rq & Tq).
  destruct blocks_never_raise as (_ & _ & Bmarket & Blimit & Bstop & _).
  assert (Hle : forall x, Num.gt0 x = true -> Num.le0 x = false)
    by exact gt0_not_le0.
  split; [|split].
  - intros rest Hn Hin.
    destruct (choice_prompt_reads s choice _ 3 Hin Hn) as [out0 Hprompt].
    erewrite menu_iteration_dispatches; [|exact Hprompt|].
    2:{ cbn [dispatch].
        rewrite (bind_ok _ _ _ _ _ (shell_print_console _ _)).
        reads (eq_refl (Ok (Text.strip symbol))) (eq_refl false) Hsymbol.
        reads (eq_refl (Ok (Text.strip side))) Hside Hside_true.
        reads Cq Rq Tq.
        apply block_then_continue, Bmarket. }
    split; [reflexivity|]. cbn [snd]. unfold do_market_order. block_calls.
    match goal with
    | |- context [snd (place_market_order ?a ?b ?c ?st)] =>
        change (snd (place_market_order a b c st))
          with (perform (op_market_order a b c) st)
    end.
    rewrite perform_calls. cbn [request_of].
    now rewrite Hside, (Hle q Hqpos).
  - intros price p rest Hn Hp Hppos Hin.
    destruct (positive_reads price p Hp Hppos) as (Cp & Rp & Tp).
    destruct (choice_prompt_reads s choice _ 4 Hin Hn) as [out0 Hprompt].
    erewrite menu_iteration_dispatches; [|exact Hprompt|].
    2:{ cbn [dispatch].
        rewrite (bind_ok _ _ _ _ _ (shell_print_console _ _)).
        reads (eq_refl (Ok (Text.strip symbol))) (eq_refl false) Hsymbol.
        reads (eq_refl (Ok (Text.strip side))) Hside Hside_true.
        reads Cq Rq Tq. reads Cp Rp Tp.
        apply block_then_continue, Blimit. }
    split; [reflexivity|]. cbn [snd]. unfold do_limit_order. block_calls.
    match goal with
    | |- context [snd (place_limit_order ?a ?b ?c ?d ?st)] =>
        change (snd (place_limit_order a b c d st))
          with (perform (op_limit_order a b c d) st)
    end.
    rewrite perform_calls. cbn [request_of].
    now rewrite Hside, (Hle q Hqpos), (Hle p Hppos).
  - intros stop sp limit lp rest Hn Hsp Hsppos Hlp Hlppos Hin.
    destruct (positive_reads stop sp Hsp Hsppos) as (Cs & Rs & Ts).
    destruct (positive_reads limit lp Hlp Hlppos) as (Cl & Rl & Tl).
    destruct (choice_prompt_reads s choice _ 5 Hin Hn) as [out0 Hprompt].
    erewrite menu_iteration_dispatches; [|exact Hprompt|].
    2:{ cbn [dispatch].
        rewrite (bind_ok _ _ _ _ _ (shell_print_console _ _)).
        reads (eq_refl (Ok (Text.strip symbol))) (eq_refl false) Hsymbol.
        reads (eq_refl (Ok (Text.strip side))) Hside Hside_true.
        reads Cq Rq Tq. reads Cs Rs Ts. reads Cl Rl Tl.
        apply block_then_continue, Bstop. }
    split; [reflexivity|]. cbn [snd]. unfold do_stop_limit_order. block_calls.
    match goal with
    | |- context [snd (place_stop_limit_order ?a ?b ?c ?d ?e ?st)] =>
        change (snd (place_stop_limit_order a b c d e st))
          with (perform (op_stop_limit_order a b c d e) st)
    end.
    rewrite perform_calls. cbn [request_of].
    now rewrite Hside, (Hle q Hqpos), (Hle sp Hsppos), (Hle lp Hlppos).
Qed.

(* ------------------------------------------------------------------ *)
(** ** The program *)

(** X21.  With a key and a secret in the environment, [main] asks for nothing:
    it builds a bot on the testnet with them and runs the menu loop on it;
    when the client cannot be built it prints the failure and ends, the
    menu never shown and no input read. *)
Theorem main_connects_and_runs_the_menu (turns : nat) (key secret : string)
    (w : world) (r : reply) (x' : X) :
  key <> "" -> secret <> "" ->
  dial {| client_key := key; client_secret := secret;
          client_testnet := true; API_URL := None |} (exch w)
  = (r, x') ->
  main turns (Some key) (Some secret) w
  = match outcome r with
    | Ok _ =>
        (Ok tt,
         env (main_loop turns
                {| self := testnet_bot key secret;
                   env := {| exch := x'; calls := calls w;
                             log := (log w
                                     ++ [(INFO, "Connected to Binance Futures Testnet")])%list;
                             tty := {| stdin := stdin (tty w);
                                       stdout :=
                                         ((stdout (tty w) ++ welcome)
                                          ++ [(mark_done ++ " Successfully connected to Binance Futures Testnet!")%string])%list |} |} |}))
    | Raise e =>
        (Ok tt,
         {| exch := x'; calls := calls w;
            log := (log w
                    ++ [(ERROR, ("Failed to initialize Binance client: "
                                 ++ str_exn e)%string)])%list;
            tty := {| stdin := stdin (tty w);
                      stdout :=
                        ((stdout (tty w) ++ welcome)
                         ++ [((mark_failed ++ " Failed to connect to Binance: ")
                              ++ str_exn e)%string])%list |} |})
    end.
Proof.
  intros Hkey Hsecret Hdial.
  apply truthy_nonempty in Hkey, Hsecret.
  destruct w as [x cs lg [events out]]. cbn [exch calls log tty stdin stdout] in *.
  unfold main, absent, init, new_client. rewrite Hkey, Hsecret.
  unfold try_except, bind, in_tty, print, logger, ret, raise.
  cbn -[main_loop]. rewrite Hdial. unfold welcome, testnet_bot.
  destruct r as [v|code msg|msg]; cbn -[main_loop];
    rewrite <- ?app_assoc; reflexivity.
Qed.

Lemma main_halves turns env_key env_secret :
  main turns env_key env_secret
  = (in_tty (print "Welcome to Binance Futures Trading Bot!");;
     in_tty (print "This bot connects to Binance Futures Testnet for safe trading practice.");;
     credentials <- ask_credentials env_key env_secret;;
     connect_and_run turns credentials).
Proof. reflexivity. Qed.

Lemma in_tty_run A (m : M console A) (w : world) r c :
  m (tty w) = (r, c) -> in_tty m w = (r, with_tty w c).
Proof. intro H. unfold in_tty. now rewrite H. Qed.

Lemma with_tty_twice (w : world) c1 c2 :
  with_tty (with_tty w c1) c2 = with_tty w c2.
Proof. reflexivity. Qed.

(** A line printed, a line read and an interrupt, in a world. *)
Ltac prints :=
  erewrite bind_ok by (apply in_tty_run; reflexivity);
  rewrite ?with_tty_twice.

Lemma ask_credentials_not_given env_key env_secret (w : world) rest :
  absent env_key || absent env_secret = true ->
  (exists ev, stdin (tty w) = ev :: rest /\ not_given ev)
  \/ (exists key ev, stdin (tty w) = Typed key :: ev :: rest
                     /\ Text.strip key <> "" /\ not_given ev) ->
  exists out,
    ask_credentials env_key env_secret w
    = (Ok None, with_tty w {| stdin := rest; stdout := out |}).
Proof.
  intros Habsent Hin. unfold ask_credentials. rewrite Habsent.
  do 5 prints.
  destruct Hin as [(ev & Hin & Hev) | (key & ev & Hin & Hkey & Hev)].
  - destruct Hev as [->|(raw & -> & Hraw)].
    + erewrite bind_ok
        by (apply in_tty_run; cbn [tty with_tty stdin]; rewrite Hin;
            apply get_user_input_interrupted).
      rewrite with_tty_twice. eexists. reflexivity.
    + erewrite bind_ok
        by (apply in_tty_run; cbn [tty with_tty stdin]; rewrite Hin;
            apply get_user_input_accepts; reflexivity).
      cbn [absent]. rewrite Hraw, with_tty_twice. eexists. reflexivity.
  - apply truthy_nonempty in Hkey.
    erewrite bind_ok
      by (apply in_tty_run; cbn [tty with_tty stdin]; rewrite Hin;
          apply get_user_input_accepts; reflexivity).
    cbn [absent]. rewrite Hkey, with_tty_twice. cbn [negb].
    destruct Hev as [->|(raw & -> & Hraw)].
    + erewrite bind_ok
        by (apply in_tty_run; apply get_user_input_interrupted).
      rewrite with_tty_twice. eexists. reflexivity.
    + erewrite bind_ok
        by (apply in_tty_run; apply get_user_input_accepts; reflexivity).
      cbn [absent]. rewrite Hraw, with_tty_twice. eexists. reflexivity.
Qed.

(** X22.  Without a key or without a secret in the environment, [main] asks for
    both; when the key is not given, or the key is given and the secret is
    not, it ends there: no client is built, and the exchange, the requests
    and the log are untouched. *)
Theorem main_without_credentials (turns : nat) (env_key env_secret : option string)
    (w : world) (rest : list event) :
  absent env_key || absent env_secret = true ->
  (exists ev, stdin (tty w) = ev :: rest /\ not_given ev)
  \/ (exists key ev, stdin (tty w) = Typed key :: ev :: rest
                     /\ Text.strip key <> "" /\ not_given ev) ->
  exists out,
    main turns env_key env_secret w
    = (Ok tt, {| exch := exch w; calls := calls w; log := log w;
                 tty := {| stdin := rest; stdout := out |} |}).
Proof.
  intros Habsent Hin. rewrite main_halves. do 2 prints.
  destruct (ask_credentials_not_given env_key env_secret
              (with_tty w
                 {| stdin := stdin (tty w);
                    stdout := ((stdout (tty w)
                                ++ ["Welcome to Binance Futures Trading Bot!"])
                               ++ ["This bot connects to Binance Futures Testnet for safe trading practice."])%list |})
              rest Habsent Hin) as [out Hask].
  rewrite (bind_ok _ _ _ _ _ Hask). exists out. reflexivity.
Qed.

(** X23.  When the exchange has no open order to list, the block says so in one
    line and prints nothing else. *)
Theorem no_open_orders_to_list (symbol : option string) (req : request)
    (s : session) (x' : X) :
  request_of (op_open_orders symbol) = Some req ->
  serve (client (self s)) req (exch (env s)) = (Answer (VList []), x') ->
  fst (do_open_orders symbol s) = Ok tt
  /\ stdout (tty (env (snd (do_open_orders symbol s))))
     = (stdout (tty (env s)) ++ ["No open orders found."])%list.
Proof.
  intros Hreq Hserve. unfold do_open_orders, guarded. run_wrapper.
  destruct symbol as [symbol|]; cbn in Hreq;
    [destruct (Text.truthy symbol)|]; inversion Hreq; subst req;
    rewrite Hserve; split; reflexivity.
Qed.

End Bot.

(* ------------------------------------------------------------------ *)
(** ** The properties on the sample exchange *)

Local Open Scope float_scope.

(** C1, as stated, fails: a stop price that is not positive and a limit
    price that is not positive raise the same message, so no reading of the
    message tells which of the two fields failed. *)
Lemma stop_limit_message_is_shared :
  fst (place_stop_limit_order Sample.rt Sample.serve "BTCUSDT" "BUY"
         1 0 50000 Sample.start)
  = Raise (ValueError "Stop price and limit price must be positive")
  /\ fst (place_stop_limit_order Sample.rt Sample.serve "BTCUSDT" "BUY"
            1 49000 0 Sample.start)
     = Raise (ValueError "Stop price and limit price must be positive")
  /\ ~ (exists which : string -> field,
          forall sp lp msg,
            fst (place_stop_limit_order Sample.rt Sample.serve "BTCUSDT" "BUY"
                   1 sp lp Sample.start)
            = Raise (ValueError msg) ->
            (Num.le0 sp = true -> Num.le0 lp = false -> which msg = StopPrice)
            /\ (Num.le0 sp = false -> Num.le0 lp = true ->
                which msg = LimitPrice)).
Proof.
  split; [reflexivity|]. split; [reflexivity|].
  intros [which H].
  destruct (H 0 50000 _ eq_refl) as [Hstop _].
  destruct (H 49000 0 _ eq_refl) as [_ Hlimit].
  specialize (Hstop eq_refl eq_refl). specialize (Hlimit eq_refl eq_refl).
  congruence.
Qed.

(** On the sample exchange: a quantity of zero, a negative price and a limit
    price of zero, each with the side "buy". *)
Lemma nonpositive_argument_message_witness :
  bad_side "buy" = false
  /\ fst (place_market_order Sample.rt Sample.serve "btcusdt" "buy" 0
            Sample.start)
     = Raise (ValueError "Quantity must be positive")
  /\ fst (place_limit_order Sample.rt Sample.serve "btcusdt" "buy" 1 (-1)
            Sample.start)
     = Raise (ValueError "Price must be positive")
  /\ fst (place_stop_limit_order Sample.rt Sample.serve "btcusdt" "buy"
            1 49000 0 Sample.start)
     = Raise (ValueError "Stop price and limit price must be positive").
Proof.
  pose proof (nonpositive_argument_message Sample.rt Sample.serve
                "btcusdt" "buy" Sample.start eq_refl) as [Hq [Hp Hs]].
  split; [reflexivity|]. split; [|split].
  - exact (proj1 (Hq 0 eq_refl)).
  - exact (Hp 1 (-1) eq_refl eq_refl).
  - exact (Hs 1 49000 0 eq_refl (or_intror eq_refl)).
Defined.

(** On the sample exchange: the side "hold", a negative price, a quantity
    of zero. *)
Lemma validation_precedes_the_network_witness :
  refused_locally (place_market_order Sample.rt Sample.serve "BTCUSDT" "hold" 1)
                  Sample.start
  /\ refused_locally
       (place_limit_order Sample.rt Sample.serve "BTCUSDT" "buy" 1 (-1))
       Sample.start
  /\ refused_locally
       (place_stop_limit_order Sample.rt Sample.serve "BTCUSDT" "sell"
          0 49000 50000)
       Sample.start.
Proof.
  split; [|split].
  - apply (validation_precedes_the_network Sample.rt Sample.serve
             "BTCUSDT" "hold" 1 1 1 1 Sample.start).
    left. reflexivity.
  - apply (validation_precedes_the_network Sample.rt Sample.serve
             "BTCUSDT" "buy" 1 (-1) 1 1 Sample.start).
    right. right. reflexivity.
  - apply (validation_precedes_the_network Sample.rt Sample.serve
             "BTCUSDT" "sell" 0 1 49000 50000 Sample.start).
    right. left. reflexivity.
Defined.

(** On the sample exchange: the one request of a limit order for 0.5 at
    50000. *)
Lemma limit_order_request_witness :
  Text.upper "buy" = "BUY"
  /\ Num.gt0 0.5 = true /\ Num.gt0 50000 = true
  /\ calls (env (snd (place_limit_order Sample.rt Sample.serve
                        "btcusdt" "buy" 0.5 50000 Sample.start)))
     = [futures_create_order
          [("symbol", VStr "BTCUSDT"); ("side", VStr "BUY");
           ("type", VStr "LIMIT"); ("timeInForce", VStr "GTC");
           ("quantity", VFloat 0.5); ("price", VFloat 50000)]].
Proof.
  split; [reflexivity|]. split; [reflexivity|]. split; [reflexivity|].
  exact (limit_order_request Sample.rt Sample.serve "btcusdt" "buy" 0.5 50000
           Sample.start (or_introl eq_refl) eq_refl eq_refl).
Defined.

(** On the sample exchange: of the three positions of the response, the
    one with amount 0.000 is left out. *)
Lemma account_snapshot_witness :
  Forall (is_position Sample.rt)
         [Sample.position "BTCUSDT" "0.500";
          Sample.position "ETHUSDT" "0.000";
          Sample.position "SOLUSDT" "-2.000"]
  /\ exists data s',
       get_account_info Sample.rt Sample.serve Sample.start = (Ok data, s')
       /\ positions data
          = [snapshot (Sample.position "BTCUSDT" "0.500");
             snapshot (Sample.position "SOLUSDT" "-2.000")]
       /\ total_wallet_balance data = VStr "50000.00"
       /\ max_withdraw_amount data = VStr "0.500".
Proof.
  assert (Hitems : Forall (is_position Sample.rt)
                     [Sample.position "BTCUSDT" "0.500";
                      Sample.position "ETHUSDT" "0.000";
                      Sample.position "SOLUSDT" "-2.000"]).
  { repeat constructor; (eexists; reflexivity). }
  split; [exact Hitems|].
  destruct (account_snapshot Sample.rt Sample.serve Sample.start
              _ _ _ eq_refl eq_refl Hitems)
    as (data & s' & Hrun & Hpos & _ & Hwallet & _ & _ & _ & Hmax).
  exists data, s'. split; [exact Hrun|]. split; [|split].
  - rewrite Hpos. reflexivity.
  - rewrite Hwallet. reflexivity.
  - rewrite Hmax. reflexivity.
Defined.

(** On the sample exchange, where one order rests on each of two symbols. *)
Lemma open_orders_request_witness :
  fst (get_open_orders Sample.serve (Some "ethusdt") Sample.start)
  = Ok (VList [Sample.order (999%Z, "ETHUSDT")])
  /\ calls (env (snd (get_open_orders Sample.serve (Some "ethusdt")
                        Sample.start)))
     = [futures_get_open_orders (Some "ETHUSDT")]
  /\ fst (get_open_orders Sample.serve None Sample.start)
     = Ok (VList [Sample.order (1000%Z, "BTCUSDT");
                  Sample.order (999%Z, "ETHUSDT")])
  /\ calls (env (snd (get_open_orders Sample.serve (Some "") Sample.start)))
     = [futures_get_open_orders None].
Proof.
  destruct (open_orders_request Sample.serve Sample.start) as [Hsome Hnone].
  assert (Hne : "ethusdt"%string <> ""%string) by discriminate.
  destruct (Hsome "ethusdt"%string Hne) as [Hcalls Hlist].
  split; [exact (Hlist _ _ eq_refl)|]. split; [exact Hcalls|].
  split.
  - exact (proj2 (Hnone None (or_introl eq_refl)) _ _ eq_refl).
  - exact (proj1 (Hnone (Some ""%string) (or_intror eq_refl))).
Defined.

(** On the sample exchange: the bot after four operations, two of which
    fail. *)
Lemma credentials_stay_as_constructed_witness :
  (exists w', init Sample.dial "key" "secret" true (env Sample.start)
              = (Ok Sample.bot, w'))
  /\ api_key (self (perform_all Sample.rt Sample.serve
                      [op_market_order "btcusdt" "buy" 1;
                       op_cancel_order "btcusdt" 42;
                       op_limit_order "btcusdt" "hold" 1 1;
                       op_account_info]
                      Sample.start))
     = "key"%string
  /\ testnet (self (perform_all Sample.rt Sample.serve
                      [op_market_order "btcusdt" "buy" 1;
                       op_cancel_order "btcusdt" 42;
                       op_limit_order "btcusdt" "hold" 1 1;
                       op_account_info]
                      Sample.start))
     = true.
Proof.
  split; [eexists; reflexivity|].
  destruct (credentials_stay_as_constructed Sample.rt Sample.serve Sample.dial)
    as [_ [_ Hall]].
  destruct (Hall [op_market_order "btcusdt" "buy" 1;
                  op_cancel_order "btcusdt" 42;
                  op_limit_order "btcusdt" "hold" 1 1;
                  op_account_info] Sample.start) as (Hkey & _ & Hflag).
  split; [exact Hkey|exact Hflag].
Defined.

(** On the sample exchange: a cancellation and a market order, in lower and
    in mixed case. *)
Lemma symbol_case_is_immaterial_witness :
  (calls (env (snd (cancel_order Sample.serve "btcusdt" 1000 Sample.start)))
   = [futures_cancel_order "BTCUSDT" 1000]
   /\ same_outside (cancel_order Sample.serve "btcusdt" 1000 Sample.start)
                   (cancel_order Sample.serve "BTCUSDT" 1000 Sample.start))
  /\ (calls (env (snd (place_market_order Sample.rt Sample.serve "EthUsdt"
                         "sell" 2 Sample.start)))
      = [futures_create_order
           [("symbol", VStr "ETHUSDT"); ("side", VStr "SELL");
            ("type", VStr "MARKET"); ("quantity", VFloat 2)]]
      /\ same_outside
           (place_market_order Sample.rt Sample.serve "EthUsdt" "sell" 2
              Sample.start)
           (place_market_order Sample.rt Sample.serve "ETHUSDT" "sell" 2
              Sample.start)).
Proof.
  split.
  - exact (proj1 (proj2 (proj2 (proj2 (proj2 (proj2
             (symbol_case_is_immaterial Sample.rt Sample.serve "btcusdt"
                Sample.start)))))) 1000%Z).
  - exact (proj1 (proj2
             (symbol_case_is_immaterial Sample.rt Sample.serve "EthUsdt"
                Sample.start)) "sell"%string 2).
Defined.



(** On the sample exchange: the order id 0 for a cancellation and for a
    status query. *)
Lemma zero_order_id_is_missing_input_witness :
  (exists out,
     menu_iteration Sample.rt Sample.serve
       (Sample.at_menu [Typed "7"; Typed "btcusdt"; Typed "0"; Typed "9"])
     = (Continue,
        with_console
          (Sample.at_menu [Typed "7"; Typed "btcusdt"; Typed "0"; Typed "9"])
          {| stdin := [Typed "9"]; stdout := out |}))
  /\ (exists out,
        menu_iteration Sample.rt Sample.serve
          (Sample.at_menu [Typed "6"; Typed "btcusdt"; Typed " 000 "])
        = (Continue,
           with_console
             (Sample.at_menu [Typed "6"; Typed "btcusdt"; Typed " 000 "])
             {| stdin := []; stdout := out |})).
Proof.
  assert (Hne : Text.strip "btcusdt" <> ""%string) by discriminate.
  split.
  - exact (zero_order_id_is_missing_input Sample.rt Sample.serve
             (Sample.at_menu [Typed "7"; Typed "btcusdt"; Typed "0"; Typed "9"])
             "7" "btcusdt" "0" [Typed "9"]
             eq_refl (or_intror eq_refl) Hne eq_refl).
  - exact (zero_order_id_is_missing_input Sample.rt Sample.serve
             (Sample.at_menu [Typed "6"; Typed "btcusdt"; Typed " 000 "])
             "6" "btcusdt" " 000 " []
             eq_refl (or_introl eq_refl) Hne eq_refl).
Defined.

(** A market order for a quantity that is not a number, on the sample
    exchange. *)
Lemma nan_passes_validation_witness :
  PrimFloat.is_nan PrimFloat.nan = true
  /\ calls (env (snd (place_market_order Sample.rt Sample.serve "btcusdt" "buy"
                        PrimFloat.nan Sample.start)))
     = [market_request "btcusdt" "buy" PrimFloat.nan].
Proof.
  split; [reflexivity|].
  exact (proj1 (nan_passes_validation Sample.rt Sample.serve "btcusdt" "buy"
                  PrimFloat.nan PrimFloat.nan PrimFloat.nan PrimFloat.nan
                  Sample.start eq_refl eq_refl eq_refl eq_refl eq_refl)).
Defined.

(** On the sample exchange: a limit order with the side [buy] goes out as
    BUY, and one with the side [hold] is refused before anything is sent. *)
Lemma side_case_is_immaterial_witness :
  calls (env (snd (place_limit_order Sample.rt Sample.serve "BTCUSDT" "buy"
                     1 50000 Sample.start)))
  = [futures_create_order
       [("symbol", VStr "BTCUSDT"); ("side", VStr "BUY");
        ("type", VStr "LIMIT"); ("timeInForce", VStr "GTC");
        ("quantity", VFloat 1); ("price", VFloat 50000)]]
  /\ fst (place_limit_order Sample.rt Sample.serve "BTCUSDT" "hold"
            1 50000 Sample.start)
     = Raise (ValueError "Side must be 'BUY' or 'SELL'")
  /\ calls (env (snd (place_limit_order Sample.rt Sample.serve "BTCUSDT"
                        "hold" 1 50000 Sample.start)))
     = [].
Proof.
  split.
  - exact (proj1 (proj2
             (proj1 (proj2 (side_case_is_immaterial Sample.rt Sample.serve
                              "BTCUSDT" "buy" Sample.start))
                (or_introl eq_refl) 1 eq_refl)) 50000 eq_refl).
  - exact (proj1 (proj2
             (proj1 (side_case_is_immaterial Sample.rt Sample.serve
                       "BTCUSDT" "hold" Sample.start)
                ltac:(discriminate) ltac:(discriminate) 1 50000 0 0))).
Defined.

(** The price of a symbol the sample exchange does not know. *)
Lemma exchange_failure_propagates_witness :
  attempt Sample.rt Sample.serve (op_current_price "dogeusdt") Sample.start
  = Some (BinanceAPIException (-1121) "Invalid symbol.")
  /\ attempt Sample.rt Sample.serve (op_order_status "btcusdt" 42) Sample.start
     = Some (BinanceAPIException (-2013) "Order does not exist.").
Proof.
  split.
  - exact (proj1 (exchange_failure_propagates Sample.rt Sample.serve
                    (op_current_price "dogeusdt") _ Sample.start _ _ _
                    eq_refl eq_refl eq_refl)).
  - exact (proj1 (exchange_failure_propagates Sample.rt Sample.serve
                    (op_order_status "btcusdt" 42) _ Sample.start _ _ _
                    eq_refl eq_refl eq_refl)).
Defined.

(** The price of BTCUSDT on the sample exchange, and an answer without a
    price. *)
Lemma current_price_result_witness :
  fst (get_current_price Sample.rt Sample.serve "btcusdt" Sample.start)
  = Ok 50000
  /\ fst (get_current_price Sample.rt (Sample.answering (VDict []))
            "btcusdt" Sample.start)
     = Raise (KeyError "price").
Proof.
  split.
  - exact (current_price_result Sample.rt Sample.serve "btcusdt" Sample.start
             _ _ eq_refl).
  - exact (current_price_result Sample.rt (Sample.answering (VDict []))
             "btcusdt" Sample.start _ _ eq_refl).
Defined.

(** An order the sample exchange accepts, and an exchange whose answer has
    no order id. *)
Lemma accepted_order_result_witness :
  (exists v, fst (place_market_order Sample.rt Sample.serve "btcusdt" "buy" 1
                    Sample.start) = Ok v
             /\ Py.item v "orderId" = Ok (VInt 1001))
  /\ fst (place_limit_order Sample.rt (Sample.answering (VDict []))
            "btcusdt" "sell" 1 50000 Sample.start)
     = Raise (KeyError "orderId").
Proof.
  split.
  - eexists. split.
    + exact (proj1 (proj1 (accepted_order_result Sample.rt Sample.serve
                             "btcusdt" "buy" 1 1 1 1 Sample.start _ _
                             eq_refl eq_refl) eq_refl)).
    + reflexivity.
  - exact (proj1 (proj1 (proj2 (accepted_order_result Sample.rt
                                  (Sample.answering (VDict []))
                                  "btcusdt" "sell" 1 50000 1 1 Sample.start
                                  _ _ eq_refl eq_refl)) eq_refl eq_refl)).
Defined.

(** The status of a resting order, and of an answer that lacks the side. *)
Lemma order_status_result_witness :
  (exists st, fst (get_order_status Sample.rt Sample.serve "btcusdt" 1000
                     Sample.start) = Ok st
              /\ st_orderId st = VInt 1000 /\ st_status st = VStr "NEW")
  /\ fst (get_order_status Sample.rt
            (Sample.answering
               (VDict [("orderId", VInt 7); ("symbol", VStr "BTCUSDT");
                       ("status", VStr "NEW"); ("type", VStr "LIMIT")]))
            "btcusdt" 7 Sample.start)
     = Raise (KeyError "side").
Proof.
  split.
  - eexists. split.
    + exact (order_status_result Sample.rt Sample.serve "btcusdt" 1000
               Sample.start _ _ eq_refl).
    + split; reflexivity.
  - exact (order_status_result Sample.rt
             (Sample.answering
                (VDict [("orderId", VInt 7); ("symbol", VStr "BTCUSDT");
                        ("status", VStr "NEW"); ("type", VStr "LIMIT")]))
             "btcusdt" 7 Sample.start _ _ eq_refl).
Defined.

(** An account whose second position has the amount "n/a". *)
Lemma unreadable_position_fails_the_query_witness :
  fst (get_account_info Sample.rt (Sample.answering Sample.broken_account)
         Sample.start)
  = Raise (ValueError "could not convert string to float: 'n/a'").
Proof.
  refine (unreadable_position_fails_the_query Sample.rt
            (Sample.answering Sample.broken_account) Sample.start
            _ [Sample.position "BTCUSDT" "0.500"]
            (VDict [("symbol", VStr "ETHUSDT"); ("positionAmt", VStr "n/a")])
            [Sample.position "SOLUSDT" "-2.000"] _ _
            eq_refl eq_refl _ eq_refl).
  repeat constructor; eexists; reflexivity.
Defined.

(** An account answer with nothing in it, and an answer that is a list. *)
Lemma account_answer_with_gaps_witness :
  fst (get_account_info Sample.rt (Sample.answering (VDict [])) Sample.start)
  = Ok {| total_wallet_balance := VStr "0";
          total_unrealized_pnl := VStr "0";
          total_margin_balance := VStr "0";
          available_balance := VStr "0";
          max_withdraw_amount := VStr "0";
          positions := [] |}
  /\ fst (get_account_info Sample.rt (Sample.answering (VList []))
            Sample.start)
     = Raise (AttributeError "'list' object has no attribute 'get'").
Proof.
  split.
  - exact (account_answer_with_gaps Sample.rt (Sample.answering (VDict []))
             Sample.start (VDict []) _ eq_refl eq_refl).
  - exact (account_answer_with_gaps Sample.rt (Sample.answering (VList []))
             Sample.start (VList []) _ eq_refl).
Defined.

(** Entry 4 with an empty symbol line, and entry 7 interrupted at the
    symbol prompt. *)
Lemma missing_symbol_returns_to_menu_witness :
  (exists out,
     menu_iteration Sample.rt Sample.serve
       (Sample.at_menu [Typed "4"; Typed "   "; Typed "1"])
     = (Continue,
        with_console (Sample.at_menu [Typed "4"; Typed "   "; Typed "1"])
          {| stdin := [Typed "1"]; stdout := out |}))
  /\ (exists out,
        menu_iteration Sample.rt Sample.serve
          (Sample.at_menu [Typed "7"; CtrlC])
        = (Continue,
           with_console (Sample.at_menu [Typed "7"; CtrlC])
             {| stdin := []; stdout := out |})).
Proof.
  split.
  - refine (missing_symbol_returns_to_menu Sample.rt Sample.serve
              (Sample.at_menu [Typed "4"; Typed "   "; Typed "1"])
              "4" 4 (Typed "   ") [Typed "1"] eq_refl eq_refl _ _).
    + lia.
    + right. exists "   "%string. split; reflexivity.
  - refine (missing_symbol_returns_to_menu Sample.rt Sample.serve
              (Sample.at_menu [Typed "7"; CtrlC])
              "7" 7 CtrlC [] eq_refl eq_refl _ _).
    + lia.
    + left. reflexivity.
Defined.

(** The choices 0 and 12. *)
Lemma invalid_choice_returns_to_menu_witness :
  (exists out,
     menu_iteration Sample.rt Sample.serve (Sample.at_menu [Typed "0"])
     = (Continue,
        with_console (Sample.at_menu [Typed "0"])
          {| stdin := [];
             stdout := (out ++ ["Invalid choice. Please select a number between 1 and 9."])%list |}))
  /\ (exists out,
        menu_iteration Sample.rt Sample.serve
          (Sample.at_menu [Typed "12"; Typed "1"])
        = (Continue,
           with_console (Sample.at_menu [Typed "12"; Typed "1"])
             {| stdin := [Typed "1"];
                stdout := (out ++ ["Invalid choice. Please select a number between 1 and 9."])%list |})).
Proof.
  split.
  - refine (invalid_choice_returns_to_menu Sample.rt Sample.serve
              (Sample.at_menu [Typed "0"]) "0" 0 [] eq_refl eq_refl _).
    lia.
  - refine (invalid_choice_returns_to_menu Sample.rt Sample.serve
              (Sample.at_menu [Typed "12"; Typed "1"]) "12" 12 [Typed "1"]
              eq_refl eq_refl _).
    lia.
Defined.

(** The choice 9 with an order still typed after it. *)
Lemma leaving_the_loop_witness :
  exists out,
    forall turns,
      main_loop Sample.rt Sample.serve (S turns)
        (Sample.at_menu [Typed "9"; Typed "3"; Typed "btcusdt"])
      = with_console (Sample.at_menu [Typed "9"; Typed "3"; Typed "btcusdt"])
          {| stdin := [Typed "3"; Typed "btcusdt"]; stdout := out |}.
Proof.
  refine (leaving_the_loop Sample.rt Sample.serve
            (Sample.at_menu [Typed "9"; Typed "3"; Typed "btcusdt"])
            [Typed "3"; Typed "btcusdt"] _).
  right. exists "9"%string. split; reflexivity.
Defined.

(** Three iterations at the end of input. *)
Lemma end_of_input_loops_witness :
  log (env (main_loop Sample.rt Sample.serve 3 Sample.start))
  = [(ERROR, "Unexpected error in main loop: EOF when reading a line");
     (ERROR, "Unexpected error in main loop: EOF when reading a line");
     (ERROR, "Unexpected error in main loop: EOF when reading a line")].
Proof.
  exact (proj1 (proj2 (end_of_input_loops Sample.rt Sample.serve 3
                         Sample.start eq_refl))).
Defined.

(** Entry 8 interrupted at the symbol prompt. *)
Lemma open_orders_without_symbol_witness :
  fst (menu_iteration Sample.rt Sample.serve
         (Sample.at_menu [Typed "8"; CtrlC]))
  = Continue
  /\ calls (env (snd (menu_iteration Sample.rt Sample.serve
                        (Sample.at_menu [Typed "8"; CtrlC]))))
     = [futures_get_open_orders None].
Proof.
  exact (open_orders_without_symbol Sample.rt Sample.serve
           (Sample.at_menu [Typed "8"; CtrlC]) "8" CtrlC []
           eq_refl eq_refl (or_introl eq_refl)).
Defined.

(** A limit order typed at the menu: 0.5 BTCUSDT at 50000. *)
Lemma prompted_order_reaches_the_exchange_witness :
  calls (env (snd (menu_iteration Sample.rt Sample.serve
                     (Sample.at_menu [Typed "4"; Typed " btcusdt "; Typed "buy";
                                      Typed "0.500"; Typed "50000"]))))
  = [limit_request "btcusdt" "buy" 0.5 50000].
Proof.
  assert (Hsymbol : Text.strip " btcusdt " <> ""%string) by discriminate.
  exact (proj2 (proj1 (proj2 (prompted_order_reaches_the_exchange
                                Sample.rt Sample.serve
                                (Sample.at_menu
                                   [Typed "4"; Typed " btcusdt "; Typed "buy";
                                    Typed "0.500"; Typed "50000"])
                                "4" " btcusdt " "buy" "0.500" 0.5
                                Hsymbol eq_refl eq_refl eq_refl))
                        "50000"%string 50000 [] eq_refl eq_refl eq_refl
                        eq_refl)).
Defined.

(** With a key and a secret and an exchange that refuses the client. *)
Lemma main_connects_and_runs_the_menu_witness :
  fst (main Sample.rt Sample.serve Sample.refusing 5 (Some "key")
         (Some "secret") (env (Sample.at_menu [Typed "1"])))
  = Ok tt
  /\ stdin (tty (snd (main Sample.rt Sample.serve Sample.refusing 5
                        (Some "key") (Some "secret")
                        (env (Sample.at_menu [Typed "1"])))))
     = [Typed "1"]
  /\ snd (main Sample.rt Sample.serve Sample.dial 2 (Some "key")
            (Some "secret") (env (Sample.at_menu [Typed "9"])))
     = env (main_loop Sample.rt Sample.serve 2
              {| self := testnet_bot "key" "secret";
                 env := {| exch := exch (env Sample.start);
                           calls := []; 
                           log := [(INFO, "Connected to Binance Futures Testnet")];
                           tty := {| stdin := [Typed "9"];
                                     stdout := (welcome ++ [(mark_done ++ " Successfully connected to Binance Futures Testnet!")%string])%list |} |} |}).
Proof.
  assert (Hkey : "key"%string <> ""%string) by discriminate.
  assert (Hsecret : "secret"%string <> ""%string) by discriminate.
  pose proof (main_connects_and_runs_the_menu Sample.rt Sample.serve
                Sample.refusing 5 "key" "secret"
                (env (Sample.at_menu [Typed "1"])) _ _ Hkey Hsecret eq_refl)
    as Hrefused.
  pose proof (main_connects_and_runs_the_menu Sample.rt Sample.serve
                Sample.dial 2 "key" "secret"
                (env (Sample.at_menu [Typed "9"])) _ _ Hkey Hsecret eq_refl)
    as Hconnected.
  split; [|split].
  - rewrite Hrefused. reflexivity.
  - rewrite Hrefused. reflexivity.
  - rewrite Hconnected. reflexivity.
Defined.

(** Without credentials: the key prompt interrupted, and a key typed but
    an empty line for the secret. *)
Lemma main_without_credentials_witness :
  (exists out,
     main Sample.rt Sample.serve Sample.dial 5 None None
       (env (Sample.at_menu [CtrlC; Typed "1"]))
     = (Ok tt, {| exch := exch (env Sample.start); calls := []; log := [];
                  tty := {| stdin := [Typed "1"]; stdout := out |} |}))
  /\ (exists out,
        main Sample.rt Sample.serve Sample.dial 5 (Some "key") None
          (env (Sample.at_menu [Typed "key"; Typed ""]))
        = (Ok tt, {| exch := exch (env Sample.start); calls := []; log := [];
                     tty := {| stdin := []; stdout := out |} |})).
Proof.
  split.
  - refine (main_without_credentials Sample.rt Sample.serve Sample.dial 5
              None None (env (Sample.at_menu [CtrlC; Typed "1"]))
              [Typed "1"] eq_refl _).
    left. exists CtrlC. split; [reflexivity|left; reflexivity].
  - refine (main_without_credentials Sample.rt Sample.serve Sample.dial 5
              (Some "key"%string) None
              (env (Sample.at_menu [Typed "key"; Typed ""]))
              [] eq_refl _).
    right. exists "key"%string, (Typed ""). split; [reflexivity|].
    split; [discriminate|].
    right. exists ""%string. split; reflexivity.
Defined.

(** The open orders of a symbol nothing rests on. *)
Lemma no_open_orders_to_list_witness :
  fst (do_open_orders Sample.rt Sample.serve (Some "xrpusdt") Sample.start)
  = Ok tt
  /\ stdout (tty (env (snd (do_open_orders Sample.rt Sample.serve
                              (Some "xrpusdt") Sample.start))))
     = ["No open orders found."].
Proof.
  exact (no_open_orders_to_list Sample.rt Sample.serve (Some "xrpusdt"%string)
           _ Sample.start _ eq_refl eq_refl).
Defined.
